(** * The Alkosto search client: a shallow embedding of [algoliaClient.js]

    The client answers a product search from a query cache, from the remote
    index (with retries) or from a small built-in catalogue, and keeps an
    analytics log.  This file embeds the client's functions as Rocq
    definitions, keeping the names of the source, and proves what the
    specification says about them.

    Conventions of the embedding.
    - A JavaScript string is a [string]: a sequence of code units.  The
      character functions ([toUpperCase], [toLowerCase], the class [\s])
      are the JavaScript ones on ASCII text, which is what the catalogue
      and the filter language use.
    - [price_sale], [hitsPerPage] and the clock are integers ([Z]); the
      prices of the catalogue are far below 2^53, so comparing them with
      what [parseInt] reads is exact.  [weight_kg] and [battery_hours] and
      the literals compared with them are exact decimals ([Q]); a
      comparison of two doubles agrees with the comparison of the decimals
      they were read from as long as the literals have at most 15
      significant digits.
    - The module-level variables [searchCache], [analyticsLog] and
      [isDemoMode] are the fields of an explicit [State]; what the outside
      world decides (the clock, the answers of the remote index) is an
      explicit [World] handed to every call.
    - An exception is a value: a function that can throw returns a
      [Completion].
    - Calls of [searchProducts] are taken one at a time: a call runs from
      its first statement to its return on the state it was given.
    - Where a statement reaches past these ranges it says so: an integer
      that JavaScript holds exactly is a [safeInteger], of at most 2^53
      either way; a literal short enough to compare as its decimal is a
      [shortLiteral]; text on which the case functions are the ones of
      JavaScript is made of [isAscii] characters. *)

From Stdlib Require Import ZArith QArith Ascii String List Lia DecimalString.
From stdpp Require Import base option list gmap strings.
From Stdlib Require Import Sorted.
From Stdlib Require DecimalPos DecimalZ.
From Equations Require Import Equations.

Local Open Scope Z_scope.

(** ** JavaScript strings *)

Module JS.

Definition code (c : ascii) : N := N_of_ascii c.

Definition between (lo hi : N) (c : ascii) : bool :=
  ((lo <=? code c) && (code c <=? hi))%N.

(** The class [\d]. *)
Definition isDigit (c : ascii) : bool := between 48 57 c.

(** The class [\s], on code units below 256: tab, line feed, vertical
    tab, form feed, carriage return, space and no-break space. *)
Definition isSpace (c : ascii) : bool :=
  between 9 13 c || (code c =? 32)%N || (code c =? 160)%N.

(** The class [[^\s]]. *)
Definition notSpace (c : ascii) : bool := negb (isSpace c).

Definition upperChar (c : ascii) : ascii :=
  if between 97 122 c then ascii_of_N (code c - 32) else c.

Definition lowerChar (c : ascii) : ascii :=
  if between 65 90 c then ascii_of_N (code c + 32) else c.

Fixpoint mapChars (f : ascii -> ascii) (s : string) : string :=
  match s with
  | EmptyString => EmptyString
  | String c s' => String (f c) (mapChars f s')
  end.

Definition toUpperCase : string -> string := mapChars upperChar.
Definition toLowerCase : string -> string := mapChars lowerChar.

(** [s.startsWith(p)], returning what follows the prefix. *)
Fixpoint stripPrefix (p s : string) : option string :=
  match p with
  | EmptyString => Some s
  | String c p' =>
      match s with
      | EmptyString => None
      | String d s' => if Ascii.eqb c d then stripPrefix p' s' else None
      end
  end.

Definition startsWith (p s : string) : bool :=
  match stripPrefix p s with Some _ => true | None => false end.

(** [s.includes(needle)]. *)
Fixpoint includes (needle s : string) : bool :=
  startsWith needle s ||
  match s with
  | EmptyString => false
  | String _ s' => includes needle s'
  end.

(** [s.split(sep)] for a separator of one character. *)
Fixpoint split (sep : ascii) (s : string) : list string :=
  match s with
  | EmptyString => [EmptyString]
  | String c s' =>
      if Ascii.eqb c sep then EmptyString :: split sep s'
      else match split sep s' with
           | t :: ts => String c t :: ts
           | [] => [String c EmptyString]
           end
  end.

(** A string is truthy when it is not empty. *)
Definition truthy (s : string) : bool :=
  match s with EmptyString => false | String _ _ => true end.

(** [a || b] on strings that may be [undefined]. *)
Definition orString (a : option string) (b : string) : string :=
  match a with
  | Some s => if truthy s then s else b
  | None => b
  end.

(** [a || b] on numbers that may be [undefined]: [0] is falsy. *)
Definition orNumber (a : option Z) (b : Z) : Z :=
  match a with
  | Some n => if n =? 0 then b else n
  | None => b
  end.

(** [arr.slice(0, e)]: a negative [e] counts from the end. *)
Definition slice0 {A} (l : list A) (e : Z) : list A :=
  let len := Z.of_nat (length l) in
  let fin := if e <? 0 then Z.max (len + e) 0 else Z.min e len in
  take (Z.to_nat fin) l.

(** *** Numbers read from text *)

Definition digitVal (c : ascii) : Z := Z.of_N (code c - 48).

(** The value of a run of decimal digits, read left to right. *)
Fixpoint digitsFrom (acc : Z) (s : string) : Z :=
  match s with
  | EmptyString => acc
  | String c s' => digitsFrom (10 * acc + digitVal c) s'
  end.

(** [parseInt] on text of the form [\d+]. *)
Definition parseInt (s : string) : Z := digitsFrom 0 s.

Fixpoint spanDigits (s : string) : string * string :=
  match s with
  | EmptyString => (EmptyString, EmptyString)
  | String c s' =>
      if isDigit c
      then let '(d, r) := spanDigits s' in (String c d, r)
      else (EmptyString, s)
  end.

(** [parseFloat] on text of the form [\d+\.?\d*]: integer part, then the
    fraction over the matching power of ten. *)
Definition parseFloat (s : string) : Q :=
  let '(ip, r) := spanDigits s in
  match r with
  | String "." fr =>
      let '(fp, _) := spanDigits fr in
      let scale := Z.pow 10 (Z.of_nat (String.length fp)) in
      Qmake (digitsFrom (parseInt ip) fp) (Z.to_pos scale)
  | _ => inject_Z (parseInt ip)
  end.

(** *** Regular expressions

    The patterns of the client are sequences of a literal, greedy
    repetitions of a character class, an optional character and one
    capture group.  Each piece is a matcher in continuation-passing
    style: it consumes a prefix of the input and hands the rest to the
    continuation [k]; when [k] fails the piece backtracks to its next
    choice, as the JavaScript engine does. *)

Section Matchers.
Context {A : Type}.

(** What is left of the input and the text captured so far. *)
Definition Cont := string -> string -> option A.

(** A literal. *)
Definition lit (p : string) (k : Cont) : Cont :=
  fun cap s =>
    match stripPrefix p s with
    | Some r => k cap r
    | None => None
    end.

(** [c*] for a class [cls], greedy.  With [keep] the consumed text is
    added to the capture. *)
Fixpoint star (keep : bool) (cls : ascii -> bool) (k : Cont)
    (cap s : string) : option A :=
  match s with
  | String c s' =>
      if cls c then
        match star keep cls k
                (if keep then cap +:+ String c EmptyString else cap) s' with
        | Some r => Some r
        | None => k cap s
        end
      else k cap s
  | EmptyString => k cap s
  end.

(** [c+]: one character of the class, then [c*]. *)
Definition plus (keep : bool) (cls : ascii -> bool) (k : Cont) : Cont :=
  fun cap s =>
    match s with
    | String c s' =>
        if cls c
        then star keep cls k
               (if keep then cap +:+ String c EmptyString else cap) s'
        else None
    | EmptyString => None
    end.

(** [x?] for a character [x], greedy. *)
Definition opt (keep : bool) (x : ascii) (k : Cont) : Cont :=
  fun cap s =>
    match s with
    | String c s' =>
        if Ascii.eqb c x then
          match k (if keep then cap +:+ String c EmptyString else cap) s' with
          | Some r => Some r
          | None => k cap s
          end
        else k cap s
    | EmptyString => k cap s
    end.

(** The end of the pattern: the match succeeds with the capture. *)
Definition accept (f : string -> A) : Cont := fun cap _ => Some (f cap).

(** [s.match(re)] without the [g] flag: the match that starts
    leftmost. *)
Fixpoint firstMatch (re : Cont) (s : string) : option A :=
  match re EmptyString s with
  | Some r => Some r
  | None =>
      match s with
      | EmptyString => None
      | String _ s' => firstMatch re s'
      end
  end.
End Matchers.

End JS.

(** ** The data model *)

(** Strict comparison of two exact decimals. *)
Definition Qltb (a b : Q) : bool :=
  Qnum a * Zpos (Qden b) <? Qnum b * Zpos (Qden a).

(** The double quote, for the names that contain one. *)
Definition dq : ascii := ascii_of_N 34.

(** A product of the catalogue, with the fields the records of
    [DEMO_PRODUCTS] carry ([key_features] left out: the client never reads
    it). *)
Record Product := {
  objectID : string;
  name : string;
  brand : string;
  price_sale : Z;
  price_list : Z;
  ram : string;
  storage : string;
  processor : string;
  processor_brand : string;
  weight_kg : Q;
  battery_hours : Q;
  screen_size : string;
  os : string;
  in_stock : bool;
  stock : Z;
  url : string;
  image_1 : string
}.

Definition demo_1 : Product :=
  {| objectID := "demo-1";
     name := "HP Laptop 15" +:+ String dq " Intel Core i5 16GB RAM 512GB SSD";
     brand := "HP";
     price_sale := 2499000; price_list := 2899000;
     ram := "16 GB"; storage := "512 GB SSD";
     processor := "Intel Core i5-1235U"; processor_brand := "Intel";
     weight_kg := 169 # 100; battery_hours := 80 # 10;
     screen_size := "15.6 Pulgadas"; os := "Windows";
     in_stock := true; stock := 45;
     url := "https://www.alkosto.com/laptop-hp-15-intel-core-i5";
     image_1 := "https://cdn.dam.alkosto.com/hp-laptop-15.jpg" |}.

Definition demo_2 : Product :=
  {| objectID := "demo-2";
     name := "ASUS VivoBook 14" +:+ String dq " AMD Ryzen 5 8GB RAM 256GB SSD";
     brand := "ASUS";
     price_sale := 1999000; price_list := 2299000;
     ram := "8 GB"; storage := "256 GB SSD";
     processor := "AMD Ryzen 5 5500U"; processor_brand := "AMD";
     weight_kg := 140 # 100; battery_hours := 100 # 10;
     screen_size := "14 Pulgadas"; os := "Windows";
     in_stock := true; stock := 23;
     url := "https://www.alkosto.com/asus-vivobook-14-amd";
     image_1 := "https://cdn.dam.alkosto.com/asus-vivobook-14.jpg" |}.

Definition demo_3 : Product :=
  {| objectID := "demo-3";
     name := "Lenovo IdeaPad 3 15.6" +:+ String dq " Intel Core i3 8GB RAM 256GB SSD";
     brand := "LENOVO";
     price_sale := 1799000; price_list := 1999000;
     ram := "8 GB"; storage := "256 GB SSD";
     processor := "Intel Core i3-1115G4"; processor_brand := "Intel";
     weight_kg := 170 # 100; battery_hours := 75 # 10;
     screen_size := "15.6 Pulgadas"; os := "Windows";
     in_stock := true; stock := 67;
     url := "https://www.alkosto.com/lenovo-ideapad-3-15";
     image_1 := "https://cdn.dam.alkosto.com/lenovo-ideapad-3.jpg" |}.

Definition demo_4 : Product :=
  {| objectID := "demo-4";
     name := "MacBook Air M2 13.6" +:+ String dq " 8GB RAM 256GB SSD";
     brand := "APPLE";
     price_sale := 4999000; price_list := 5499000;
     ram := "8 GB"; storage := "256 GB SSD";
     processor := "Apple M2"; processor_brand := "Apple";
     weight_kg := 124 # 100; battery_hours := 180 # 10;
     screen_size := "13.6 Pulgadas"; os := "MacOS";
     in_stock := true; stock := 15;
     url := "https://www.alkosto.com/macbook-air-m2";
     image_1 := "https://cdn.dam.alkosto.com/macbook-air-m2.jpg" |}.

Definition demo_5 : Product :=
  {| objectID := "demo-5";
     name := "Dell Inspiron 15 3000 Intel Core i5 12GB RAM 512GB SSD";
     brand := "DELL";
     price_sale := 2299000; price_list := 2599000;
     ram := "12 GB"; storage := "512 GB SSD";
     processor := "Intel Core i5-1235U"; processor_brand := "Intel";
     weight_kg := 173 # 100; battery_hours := 85 # 10;
     screen_size := "15.6 Pulgadas"; os := "Windows";
     in_stock := true; stock := 32;
     url := "https://www.alkosto.com/dell-inspiron-15-3000";
     image_1 := "https://cdn.dam.alkosto.com/dell-inspiron-15.jpg" |}.

Definition DEMO_PRODUCTS : list Product :=
  [demo_1; demo_2; demo_3; demo_4; demo_5].

(** The search parameters: every field may be [undefined]. *)
Record Params := {
  query : option string;
  filters : option string;
  hitsPerPage : option Z;
  attributesToRetrieve : option (list string)
}.

(** The object [{}]. *)
Definition emptyParams : Params :=
  {| query := None; filters := None; hitsPerPage := None;
     attributesToRetrieve := None |}.

(** What a caller passes: nothing, [null], or an object. *)
Inductive Arg :=
| Undefined
| Null
| Obj (p : Params).

(** [params || {}]. *)
Definition safeParams (a : Arg) : Params :=
  match a with
  | Obj p => p
  | Undefined | Null => emptyParams
  end.

(** The result of a search.  [fallback] and [error] are absent unless the
    fallback path sets them. *)
Record SearchResult := {
  hits : list Product;
  total : Z;
  page : Z;
  processingTimeMs : Z;
  source : string;
  fallback : option bool;
  error : option string
}.

Record CacheEntry := {
  data : SearchResult;
  timestamp : Z
}.

(** An entry of the analytics log. *)
Record LogEntry := {
  log_timestamp : Z;
  log_query : option string;
  log_filters : option string;
  hitsCount : Z;
  totalHits : Z;
  duration : Z;
  fromCache : bool;
  log_source : string
}.

Record Config := {
  MAX_RETRIES : Z;
  RETRY_DELAY_MS : Z;
  CACHE_TTL_MS : Z;
  DEMO_FALLBACK : bool;
  ANALYTICS_ENABLED : bool
}.

Definition CONFIG : Config :=
  {| MAX_RETRIES := 3;
     RETRY_DELAY_MS := 1000;
     CACHE_TTL_MS := 5 * 60 * 1000;
     DEMO_FALLBACK := true;
     ANALYTICS_ENABLED := true |}.

(** ** The filter interpreter: [searchDemoProducts] *)

Module Filter.
Import JS.

(** The pattern of the budget filter, piece by piece:
    [price_sale  \s*  <?  \s*  ( \d+ )]. *)
Definition budgetRe : Cont (A := string) :=
  lit "price_sale" (star false isSpace (opt false "<" (star false isSpace
    (plus true isDigit (accept id))))).

(** The pattern of the weight filter:
    [weight_kg  \s*  <?  \s*  ( \d+  \.?  \d* )]. *)
Definition weightRe : Cont (A := string) :=
  lit "weight_kg" (star false isSpace (opt false "<" (star false isSpace
    (plus true isDigit (opt true "." (star true isDigit (accept id))))))).

(** The pattern of the battery filter:
    [battery_hours  \s*  >?  \s*  ( \d+  \.?  \d* )]. *)
Definition batteryRe : Cont (A := string) :=
  lit "battery_hours" (star false isSpace (opt false ">" (star false isSpace
    (plus true isDigit (opt true "." (star true isDigit (accept id))))))).

(** The pattern of the brand filter: [brand:  ( [^\s]+ )]. *)
Definition brandRe : Cont (A := string) :=
  lit "brand:" (plus true notSpace (accept id)).

Definition budgetMatch (f : string) : option string := firstMatch budgetRe f.
Definition weightMatch (f : string) : option string := firstMatch weightRe f.
Definition batteryMatch (f : string) : option string := firstMatch batteryRe f.
Definition brandMatch (f : string) : option string := firstMatch brandRe f.

Definition byBudget (f : string) (results : list Product) : list Product :=
  match budgetMatch f with
  | Some m =>
      let budget := parseInt m in
      List.filter (fun p => price_sale p <? budget) results
  | None => results
  end.

Definition byWeight (f : string) (results : list Product) : list Product :=
  match weightMatch f with
  | Some m =>
      let maxWeight := parseFloat m in
      List.filter (fun p => Qltb (weight_kg p) maxWeight) results
  | None => results
  end.

Definition byBattery (f : string) (results : list Product) : list Product :=
  match batteryMatch f with
  | Some m =>
      let minBattery := parseFloat m in
      List.filter (fun p => Qltb minBattery (battery_hours p)) results
  | None => results
  end.

Definition byStock (f : string) (results : list Product) : list Product :=
  if includes "in_stock:true" f
  then List.filter (fun p => in_stock p) results
  else results.

Definition byBrand (f : string) (results : list Product) : list Product :=
  match brandMatch f with
  | Some m =>
      let b := toUpperCase m in
      List.filter (fun p => String.eqb (toUpperCase (brand p)) b) results
  | None => results
  end.

(** The block [if (filters) { ... }]. *)
Definition applyFilters (f : string) (results : list Product) : list Product :=
  if truthy f
  then byBrand f (byStock f (byBattery f (byWeight f (byBudget f results))))
  else results.

(** The block [if (query && query !== 'laptop') { ... }]. *)
Definition applyQuery (q : string) (results : list Product) : list Product :=
  if truthy q && negb (String.eqb q "laptop")
  then
    let searchTerms := split " " (toLowerCase q) in
    List.filter
      (fun p =>
         let nameLower := toLowerCase (name p) in
         existsb (fun term => includes term nameLower) searchTerms)
      results
  else results.

(** [results.sort((a, b) => a.price_sale - b.price_sale)]: ascending
    price, and stable, so products of one price keep their order. *)
Fixpoint insertByPrice (x : Product) (l : list Product) : list Product :=
  match l with
  | [] => [x]
  | y :: l' =>
      if price_sale x <=? price_sale y
      then x :: y :: l'
      else y :: insertByPrice x l'
  end.

Fixpoint sortByPrice (l : list Product) : list Product :=
  match l with
  | [] => []
  | x :: l' => insertByPrice x (sortByPrice l')
  end.

(** The products that pass the filters and the query, before they are
    sorted and cut to a page. *)
Definition matching (p : Params) : list Product :=
  applyQuery (default "" (query p))
    (applyFilters (default "" (filters p)) DEMO_PRODUCTS).
End Filter.

Definition searchDemoProducts (params : Arg) : SearchResult :=
  let p := safeParams params in
  let hitsPerPage := default 5 (hitsPerPage p) in
  let results := Filter.sortByPrice (Filter.matching p) in
  {| hits := JS.slice0 results hitsPerPage;
     total := Z.of_nat (length results);
     page := 0;
     processingTimeMs := 10;
     source := "demo";
     fallback := None;
     error := None |}.

(** ** The query cache: [generateCacheKey], [isCacheValid] *)

Module Json.
Import JS.

(** The backslash. *)
Definition bs : ascii := ascii_of_N 92.

Definition hexDigit (n : N) : ascii :=
  if (n <? 10)%N then ascii_of_N (48 + n) else ascii_of_N (87 + n).

(** How [JSON.stringify] writes one character of a string: the quote and
    the backslash are escaped, a control character gets its short escape
    or its four hexadecimal digits, everything else is copied. *)
Definition escapeChar (c : ascii) : string :=
  let n := code c in
  if (n =? 34)%N then String bs (String dq EmptyString)
  else if (n =? 92)%N then String bs (String bs EmptyString)
  else if (n =? 8)%N then String bs "b"
  else if (n =? 9)%N then String bs "t"
  else if (n =? 10)%N then String bs "n"
  else if (n =? 12)%N then String bs "f"
  else if (n =? 13)%N then String bs "r"
  else if (n <? 32)%N then
    String bs ("u00" +:+ String (hexDigit (n / 16))
                          (String (hexDigit (n mod 16)) EmptyString))
  else String c EmptyString.

Fixpoint escape (s : string) : string :=
  match s with
  | EmptyString => EmptyString
  | String c s' => escapeChar c +:+ escape s'
  end.

(** [JSON.stringify] of a string. *)
Definition quote (s : string) : string :=
  String dq (escape s +:+ String dq EmptyString).

(** [JSON.stringify] of an integer. *)
Definition number (n : Z) : string := NilZero.string_of_int (Z.to_int n).

(** A member [,"key":]. *)
Definition key (k : string) : string := quote k +:+ ":".
End Json.

(** [JSON.stringify({query: .. || '', filters: .. || '', hitsPerPage: .. || 5})] *)
Definition generateCacheKey (params : Arg) : string :=
  let p := safeParams params in
  "{" +:+ Json.key "query" +:+ Json.quote (JS.orString (query p) "")
  +:+ "," +:+ Json.key "filters" +:+ Json.quote (JS.orString (filters p) "")
  +:+ "," +:+ Json.key "hitsPerPage" +:+ Json.number (JS.orNumber (hitsPerPage p) 5)
  +:+ "}".

(** [isCacheValid(entry)], with the reading of [Date.now()] made explicit. *)
Definition isCacheValid (cfg : Config) (now : Z) (entry : option CacheEntry) : bool :=
  match entry with
  | None => false
  | Some e =>
      let age := now - timestamp e in
      age <? CACHE_TTL_MS cfg
  end.

(** ** State, world and effects *)

(** The variables of the module. *)
Record State := {
  searchCache : gmap string CacheEntry;
  analyticsLog : list LogEntry;
  isDemoMode : bool
}.

(** What [performAlgoliaSearch] sends to [index.search]. *)
Record SearchParams := {
  sp_query : string;
  sp_hitsPerPage : Z;
  sp_attributesToRetrieve : list string;
  sp_filters : option string
}.

(** What the remote index answers. *)
Record Response := {
  r_hits : list Product;
  nbHits : Z;
  r_page : Z;
  processingTimeMS : Z
}.

(** [await index.search(..)] either resolves or rejects with an error, of
    which the client reads the message. *)
Inductive RemoteOutcome :=
| Answer (r : Response)
| Fail (message : string).

(** What one call of [searchProducts] reads from outside: the clock, at
    each place the source reads it, and the outcome of [index.search] at
    each attempt. *)
Record World := {
  now_start : Z;
  now_check : Z;
  now_end : Z;
  now_store : Z;
  now_log : Z;
  index_search : Z -> SearchParams -> RemoteOutcome
}.

(** A call returns a value or throws an error with a message. *)
Inductive Completion (A : Type) :=
| Return (a : A)
| Throw (message : string).
Arguments Return {A} a.
Arguments Throw {A} message.

(** Reading a property of [null] or [undefined]. *)
Definition TypeError_null : string :=
  "Cannot read properties of null (reading 'query')".
Definition TypeError_undefined : string :=
  "Cannot read properties of undefined (reading 'query')".

(** [params.query], which throws when [params] is no object. *)
Definition readQuery (params : Arg) : Completion (option string) :=
  match params with
  | Obj p => Return (query p)
  | Null => Throw TypeError_null
  | Undefined => Throw TypeError_undefined
  end.

(** ** The analytics recorder: [logAnalytics], [getAnalytics] *)

(** [analyticsLog.push(logEntry)], then [shift()] once the log is longer
    than 1000 entries. *)
Definition pushLog (log : list LogEntry) (logEntry : LogEntry) : list LogEntry :=
  let pushed := log ++ [logEntry] in
  if 1000 <? Z.of_nat (length pushed) then tail pushed else pushed.

(** The object [logEntry]: its [source] is read from [isDemoMode]. *)
Definition makeLogEntry (now : Z) (st : State) (params : Arg)
    (result : SearchResult) (duration : Z) (fromCache : bool) : LogEntry :=
  let p := safeParams params in
  {| log_timestamp := now;
     log_query := query p;
     log_filters := filters p;
     hitsCount := Z.of_nat (length (hits result));
     totalHits := total result;
     duration := duration;
     fromCache := fromCache;
     log_source := if isDemoMode st then "demo" else "algolia" |}.

Definition logAnalytics (cfg : Config) (now : Z) (st : State) (params : Arg)
    (result : SearchResult) (duration : Z) (fromCache : bool) : State :=
  if negb (ANALYTICS_ENABLED cfg) then st
  else
    {| searchCache := searchCache st;
       analyticsLog :=
         pushLog (analyticsLog st)
           (makeLogEntry now st params result duration fromCache);
       isDemoMode := isDemoMode st |}.

(** The counts of [getAnalytics()]; the two figures it renders as text,
    the hit rate and the mean duration, are left out. *)
Record Summary := {
  totalSearches : Z;
  cacheHits : Z;
  demoSearches : Z;
  recentSearches : list LogEntry
}.

Definition isDemoEntry (l : LogEntry) : bool := String.eqb (log_source l) "demo".

(** [None] stands for the answer [{ message: .. }] on an empty log. *)
Definition getAnalytics (st : State) : option Summary :=
  let log := analyticsLog st in
  if Z.of_nat (length log) =? 0 then None
  else Some
    {| totalSearches := Z.of_nat (length log);
       cacheHits := Z.of_nat (length (List.filter fromCache log));
       demoSearches := Z.of_nat (length (List.filter isDemoEntry log));
       recentSearches := drop (length log - 10)%nat log |}.

Definition clearCache (st : State) : State :=
  {| searchCache := ∅; analyticsLog := analyticsLog st;
     isDemoMode := isDemoMode st |}.

Definition clearAnalytics (st : State) : State :=
  {| searchCache := searchCache st; analyticsLog := [];
     isDemoMode := isDemoMode st |}.

Definition setDemoMode (enabled : bool) (st : State) : State :=
  {| searchCache := searchCache st; analyticsLog := analyticsLog st;
     isDemoMode := enabled |}.

(** The [entries] of [getCacheStats()]. *)
Definition cacheEntries (st : State) : nat := size (searchCache st).

(** [searchCache.set(key, { data, timestamp })] *)
Definition cacheSet (key : string) (result : SearchResult) (now : Z)
    (st : State) : State :=
  {| searchCache := <[key := {| data := result; timestamp := now |}]> (searchCache st);
     analyticsLog := analyticsLog st;
     isDemoMode := isDemoMode st |}.

(** ** The remote search gateway: [performAlgoliaSearch] *)

(** What a run of the gateway leaves behind: how it completes, the delays
    it waited for, in order and in milliseconds, and how many times it
    called [index.search]. *)
Record GatewayRun := {
  outcome : Completion SearchResult;
  delays : list Z;
  calls : nat
}.

(** The payload [searchParams]; reading [params.query] throws when
    [params] is no object. *)
Definition buildSearchParams (params : Arg) : Completion SearchParams :=
  match params with
  | Obj p =>
      Return
        {| sp_query := JS.orString (query p) "";
           sp_hitsPerPage := JS.orNumber (hitsPerPage p) 5;
           sp_attributesToRetrieve := default [] (attributesToRetrieve p);
           sp_filters := match filters p with
                         | Some f => if JS.truthy f then Some f else None
                         | None => None
                         end |}
  | Null => Throw TypeError_null
  | Undefined => Throw TypeError_undefined
  end.

Definition fromResponse (r : Response) : SearchResult :=
  {| hits := r_hits r;
     total := nbHits r;
     page := r_page r;
     processingTimeMs := processingTimeMS r;
     source := "algolia";
     fallback := None;
     error := None |}.

(** After a delay the gateway runs again: the delay comes first, the call
    is one more. *)
Definition afterDelay (ms : Z) (next : GatewayRun) : GatewayRun :=
  {| outcome := outcome next;
     delays := ms :: delays next;
     calls := S (calls next) |}.

Equations? performAlgoliaSearch (cfg : Config) (w : World) (params : Arg)
    (attempt : Z) : GatewayRun
  by wf (Z.to_nat (MAX_RETRIES cfg - attempt)) lt :=
performAlgoliaSearch cfg w params attempt with buildSearchParams params => {
  | Throw e => {| outcome := Throw e; delays := []; calls := 0 |}
  | Return searchParams with index_search w attempt searchParams => {
    | Answer result =>
        {| outcome := Return (fromResponse result); delays := []; calls := 1 |}
    | Fail e with Z_lt_dec attempt (MAX_RETRIES cfg) => {
      | left _ =>
          afterDelay (RETRY_DELAY_MS cfg * attempt)
            (performAlgoliaSearch cfg w params (attempt + 1))
      | right _ => {| outcome := Throw e; delays := []; calls := 1 |} } } }.
Proof. lia. Qed.

(** ** The search orchestrator: [searchProducts] *)

(** What a call of [searchProducts] leaves behind: how it completes, the
    state of the module afterwards, the delays waited for, and how many
    times the remote index and the built-in catalogue were searched. *)
Record Run := {
  completion : Completion SearchResult;
  final : State;
  waited : list Z;
  remoteCalls : nat;
  demoRuns : nat
}.

(** The fallback result: [result.fallback = true; result.error = error.message]. *)
Definition markFallback (message : string) (result : SearchResult) : SearchResult :=
  {| hits := hits result;
     total := total result;
     page := page result;
     processingTimeMs := processingTimeMs result;
     source := source result;
     fallback := Some true;
     error := Some message |}.

(** The branch [if (isCacheValid(cached)) { ... }].  Its first statement
    logs [params.query] to the console, which reads a property of
    [params]. *)
Definition cacheHit (cfg : Config) (w : World) (st : State) (params : Arg)
    (cached : CacheEntry) : Run :=
  match readQuery params with
  | Throw e =>
      {| completion := Throw e; final := st;
         waited := []; remoteCalls := 0; demoRuns := 0 |}
  | Return _ =>
      {| completion := Return (data cached);
         final := logAnalytics cfg (now_log w) st params (data cached) 0 true;
         waited := []; remoteCalls := 0; demoRuns := 0 |}
  end.

(** The branch [if (isDemoMode) { ... }]. *)
Definition demoSearch (cfg : Config) (w : World) (st : State) (params : Arg)
    (startTime : Z) (cacheKey : string) : Run :=
  let result := searchDemoProducts params in
  let duration := now_end w - startTime in
  let st1 := logAnalytics cfg (now_log w) st params result duration false in
  let st2 := cacheSet cacheKey result (now_store w) st1 in
  {| completion := Return result; final := st2;
     waited := []; remoteCalls := 0; demoRuns := 1 |}.

(** The block [try { ... } catch (error) { ... }]. *)
Definition remoteSearch (cfg : Config) (w : World) (st : State) (params : Arg)
    (startTime : Z) (cacheKey : string) : Run :=
  let g := performAlgoliaSearch cfg w params 1 in
  match outcome g with
  | Return result =>
      let duration := now_end w - startTime in
      let st1 := logAnalytics cfg (now_log w) st params result duration false in
      let st2 := cacheSet cacheKey result (now_store w) st1 in
      {| completion := Return result; final := st2;
         waited := delays g; remoteCalls := calls g; demoRuns := 0 |}
  | Throw message =>
      if DEMO_FALLBACK cfg then
        let result := markFallback message (searchDemoProducts params) in
        let duration := now_end w - startTime in
        let st1 := logAnalytics cfg (now_log w) st params result duration false in
        {| completion := Return result; final := st1;
           waited := delays g; remoteCalls := calls g; demoRuns := 1 |}
      else
        {| completion := Throw message; final := st;
           waited := delays g; remoteCalls := calls g; demoRuns := 0 |}
  end.

(** [searchProducts(params = {})]: the default stands in for [undefined]
    only, [null] is passed on as it is. *)
Definition defaultArg (arg : Arg) : Arg :=
  match arg with
  | Undefined => Obj emptyParams
  | _ => arg
  end.

Definition searchProducts (cfg : Config) (w : World) (st : State) (arg : Arg) : Run :=
  let params := defaultArg arg in
  let startTime := now_start w in
  let cacheKey := generateCacheKey params in
  let cached := searchCache st !! cacheKey in
  if isCacheValid cfg (now_check w) cached then
    match cached with
    | Some c => cacheHit cfg w st params c
    | None =>
        (* not reached, [isCacheValid] being false without an entry;
           [cached.data] would throw here *)
        {| completion := Throw "Cannot read properties of undefined (reading 'data')";
           final := st; waited := []; remoteCalls := 0; demoRuns := 0 |}
    end
  else if isDemoMode st then demoSearch cfg w st params startTime cacheKey
  else remoteSearch cfg w st params startTime cacheKey.

(** ** Notions used in the statements *)

(** The five predicates a filter string stands for, as the interpreter
    reads them: for each numeric field and for the brand, the text of the
    leftmost match of the field's pattern; for the stock, the presence
    of [in_stock:true]. *)
Definition passes (f : string) (h : Product) : Prop :=
  (forall m, Filter.budgetMatch f = Some m -> price_sale h < JS.parseInt m) /\
  (forall m, Filter.weightMatch f = Some m -> (weight_kg h < JS.parseFloat m)%Q) /\
  (forall m, Filter.batteryMatch f = Some m -> (JS.parseFloat m < battery_hours h)%Q) /\
  (forall m, Filter.brandMatch f = Some m ->
             JS.toUpperCase (brand h) = JS.toUpperCase m) /\
  (JS.includes "in_stock:true" f = true -> in_stock h = true).

(** No pattern of the interpreter matches anywhere in [f]. *)
Definition unrecognised (f : string) : Prop :=
  Filter.budgetMatch f = None /\ Filter.weightMatch f = None /\ Filter.batteryMatch f = None /\
  Filter.brandMatch f = None /\ JS.includes "in_stock:true" f = false.

(** A filter string built from atoms, as the callers build it:
    [filters.join(' AND ')]. *)
Fixpoint joinAnd (atoms : list string) : string :=
  match atoms with
  | [] => EmptyString
  | a :: rest =>
      match rest with
      | [] => a
      | _ :: _ => a +:+ " AND " +:+ joinAnd rest
      end
  end.

(** The first atom for which [f] has an answer. *)
Fixpoint firstSome {A} (f : string -> option A) (atoms : list string) : option A :=
  match atoms with
  | [] => None
  | a :: rest =>
      match f a with
      | Some r => Some r
      | None => firstSome f rest
      end
  end.

Definition matched {A} (o : option A) : bool :=
  match o with Some _ => true | None => false end.

(** An atom in which one of the interpreter's patterns matches. *)
Definition recognisedb (a : string) : bool :=
  matched (Filter.budgetMatch a) || matched (Filter.weightMatch a) ||
  matched (Filter.batteryMatch a) || matched (Filter.brandMatch a) ||
  JS.includes "in_stock:true" a.

(** The predicates a list of atoms stands for, as the interpreter reads
    their conjunction: for each field the first atom in which the field's
    pattern matches. *)
Definition passesAtoms (atoms : list string) (h : Product) : Prop :=
  (forall m, firstSome Filter.budgetMatch atoms = Some m ->
             price_sale h < JS.parseInt m) /\
  (forall m, firstSome Filter.weightMatch atoms = Some m ->
             (weight_kg h < JS.parseFloat m)%Q) /\
  (forall m, firstSome Filter.batteryMatch atoms = Some m ->
             (JS.parseFloat m < battery_hours h)%Q) /\
  (forall m, firstSome Filter.brandMatch atoms = Some m ->
             JS.toUpperCase (brand h) = JS.toUpperCase m) /\
  (existsb (JS.includes "in_stock:true") atoms = true -> in_stock h = true).

Fixpoint allChars (cls : ascii -> bool) (s : string) : bool :=
  match s with
  | EmptyString => true
  | String c s' => cls c && allChars cls s'
  end.

Definition noSpace (p : string) : bool :=
  allChars (fun c => negb (Ascii.eqb c " ")) p.

(** The text [" A" ++ t]: how a separator [" AND "] and what follows it
    begin. *)
Definition andThen (t : string) : string := String " " (String "A" t).

(** A matcher that answers on [s] as on [s] followed by a separator. *)
Definition Stable {A} (t : string) (k : JS.Cont (A := A)) : Prop :=
  forall cap s, k cap (s +:+ andThen t) = k cap s.

(** A matcher that fails on text that starts with the [A] of a separator. *)
Definition FailsA {A} (t : string) (k : JS.Cont (A := A)) : Prop :=
  forall cap, k cap (String "A" t) = None.

(** A pattern that cannot start at a character of the separator. *)
Definition SkipsAnd {A} (re : JS.Cont (A := A)) : Prop :=
  forall x, re EmptyString (String " " x) = None /\
            re EmptyString (String "A" x) = None /\
            re EmptyString (String "N" x) = None /\
            re EmptyString (String "D" x) = None.

(** The time a run spent waiting. *)
Definition totalDelay (ds : list Z) : Z := fold_right Z.add 0 ds.


(** Reading back one character written by [Json.escapeChar]; used only to
    show that the escaping loses nothing. *)
Definition hexVal (c : ascii) : N :=
  if JS.isDigit c then (JS.code c - 48)%N else (JS.code c - 87)%N.

Definition unescapeChar (s : string) : option (ascii * string) :=
  match s with
  | EmptyString => None
  | String c r =>
      if (JS.code c =? 34)%N then None
      else if (JS.code c =? 92)%N then
        match r with
        | String d r' =>
            if (JS.code d =? 34)%N then Some (d, r')
            else if (JS.code d =? 92)%N then Some (d, r')
            else if (JS.code d =? 98)%N then Some (ascii_of_N 8, r')
            else if (JS.code d =? 116)%N then Some (ascii_of_N 9, r')
            else if (JS.code d =? 110)%N then Some (ascii_of_N 10, r')
            else if (JS.code d =? 102)%N then Some (ascii_of_N 12, r')
            else if (JS.code d =? 114)%N then Some (ascii_of_N 13, r')
            else if (JS.code d =? 117)%N then
              match r' with
              | String _ (String _ (String h (String l r''))) =>
                  Some (ascii_of_N (16 * hexVal h + hexVal l), r'')
              | _ => None
              end
            else None
        | EmptyString => None
        end
      else Some (c, r)
  end.

(** *** Worlds and states of the examples *)

(** A world whose clock reads [t] throughout and whose remote index is
    down, and the two states of a fresh module. *)
Definition W_tick (t : Z) : World :=
  {| now_start := t; now_check := t; now_end := t; now_store := t;
     now_log := t; index_search := fun _ _ => Fail "down" |}.

Definition S_demo : State :=
  {| searchCache := ∅; analyticsLog := []; isDemoMode := true |}.

Definition S_remote : State :=
  {| searchCache := ∅; analyticsLog := []; isDemoMode := false |}.

(** A world in which the remote index is down. *)
Definition W_down : World :=
  {| now_start := 0; now_check := 0; now_end := 3050; now_store := 3050;
     now_log := 3050; index_search := fun _ _ => Fail "down" |}.

(** A world for calls that never reach the remote index. *)
Definition W0 : World :=
  {| now_start := 0; now_check := 0; now_end := 0; now_store := 0;
     now_log := 0; index_search := fun _ _ => Fail "unreachable" |}.

(** ** Calls in sequence *)

(** A series of calls of [searchProducts], each with its argument and the
    world it meets, threaded through the state of the module. *)
Fixpoint searchAll (cfg : Config) (calls : list (World * Arg)) (st : State) : State :=
  match calls with
  | [] => st
  | (w, arg) :: rest => searchAll cfg rest (final (searchProducts cfg w st arg))
  end.

(** A world whose index answers with one product. *)
Definition W_up : World :=
  {| now_start := 0; now_check := 0; now_end := 40; now_store := 40;
     now_log := 40;
     index_search := fun _ _ =>
       Answer {| r_hits := [demo_4]; nbHits := 1; r_page := 0;
                 processingTimeMS := 2 |} |}.

(** The configuration of the source with the fallback switched off. *)
Definition CONFIG_no_fallback : Config :=
  {| MAX_RETRIES := MAX_RETRIES CONFIG;
     RETRY_DELAY_MS := RETRY_DELAY_MS CONFIG;
     CACHE_TTL_MS := CACHE_TTL_MS CONFIG;
     DEMO_FALLBACK := false;
     ANALYTICS_ENABLED := ANALYTICS_ENABLED CONFIG |}.

(** ** Notions for the further properties *)

(** The integers JavaScript holds exactly, up to 2^53 either way.  Past
    them [n + 1] can be [n] and [parseInt] rounds, and from 10^21 on a
    number is written with an exponent; within them the integers of the
    embedding are the numbers of the program. *)
Definition safeInteger (n : Z) : bool := Z.abs n <=? 9007199254740992.

(** A character of ASCII: on these [toUpperCase] and [toLowerCase] are the
    functions of JavaScript. *)
Definition isAscii (c : ascii) : bool := (JS.code c <? 128)%N.

(** A literal read by a pattern, or none.  One of at most 15 characters has
    at most 15 significant digits, and the double JavaScript reads from it
    compares with the doubles of the catalogue as the decimal compares
    with their decimals. *)
Definition shortLiteral (m : option string) : bool :=
  match m with
  | Some s => (String.length s <=? 15)%nat
  | None => true
  end.

(** Ascending price. *)
Definition cheaperOrEqual (x y : Product) : Prop := price_sale x <= price_sale y.

(** The products of one price, in the order of the list. *)
Definition ofPrice (c : Z) (l : list Product) : list Product :=
  List.filter (fun y => price_sale y =? c) l.

(** The text filter of the query, as a predicate on one product: the query
    is empty, or the word [laptop], or one of its terms occurs in the
    name. *)
Definition queryKeeps (q : string) (h : Product) : bool :=
  if JS.truthy q && negb (String.eqb q "laptop")
  then existsb (fun term => JS.includes term (JS.toLowerCase (name h)))
         (JS.split " " (JS.toLowerCase q))
  else true.

(** ** Loading the module: [initializeClient] *)

(** The module after it is loaded: its state, and whether [index] was
    set. *)
Record Loaded := {
  loaded : State;
  indexReady : bool
}.

(** [initializeClient()], run once on a fresh module.  [apiKey] is the
    environment variable, [connect] tells how the two calls that build
    [client] and [index] complete. *)
Definition initializeClient (cfg : Config) (apiKey : option string)
    (connect : Completion unit) : Loaded :=
  let fresh := {| searchCache := ∅; analyticsLog := []; isDemoMode := false |} in
  if negb (JS.truthy (default "" apiKey)) then
    {| loaded := setDemoMode true fresh; indexReady := false |}
  else
    match connect with
    | Return _ => {| loaded := fresh; indexReady := true |}
    | Throw _ =>
        if DEMO_FALLBACK cfg
        then {| loaded := setDemoMode true fresh; indexReady := false |}
        else {| loaded := fresh; indexReady := false |}
    end.

(** What [index.search] does while [index] is [null]. *)
Definition TypeError_no_index : string :=
  "Cannot read properties of null (reading 'search')".

(** The world as a module sees it whose [index] was not set. *)
Definition withoutIndex (w : World) : World :=
  {| now_start := now_start w; now_check := now_check w; now_end := now_end w;
     now_store := now_store w; now_log := now_log w;
     index_search := fun _ _ => Fail TypeError_no_index |}.

Definition worldOf (m : Loaded) (w : World) : World :=
  if indexReady m then w else withoutIndex w.

(** ** More of JavaScript: [trim], [parseInt] on any text, arrays

    What is typed at a prompt is text of code units below 256, as all
    text here.  [toLowerCase] touches the letters A to Z only; on the
    other letters below 256 JavaScript stays outside ASCII as well, so
    whether a word of ASCII letters occurs in the lowered text is the same
    in both.  Numbers read from text are integers: they are the values
    JavaScript holds as long as they stay within 2^53. *)

Module JSText.
Import JS.

Fixpoint trimStart (s : string) : string :=
  match s with
  | EmptyString => EmptyString
  | String c s' => if isSpace c then trimStart s' else s
  end.

Fixpoint trimEnd (s : string) : string :=
  match s with
  | EmptyString => EmptyString
  | String c s' =>
      match trimEnd s' with
      | EmptyString => if isSpace c then EmptyString else String c EmptyString
      | r => String c r
      end
  end.

(** [s.trim()] *)
Definition trim (s : string) : string := trimEnd (trimStart s).

(** The value of a digit in base 10 or 16. *)
Definition digitOf (radix : Z) (c : ascii) : option Z :=
  if isDigit c then Some (Z.of_N (code c - 48))
  else if (radix =? 16) && between 97 102 c then Some (Z.of_N (code c - 87))
  else if (radix =? 16) && between 65 70 c then Some (Z.of_N (code c - 55))
  else None.

Fixpoint readDigits (radix : Z) (acc : Z) (s : string) : Z :=
  match s with
  | EmptyString => acc
  | String c s' =>
      match digitOf radix c with
      | Some v => readDigits radix (radix * acc + v) s'
      | None => acc
      end
  end.

(** [parseInt(s)] without a radix: leading white space, a sign, the prefix
    [0x] of base 16, then the digits up to the first other character.
    [None] is [NaN]. *)
Definition parseIntText (s : string) : option Z :=
  let s1 := trimStart s in
  let '(sign, s2) :=
    match s1 with
    | String c r =>
        if Ascii.eqb c "-" then (-1, r)
        else if Ascii.eqb c "+" then (1, r)
        else (1, s1)
    | EmptyString => (1, s1)
    end in
  let '(radix, s3) :=
    match s2 with
    | String z (String x r) =>
        if Ascii.eqb z "0" && (Ascii.eqb x "x" || Ascii.eqb x "X")
        then (16, r) else (10, s2)
    | _ => (10, s2)
    end in
  match s3 with
  | String c _ =>
      match digitOf radix c with
      | Some _ => Some (sign * readDigits radix 0 s3)
      | None => None
      end
  | EmptyString => None
  end.

(** [arr.includes(x)] on an array of strings. *)
Definition arrayIncludes (x : string) (arr : list string) : bool :=
  existsb (String.eqb x) arr.
End JSText.

(** ** The command line: [cli.js] *)

Module Cli.

Inductive Stage := greeting | budget | priorities | searching | recommendation.

(** [conversationState.requirements], without [mustHaves], which nothing
    reads. *)
Record Requirements := {
  useCase : option string;
  maxBudget : option Z;
  wanted : list string
}.

(** [conversationState], and whether the terminal was closed. *)
Record Conversation := {
  stage : Stage;
  requirements : Requirements;
  history : list string;
  closed : bool
}.

Definition conversationState : Conversation :=
  {| stage := greeting;
     requirements := {| useCase := None; maxBudget := None; wanted := [] |};
     history := [];
     closed := false |}.

(** The filter string of [performSearch]; the budget is written as
    JavaScript writes an integer. *)
Definition filtersOf (b : Z) (prio : list string) : string :=
  let filters := "price_sale < " +:+ Json.number b +:+ " AND in_stock:true" in
  let filters :=
    if JSText.arrayIncludes "portabilidad" prio
    then filters +:+ " AND weight_kg < 1.5" else filters in
  if JSText.arrayIncludes "bateria" prio
  then filters +:+ " AND battery_hours > 10" else filters.

(** The query of [performSearch]: three tests in a row, the last one that
    holds wins. *)
Definition queryOf (use : string) : string :=
  let lower := JS.toLowerCase use in
  let query := "laptop" in
  let query := if JS.includes "estudio" lower then "laptop estudiante" else query in
  let query := if JS.includes "gaming" lower then "laptop gaming" else query in
  if JS.includes "oficina" lower then "laptop oficina" else query.

Definition requestOf (use : string) (b : Z) (prio : list string) : Arg :=
  Obj {| query := Some (queryOf use);
         filters := Some (filtersOf b prio);
         hitsPerPage := Some 5;
         attributesToRetrieve := None |}.

(** What [performSearch] prints, without the wording: that nothing was
    found, the best option and the alternative when there is one, or the
    message of an error. *)
Inductive Shown :=
| NothingFound
| Recommended (best : Product) (alternative : option Product)
| SearchError (message : string).

(** [displayRecommendations(products, priorities)]: the first product and,
    when there are more, the second. *)
Definition displayRecommendations (products : list Product) : option Shown :=
  match products with
  | [] => None
  | best :: rest => Some (Recommended best (head rest))
  end.

(** [performSearch()]: one search, what is shown, and the stage
    [recommendation] on every path.  [None] when a requirement that the
    function reads was never set. *)
Definition performSearch (cfg : Config) (w : World) (client : State)
    (c : Conversation) : option (Conversation * State * Shown) :=
  match useCase (requirements c), maxBudget (requirements c) with
  | Some use, Some b =>
      let r := searchProducts cfg w client (requestOf use b (wanted (requirements c))) in
      let shown :=
        match completion r with
        | Return result =>
            match displayRecommendations (hits result) with
            | Some s => s
            | None => NothingFound
            end
        | Throw message => SearchError message
        end in
      Some ({| stage := recommendation; requirements := requirements c;
               history := history c; closed := closed c |},
            final r, shown)
  | _, _ => None
  end.

(** The three answers that set the requirements. *)
Definition useCaseOf (answer : string) : string := JS.orString (Some answer) "estudio".

Definition budgetOf (answer : string) : Z :=
  JS.orNumber (JSText.parseIntText answer) 3000000.

Definition prioritiesOf (answer : string) : list string :=
  if JS.truthy answer then map JSText.trim (JS.split "," answer) else ["precio"].

(** One answer typed at the prompt of [askQuestion]: the callback of the
    stage the conversation is in. *)
Definition answerTo (cfg : Config) (w : World) (client : State)
    (c : Conversation) (answer : string)
    : Conversation * State * option Shown :=
  if closed c then (c, client, None) else
  match stage c with
  | greeting =>
      ({| stage := budget;
          requirements := {| useCase := Some (useCaseOf answer);
                             maxBudget := maxBudget (requirements c);
                             wanted := wanted (requirements c) |};
          history := history c ++ [answer]; closed := false |}, client, None)
  | budget =>
      ({| stage := priorities;
          requirements := {| useCase := useCase (requirements c);
                             maxBudget := Some (budgetOf answer);
                             wanted := wanted (requirements c) |};
          history := history c ++ [answer]; closed := false |}, client, None)
  | priorities =>
      let c1 := {| stage := searching;
                   requirements := {| useCase := useCase (requirements c);
                                      maxBudget := maxBudget (requirements c);
                                      wanted := prioritiesOf answer |};
                   history := history c ++ [answer]; closed := false |} in
      match performSearch cfg w client c1 with
      | Some (c2, client2, shown) => (c2, client2, Some shown)
      | None => (c1, client, None)
      end
  | searching => (c, client, None)
  | recommendation =>
      if String.eqb (JS.toLowerCase answer) "s" || String.eqb (JS.toLowerCase answer) "si"
      then ({| stage := greeting; requirements := requirements c;
               history := history c; closed := false |}, client, None)
      else ({| stage := stage c; requirements := requirements c;
               history := history c; closed := true |}, client, None)
  end.

(** The atoms the filter string of [performSearch] is made of. *)
Definition atomsOf (b : Z) (prio : list string) : list string :=
  ["price_sale < " +:+ Json.number b; "in_stock:true"]
  ++ (if JSText.arrayIncludes "portabilidad" prio then ["weight_kg < 1.5"] else [])
  ++ (if JSText.arrayIncludes "bateria" prio then ["battery_hours > 10"] else []).

(** A series of answers, each typed in the world of its moment; what was
    shown comes out in order. *)
Fixpoint answers (cfg : Config) (typed : list (World * string))
    (client : State) (c : Conversation) : Conversation * State * list Shown :=
  match typed with
  | [] => (c, client, [])
  | (w, answer) :: rest =>
      let '(c1, client1, shown) := answerTo cfg w client c answer in
      let '(c2, client2, more) := answers cfg rest client1 c1 in
      (c2, client2, match shown with Some s => s :: more | None => more end)
  end.

(** The requirements a stage relies on: the use case from [budget] on, the
    budget as well from [priorities] on. *)
Definition complete (c : Conversation) : Prop :=
  match stage c with
  | greeting => True
  | budget => is_Some (useCase (requirements c))
  | _ => is_Some (useCase (requirements c)) /\ is_Some (maxBudget (requirements c))
  end.
End Cli.

(** ** The query generator: [generateQuery] of [test-query.js] *)

Module TestQuery.

(** What [generateQuery] returns, without [filterExplanation], the lines it
    prints about it. *)
Record Generated := {
  g_query : string;
  g_filters : string;
  g_hitsPerPage : Z
}.

(** The letter n with a tilde, code unit 241. *)
Definition ntilde : ascii := ascii_of_N 241.

(** The atoms pushed on [filters], in order. *)
Definition atomsOf (b : Z) (prio : list string) : list string :=
  ["price_sale < " +:+ Json.number b; "in_stock:true"]
  ++ (if JSText.arrayIncludes "portabilidad" prio || JSText.arrayIncludes "portable" prio
      then ["weight_kg < 1.5"] else [])
  ++ (if JSText.arrayIncludes "bateria" prio || JSText.arrayIncludes "battery" prio
      then ["battery_hours > 10"] else []).

Definition generateQuery (use : string) (b : Z) (prio : list string) : Generated :=
  let lower := JS.toLowerCase use in
  let query :=
    if JS.includes "estudio" lower then "laptop estudiante"
    else if JS.includes "oficina" lower || JS.includes "office" lower
         then "laptop oficina"
    else if JS.includes "gaming" lower then "laptop gaming"
    else if JS.includes "diseno" lower || JS.includes "creative" lower
         then "laptop dise" +:+ String ntilde "o"
    else "laptop" in
  {| g_query := query;
     g_filters := joinAnd (atomsOf b prio);
     g_hitsPerPage := 5 |}.

(** The request [runRealSearch] sends. *)
Definition requestOf (g : Generated) : Arg :=
  Obj {| query := Some (g_query g); filters := Some (g_filters g);
         hitsPerPage := Some (g_hitsPerPage g);
         attributesToRetrieve := None |}.
End TestQuery.

(** The characters of an integer written in decimal. *)
Definition digitOrMinus (c : ascii) : bool := JS.isDigit c || Ascii.eqb c "-".

(** Text that does not go on with a digit. *)
Definition endsNumber (rest : string) : bool :=
  match rest with
  | EmptyString => true
  | String c _ => negb (JS.isDigit c)
  end.

(** [items.join(sep)] for a separator of one character. *)
Fixpoint joinWith (sep : ascii) (items : list string) : string :=
  match items with
  | [] => EmptyString
  | [i] => i
  | i :: rest => i +:+ String sep (joinWith sep rest)
  end.

(** Text without the character [c]. *)
Definition without (c : ascii) (s : string) : bool :=
  allChars (fun x => negb (Ascii.eqb x c)) s.

(** What is shown is a result, not the message of an error. *)
Definition isResult (s : Cli.Shown) : bool :=
  match s with
  | Cli.SearchError _ => false
  | _ => true
  end.

(** The use cases for which the command line and the query generator
    choose the same query.  The command line lets the last of [estudio],
    [gaming], [oficina] win and knows no other word; the generator lets
    the first of [estudio], [oficina] or [office], [gaming], [diseno] or
    [creative] win. *)
Definition queriesAgree (use : string) : bool :=
  let lower := JS.toLowerCase use in
  if JS.includes "estudio" lower
  then negb (JS.includes "oficina" lower) && negb (JS.includes "gaming" lower)
  else if JS.includes "oficina" lower then true
  else if JS.includes "office" lower then false
  else if JS.includes "gaming" lower then true
  else negb (JS.includes "diseno" lower || JS.includes "creative" lower).

(** * Properties *)

(** ** Strings *)

Lemma append_nil (b : string) : EmptyString +:+ b = b.
Proof. reflexivity. Qed.

Lemma append_cons x (a b : string) : String x a +:+ b = String x (a +:+ b).
Proof. reflexivity. Qed.

Lemma append_assoc (a b c : string) : (a +:+ b) +:+ c = a +:+ (b +:+ c).
Proof.
  induction a as [|x a IH]; [reflexivity|].
  rewrite !append_cons. f_equal. exact IH.
Qed.

Lemma append_inj_l (p a b : string) : p +:+ a = p +:+ b -> a = b.
Proof.
  induction p as [|x p IH]; [tauto|].
  rewrite !append_cons. intros [= H]. auto.
Qed.

Lemma append_nil_r (a : string) : a +:+ EmptyString = a.
Proof.
  induction a as [|x a IH]; [reflexivity|]. rewrite append_cons. now f_equal.
Qed.

(** ** Lists, sorting and slicing *)

Section ListFacts.
Import Filter.

Lemma insertByPrice_In x y l : In y (insertByPrice x l) <-> y = x \/ In y l.
Proof.
  induction l as [|z l IH]; simpl.
  - intuition.
  - destruct (price_sale x <=? price_sale z); simpl; [intuition|].
    rewrite IH. intuition.
Qed.

Lemma sortByPrice_In y l : In y (sortByPrice l) <-> In y l.
Proof.
  induction l as [|x l IH]; simpl; [tauto|].
  rewrite insertByPrice_In, IH. intuition.
Qed.

Lemma insertByPrice_length x l : length (insertByPrice x l) = S (length l).
Proof.
  induction l as [|z l IH]; simpl; [reflexivity|].
  destruct (price_sale x <=? price_sale z); simpl; congruence.
Qed.

Lemma sortByPrice_length l : length (sortByPrice l) = length l.
Proof.
  induction l as [|x l IH]; simpl; [reflexivity|].
  rewrite insertByPrice_length. congruence.
Qed.

Lemma slice0_In {A} (x : A) l e : In x (JS.slice0 l e) -> In x l.
Proof.
  unfold JS.slice0. intros H. apply list_elem_of_In in H.
  apply list_elem_of_In. eapply subseteq_take; eauto.
Qed.

Lemma slice0_length_le {A} (l : list A) e :
  (length (JS.slice0 l e) <= length l)%nat.
Proof. unfold JS.slice0. rewrite length_take. lia. Qed.

Lemma slice0_length_bound {A} (l : list A) e :
  0 <= e -> Z.of_nat (length (JS.slice0 l e)) <= e.
Proof.
  intros He. unfold JS.slice0. rewrite length_take.
  destruct (e <? 0) eqn:E; [apply Z.ltb_lt in E; lia|]. lia.
Qed.

Lemma Qltb_lt a b : Qltb a b = true <-> (a < b)%Q.
Proof. unfold Qltb, Qlt. apply Z.ltb_lt. Qed.
End ListFacts.

(** ** The filter interpreter keeps only products that pass *)

Section FilterFacts.
Import Filter.

Lemma byBudget_In f l h :
  In h (byBudget f l) ->
  In h l /\ forall m, budgetMatch f = Some m -> price_sale h < JS.parseInt m.
Proof.
  unfold byBudget. destruct (budgetMatch f) as [m|].
  - rewrite filter_In. intros [Hin Hlt]. split; [exact Hin|].
    intros m' [= <-]. now apply Z.ltb_lt.
  - intros Hin. split; [exact Hin | discriminate].
Qed.

Lemma byWeight_In f l h :
  In h (byWeight f l) ->
  In h l /\
  forall m, weightMatch f = Some m -> (weight_kg h < JS.parseFloat m)%Q.
Proof.
  unfold byWeight. destruct (weightMatch f) as [m|].
  - rewrite filter_In. intros [Hin Hlt]. split; [exact Hin|].
    intros m' [= <-]. now apply Qltb_lt.
  - intros Hin. split; [exact Hin | discriminate].
Qed.

Lemma byBattery_In f l h :
  In h (byBattery f l) ->
  In h l /\
  forall m, batteryMatch f = Some m -> (JS.parseFloat m < battery_hours h)%Q.
Proof.
  unfold byBattery. destruct (batteryMatch f) as [m|].
  - rewrite filter_In. intros [Hin Hlt]. split; [exact Hin|].
    intros m' [= <-]. now apply Qltb_lt.
  - intros Hin. split; [exact Hin | discriminate].
Qed.

Lemma byStock_In f l h :
  In h (byStock f l) ->
  In h l /\ (JS.includes "in_stock:true" f = true -> in_stock h = true).
Proof.
  unfold byStock. destruct (JS.includes "in_stock:true" f).
  - rewrite filter_In. intros [Hin Hs]. split; [exact Hin | now intros _].
  - intros Hin. split; [exact Hin | discriminate].
Qed.

Lemma byBrand_In f l h :
  In h (byBrand f l) ->
  In h l /\
  forall m, brandMatch f = Some m ->
            JS.toUpperCase (brand h) = JS.toUpperCase m.
Proof.
  unfold byBrand. destruct (brandMatch f) as [m|].
  - rewrite filter_In. intros [Hin Hb]. split; [exact Hin|].
    intros m' [= <-]. now apply String.eqb_eq.
  - intros Hin. split; [exact Hin | discriminate].
Qed.

Lemma applyQuery_In q l h : In h (applyQuery q l) -> In h l.
Proof.
  unfold applyQuery.
  destruct (JS.truthy q && negb (String.eqb q "laptop")); [|tauto].
  rewrite filter_In. tauto.
Qed.

Lemma applyQuery_length q l : (length (applyQuery q l) <= length l)%nat.
Proof.
  unfold applyQuery.
  destruct (JS.truthy q && negb (String.eqb q "laptop")); [|lia].
  apply List.filter_length_le.
Qed.

Lemma applyFilters_In f l h :
  In h (applyFilters f l) -> In h l /\ passes f h.
Proof.
  unfold applyFilters. destruct f as [|c f'].
  - simpl. intros Hin. split; [exact Hin|].
    repeat split; intros; discriminate.
  - cbn [JS.truthy]. set (f := String c f').
    intros H.
    apply byBrand_In in H as [H Hbrand].
    apply byStock_In in H as [H Hstock].
    apply byBattery_In in H as [H Hbattery].
    apply byWeight_In in H as [H Hweight].
    apply byBudget_In in H as [H Hbudget].
    split; [exact H|]. repeat split; assumption.
Qed.

Lemma hits_matching (a : Arg) h :
  In h (hits (searchDemoProducts a)) -> In h (matching (safeParams a)).
Proof.
  unfold searchDemoProducts. cbv zeta. cbn [hits]. intros H.
  apply slice0_In in H. exact (proj1 (sortByPrice_In _ _) H).
Qed.
End FilterFacts.

(** ** Filter text the interpreter does not recognise *)

Section Permissive.
Import Filter.

Lemma unrecognised_applyFilters f l : unrecognised f -> applyFilters f l = l.
Proof.
  intros (Hb & Hw & Hh & Hbr & Hs).
  unfold applyFilters, byBrand, byStock, byBattery, byWeight, byBudget.
  rewrite Hb, Hw, Hh, Hbr, Hs. now destruct (JS.truthy f).
Qed.

(** A pattern that starts with a literal only matches where the literal
    occurs. *)
Lemma firstMatch_lit_includes {A} (p : string) (k : JS.Cont (A := A)) f m :
  JS.firstMatch (JS.lit p k) f = Some m -> JS.includes p f = true.
Proof.
  induction f as [|c f IH]; simpl.
  - unfold JS.lit, JS.startsWith.
    destruct (JS.stripPrefix p EmptyString); [reflexivity | discriminate].
  - unfold JS.lit at 1, JS.startsWith.
    destruct (JS.stripPrefix p (String c f)) as [r|]; [reflexivity|].
    simpl. exact IH.
Qed.

Lemma firstMatch_lit_absent {A} (p : string) (k : JS.Cont (A := A)) f :
  JS.includes p f = false -> JS.firstMatch (JS.lit p k) f = None.
Proof.
  intros Hn. destruct (JS.firstMatch (JS.lit p k) f) eqn:E; [|reflexivity].
  apply firstMatch_lit_includes in E. congruence.
Qed.

(** Text that names none of the five fields is not recognised. *)
Lemma no_field_unrecognised f :
  JS.includes "price_sale" f = false ->
  JS.includes "weight_kg" f = false ->
  JS.includes "battery_hours" f = false ->
  JS.includes "brand:" f = false ->
  JS.includes "in_stock:true" f = false ->
  unrecognised f.
Proof.
  intros H1 H2 H3 H4 H5.
  repeat split; try exact H5; now apply firstMatch_lit_absent.
Qed.
End Permissive.

(** ** A conjunction of atoms *)

Section Separator.
Variable t : string.

Lemma accept_stable {A} (f : string -> A) : Stable t (JS.accept f).
Proof. intros cap s. reflexivity. Qed.

Lemma star_stable {A} keep cls (k : JS.Cont (A := A)) :
  cls " "%char = false -> Stable t k -> Stable t (JS.star keep cls k).
Proof.
  intros Hc Hk cap s. revert cap.
  induction s as [|c s IH]; intros cap.
  - rewrite append_nil. unfold andThen. cbn [JS.star]. rewrite Hc.
    apply (Hk cap EmptyString).
  - rewrite append_cons. cbn [JS.star]. destruct (cls c).
    + rewrite IH. rewrite <- append_cons. now rewrite Hk.
    + rewrite <- append_cons. apply Hk.
Qed.

(** A repetition that may consume the space of the separator backtracks
    when what follows fails on the [A]. *)
Lemma star_space_stable {A} keep cls (k : JS.Cont (A := A)) :
  cls "A"%char = false -> Stable t k -> FailsA t k ->
  Stable t (JS.star keep cls k).
Proof.
  intros Hc Hk Hf cap s. revert cap.
  induction s as [|c s IH]; intros cap.
  - rewrite append_nil. unfold andThen. cbn [JS.star].
    destruct (cls " "%char).
    + rewrite Hc, Hf. apply (Hk cap EmptyString).
    + apply (Hk cap EmptyString).
  - rewrite append_cons. cbn [JS.star]. destruct (cls c).
    + rewrite IH. rewrite <- append_cons. now rewrite Hk.
    + rewrite <- append_cons. apply Hk.
Qed.

Lemma plus_stable {A} keep cls (k : JS.Cont (A := A)) :
  cls " "%char = false -> Stable t k -> Stable t (JS.plus keep cls k).
Proof.
  intros Hc Hk cap [|c s].
  - rewrite append_nil. unfold andThen. cbn [JS.plus]. now rewrite Hc.
  - rewrite append_cons. cbn [JS.plus]. destruct (cls c); [|reflexivity].
    now apply star_stable.
Qed.

Lemma opt_stable {A} keep x (k : JS.Cont (A := A)) :
  Ascii.eqb " " x = false -> Stable t k -> Stable t (JS.opt keep x k).
Proof.
  intros Hx Hk cap [|c s].
  - rewrite append_nil. unfold andThen. cbn [JS.opt]. rewrite Hx.
    apply (Hk cap EmptyString).
  - rewrite append_cons. cbn [JS.opt]. destruct (Ascii.eqb c x).
    + rewrite Hk. rewrite <- append_cons. now rewrite Hk.
    + rewrite <- append_cons. apply Hk.
Qed.

Lemma stripPrefix_separator p : forall s,
  noSpace p = true ->
  JS.stripPrefix p (s +:+ andThen t) =
  match JS.stripPrefix p s with
  | Some r => Some (r +:+ andThen t)
  | None => None
  end.
Proof.
  induction p as [|c p IH]; intros s Hp; [reflexivity|].
  unfold noSpace in Hp. cbn [allChars] in Hp.
  apply andb_prop in Hp as [Hc Hp].
  destruct s as [|d s].
  - rewrite append_nil. unfold andThen. cbn [JS.stripPrefix].
    now destruct (Ascii.eqb c " ").
  - rewrite append_cons. cbn [JS.stripPrefix].
    destruct (Ascii.eqb c d); [now apply IH | reflexivity].
Qed.

Lemma lit_stable {A} p (k : JS.Cont (A := A)) :
  noSpace p = true -> Stable t k -> Stable t (JS.lit p k).
Proof.
  intros Hp Hk cap s. unfold JS.lit. rewrite stripPrefix_separator by exact Hp.
  destruct (JS.stripPrefix p s); [apply Hk | reflexivity].
Qed.

Lemma plus_failsA {A} keep cls (k : JS.Cont (A := A)) :
  cls "A"%char = false -> FailsA t (JS.plus keep cls k).
Proof. intros Hc cap. cbn [JS.plus]. now rewrite Hc. Qed.

Lemma star_failsA {A} keep cls (k : JS.Cont (A := A)) :
  cls "A"%char = false -> FailsA t k -> FailsA t (JS.star keep cls k).
Proof. intros Hc Hk cap. cbn [JS.star]. rewrite Hc. apply Hk. Qed.

Lemma opt_failsA {A} keep x (k : JS.Cont (A := A)) :
  Ascii.eqb "A" x = false -> FailsA t k -> FailsA t (JS.opt keep x k).
Proof. intros Hc Hk cap. cbn [JS.opt]. rewrite Hc. apply Hk. Qed.

(** The leftmost match in [f] followed by a separator and more text is the
    leftmost match in [f], or else the leftmost match in what follows. *)
Lemma firstMatch_split {A} (re : JS.Cont (A := A)) f :
  Stable t re ->
  JS.firstMatch re (f +:+ andThen t) =
  match JS.firstMatch re f with
  | Some r => Some r
  | None => JS.firstMatch re (andThen t)
  end.
Proof.
  intros Hs. induction f as [|c f IH].
  - rewrite append_nil.
    assert (H := Hs EmptyString EmptyString). rewrite append_nil in H.
    cbn [JS.firstMatch]. rewrite <- H.
    destruct (re EmptyString (andThen t)) eqn:E; [|reflexivity].
    unfold andThen in *. cbn [JS.firstMatch]. now rewrite E.
  - rewrite append_cons. cbn [JS.firstMatch]. rewrite <- append_cons, Hs.
    destruct (re EmptyString (String c f)); [reflexivity | exact IH].
Qed.

Lemma includes_split p f :
  noSpace p = true ->
  JS.includes p (f +:+ andThen t) = JS.includes p f || JS.includes p (andThen t).
Proof.
  intros Hp. induction f as [|c f IH].
  - rewrite append_nil. cbn [JS.includes]. unfold JS.startsWith at 1.
    assert (H := stripPrefix_separator p EmptyString Hp).
    rewrite append_nil in H.
    destruct (JS.stripPrefix p EmptyString) eqn:E; [|reflexivity].
    unfold andThen in *. cbn [JS.includes].
    unfold JS.startsWith. now rewrite H.
  - rewrite append_cons. cbn [JS.includes]. rewrite IH.
    unfold JS.startsWith.
    rewrite <- append_cons, stripPrefix_separator by exact Hp.
    destruct (JS.stripPrefix p (String c f)); reflexivity.
Qed.

Lemma numberRe_stable (field : string) (op : ascii) :
  noSpace field = true ->
  Ascii.eqb " " op = false -> Ascii.eqb "A" op = false ->
  Stable t
    (JS.lit field (JS.star false JS.isSpace (JS.opt false op
       (JS.star false JS.isSpace (JS.plus true JS.isDigit (JS.accept id)))))) /\
  Stable t
    (JS.lit field (JS.star false JS.isSpace (JS.opt false op
       (JS.star false JS.isSpace (JS.plus true JS.isDigit
          (JS.opt true "." (JS.star true JS.isDigit (JS.accept id)))))))).
Proof.
  intros Hf Hs Ha. split.
  - apply lit_stable; [exact Hf|].
    apply star_space_stable; [reflexivity| |].
    + apply opt_stable; [exact Hs|].
      apply star_space_stable; [reflexivity| |].
      * apply plus_stable; [reflexivity | apply accept_stable].
      * now apply plus_failsA.
    + apply opt_failsA; [exact Ha|].
      apply star_failsA; [reflexivity|]. now apply plus_failsA.
  - apply lit_stable; [exact Hf|].
    apply star_space_stable; [reflexivity| |].
    + apply opt_stable; [exact Hs|].
      apply star_space_stable; [reflexivity| |].
      * apply plus_stable; [reflexivity|]. apply opt_stable; [reflexivity|].
        apply star_stable; [reflexivity | apply accept_stable].
      * now apply plus_failsA.
    + apply opt_failsA; [exact Ha|].
      apply star_failsA; [reflexivity|]. now apply plus_failsA.
Qed.

Lemma budgetRe_stable : Stable t Filter.budgetRe.
Proof. apply (numberRe_stable "price_sale" "<"); reflexivity. Qed.

Lemma weightRe_stable : Stable t Filter.weightRe.
Proof. apply (numberRe_stable "weight_kg" "<"); reflexivity. Qed.

Lemma batteryRe_stable : Stable t Filter.batteryRe.
Proof. apply (numberRe_stable "battery_hours" ">"); reflexivity. Qed.

Lemma brandRe_stable : Stable t Filter.brandRe.
Proof.
  unfold Filter.brandRe. apply lit_stable; [reflexivity|].
  apply plus_stable; [reflexivity | apply accept_stable].
Qed.
End Separator.

Lemma firstMatch_and {A} (re : JS.Cont (A := A)) s :
  SkipsAnd re -> JS.firstMatch re (" AND " +:+ s) = JS.firstMatch re s.
Proof.
  intros Hk. change (" AND " +:+ s)
    with (String " " (String "A" (String "N" (String "D" (String " " s))))).
  cbn [JS.firstMatch].
  rewrite (proj1 (Hk _)), (proj1 (proj2 (Hk _))),
    (proj1 (proj2 (proj2 (Hk _)))), (proj2 (proj2 (proj2 (Hk _)))),
    (proj1 (Hk _)).
  reflexivity.
Qed.

Lemma lit_skipsAnd {A} c p (k : JS.Cont (A := A)) :
  Ascii.eqb c " " = false -> Ascii.eqb c "A" = false ->
  Ascii.eqb c "N" = false -> Ascii.eqb c "D" = false ->
  SkipsAnd (JS.lit (String c p) k).
Proof.
  intros H1 H2 H3 H4 x. unfold JS.lit. cbn [JS.stripPrefix].
  now rewrite H1, H2, H3, H4.
Qed.

(** In a conjunction a pattern finds what it finds in the first atom in
    which it matches. *)
Lemma firstMatch_joinAnd {A} (re : JS.Cont (A := A)) atoms :
  (forall t, Stable t re) -> SkipsAnd re -> re EmptyString EmptyString = None ->
  JS.firstMatch re (joinAnd atoms) = firstSome (JS.firstMatch re) atoms.
Proof.
  intros Hs Hk He. induction atoms as [|a rest IH].
  - cbn [joinAnd firstSome JS.firstMatch]. now rewrite He.
  - cbn [joinAnd firstSome]. destruct rest as [|b rest].
    + cbn [firstSome]. now destruct (JS.firstMatch re a).
    + change (a +:+ " AND " +:+ joinAnd (b :: rest))
        with (a +:+ andThen ("ND " +:+ joinAnd (b :: rest))).
      rewrite firstMatch_split by apply Hs.
      change (andThen ("ND " +:+ joinAnd (b :: rest)))
        with (" AND " +:+ joinAnd (b :: rest)).
      rewrite firstMatch_and by exact Hk. now rewrite IH.
Qed.

Lemma budgetMatch_joinAnd atoms :
  Filter.budgetMatch (joinAnd atoms) = firstSome Filter.budgetMatch atoms.
Proof.
  apply firstMatch_joinAnd;
    [apply budgetRe_stable | now apply lit_skipsAnd | reflexivity].
Qed.

Lemma weightMatch_joinAnd atoms :
  Filter.weightMatch (joinAnd atoms) = firstSome Filter.weightMatch atoms.
Proof.
  apply firstMatch_joinAnd;
    [apply weightRe_stable | now apply lit_skipsAnd | reflexivity].
Qed.

Lemma batteryMatch_joinAnd atoms :
  Filter.batteryMatch (joinAnd atoms) = firstSome Filter.batteryMatch atoms.
Proof.
  apply firstMatch_joinAnd;
    [apply batteryRe_stable | now apply lit_skipsAnd | reflexivity].
Qed.

Lemma brandMatch_joinAnd atoms :
  Filter.brandMatch (joinAnd atoms) = firstSome Filter.brandMatch atoms.
Proof.
  apply firstMatch_joinAnd;
    [apply brandRe_stable | now apply lit_skipsAnd | reflexivity].
Qed.

Lemma inStock_joinAnd atoms :
  JS.includes "in_stock:true" (joinAnd atoms) =
  existsb (JS.includes "in_stock:true") atoms.
Proof.
  induction atoms as [|a rest IH]; [reflexivity|].
  cbn [joinAnd existsb]. destruct rest as [|b rest].
  - cbn [existsb]. now rewrite orb_false_r.
  - change (a +:+ " AND " +:+ joinAnd (b :: rest))
      with (a +:+ andThen ("ND " +:+ joinAnd (b :: rest))).
    rewrite includes_split by reflexivity. f_equal.
    rewrite <- IH. reflexivity.
Qed.

Lemma passes_joinAnd atoms h : passes (joinAnd atoms) h <-> passesAtoms atoms h.
Proof.
  unfold passes, passesAtoms.
  now rewrite budgetMatch_joinAnd, weightMatch_joinAnd, batteryMatch_joinAnd,
    brandMatch_joinAnd, inStock_joinAnd.
Qed.

(** The filter block without its guard: on the empty string no pattern
    matches, so the guard changes nothing. *)
Lemma applyFilters_pipeline f l :
  Filter.applyFilters f l =
  Filter.byBrand f (Filter.byStock f (Filter.byBattery f
    (Filter.byWeight f (Filter.byBudget f l)))).
Proof. destruct f; reflexivity. Qed.

Lemma firstSome_filter {A} (M : string -> option A) (keep : string -> bool) atoms :
  (forall a, keep a = false -> M a = None) ->
  firstSome M (List.filter keep atoms) = firstSome M atoms.
Proof.
  intros H. induction atoms as [|a rest IH]; [reflexivity|].
  cbn [List.filter firstSome]. destruct (keep a) eqn:E.
  - cbn [firstSome]. now rewrite IH.
  - now rewrite (H a E).
Qed.

Lemma existsb_filter (P keep : string -> bool) atoms :
  (forall a, keep a = false -> P a = false) ->
  existsb P (List.filter keep atoms) = existsb P atoms.
Proof.
  intros H. induction atoms as [|a rest IH]; [reflexivity|].
  cbn [List.filter existsb]. destruct (keep a) eqn:E.
  - cbn [existsb]. now rewrite IH.
  - now rewrite (H a E).
Qed.

Lemma recognisedb_false a : recognisedb a = false <-> unrecognised a.
Proof.
  unfold recognisedb, matched, unrecognised.
  destruct (Filter.budgetMatch a), (Filter.weightMatch a),
    (Filter.batteryMatch a), (Filter.brandMatch a),
    (JS.includes "in_stock:true" a); cbn; split; intros H;
    try discriminate H; try reflexivity; repeat split;
    decompose [and] H; discriminate.
Qed.

(** The atoms in which no pattern matches can be struck from a
    conjunction. *)
Lemma applyFilters_drops_unrecognised atoms l :
  Filter.applyFilters (joinAnd atoms) l =
  Filter.applyFilters (joinAnd (List.filter recognisedb atoms)) l.
Proof.
  rewrite !applyFilters_pipeline.
  unfold Filter.byBrand, Filter.byStock, Filter.byBattery, Filter.byWeight,
    Filter.byBudget.
  rewrite !budgetMatch_joinAnd, !weightMatch_joinAnd, !batteryMatch_joinAnd,
    !brandMatch_joinAnd, !inStock_joinAnd.
  rewrite (firstSome_filter Filter.budgetMatch recognisedb)
    by (intros a Ha; apply recognisedb_false in Ha; apply Ha).
  rewrite (firstSome_filter Filter.weightMatch recognisedb)
    by (intros a Ha; apply recognisedb_false in Ha; apply Ha).
  rewrite (firstSome_filter Filter.batteryMatch recognisedb)
    by (intros a Ha; apply recognisedb_false in Ha; apply Ha).
  rewrite (firstSome_filter Filter.brandMatch recognisedb)
    by (intros a Ha; apply recognisedb_false in Ha; apply Ha).
  rewrite (existsb_filter (JS.includes "in_stock:true") recognisedb)
    by (intros a Ha; apply recognisedb_false in Ha; apply Ha).
  reflexivity.
Qed.

(** *** The atoms of the filter language, as the patterns read them *)

Lemma digit_not_space c : JS.isDigit c = true -> JS.isSpace c = false.
Proof. destruct c as [[] [] [] [] [] [] [] []]; vm_compute; congruence. Qed.

Lemma digit_not_dot c : JS.isDigit c = true -> Ascii.eqb c "." = false.
Proof. destruct c as [[] [] [] [] [] [] [] []]; vm_compute; congruence. Qed.

(** A greedy repetition at the end of the text takes all of it. *)
Lemma star_all {A} cls (f : string -> A) ds : forall cap,
  allChars cls ds = true ->
  JS.star true cls (JS.accept f) cap ds = Some (f (cap +:+ ds)).
Proof.
  induction ds as [|d ds IH]; intros cap Hd.
  - cbn [JS.star]. unfold JS.accept. now rewrite append_nil_r.
  - cbn [allChars] in Hd. apply andb_prop in Hd as [Hc Hd].
    cbn [JS.star]. rewrite Hc, IH by exact Hd.
    now rewrite append_assoc.
Qed.

(** A greedy repetition stops at the first character outside its class,
    and stays there when what follows succeeds. *)
Lemma star_greedy {A} cls (k : JS.Cont (A := A)) ds c rest r : forall cap,
  allChars cls ds = true -> cls c = false ->
  k (cap +:+ ds) (String c rest) = Some r ->
  JS.star true cls k cap (ds +:+ String c rest) = Some r.
Proof.
  induction ds as [|d ds IH]; intros cap Hd Hc Hk.
  - rewrite append_nil. cbn [JS.star]. rewrite Hc.
    now rewrite append_nil_r in Hk.
  - cbn [allChars] in Hd. apply andb_prop in Hd as [Hd1 Hd].
    rewrite append_cons. cbn [JS.star]. rewrite Hd1.
    rewrite (IH (cap +:+ String d EmptyString) Hd Hc); [reflexivity|].
    now rewrite append_assoc.
Qed.

Lemma budget_atom d ds :
  JS.isDigit d = true -> allChars JS.isDigit ds = true ->
  Filter.budgetMatch ("price_sale < " +:+ String d ds) = Some (String d ds).
Proof.
  intros Hd Hds. unfold Filter.budgetMatch.
  change ("price_sale < " +:+ String d ds)
    with (String "p" ("rice_sale < " +:+ String d ds)).
  cbn [JS.firstMatch]. unfold Filter.budgetRe at 1. unfold JS.lit.
  change (JS.stripPrefix "price_sale" (String "p" ("rice_sale < " +:+ String d ds)))
    with (Some (String " " (String "<" (String " " (String d ds))))).
  cbn [JS.star JS.opt JS.plus].
  replace (JS.isSpace " ") with true by reflexivity.
  replace (JS.isSpace "<") with false by reflexivity.
  replace (Ascii.eqb "<" "<") with true by reflexivity.
  rewrite (digit_not_space d Hd), Hd.
  now rewrite star_all.
Qed.

Lemma weight_atom d ip fp :
  JS.isDigit d = true -> allChars JS.isDigit ip = true ->
  allChars JS.isDigit fp = true ->
  Filter.weightMatch ("weight_kg < " +:+ String d ip +:+ "." +:+ fp) =
  Some (String d ip +:+ "." +:+ fp).
Proof.
  intros Hd Hip Hfp. unfold Filter.weightMatch.
  change ("weight_kg < " +:+ String d ip +:+ "." +:+ fp)
    with (String "w" ("eight_kg < " +:+ String d ip +:+ "." +:+ fp)).
  cbn [JS.firstMatch]. unfold Filter.weightRe at 1. unfold JS.lit.
  change (JS.stripPrefix "weight_kg"
            (String "w" ("eight_kg < " +:+ String d ip +:+ "." +:+ fp)))
    with (Some (String " " (String "<" (String " "
                 (String d (ip +:+ String "." fp)))))).
  cbn [JS.star JS.opt JS.plus].
  replace (JS.isSpace " ") with true by reflexivity.
  replace (JS.isSpace "<") with false by reflexivity.
  replace (Ascii.eqb "<" "<") with true by reflexivity.
  rewrite (digit_not_space d Hd), Hd.
  rewrite (star_greedy JS.isDigit _ ip "." fp (String d ip +:+ "." +:+ fp));
    [reflexivity | exact Hip | reflexivity |].
  cbn [JS.opt]. replace (Ascii.eqb "." ".") with true by reflexivity.
  rewrite star_all by exact Hfp. unfold id. f_equal.
  rewrite !append_assoc. reflexivity.
Qed.

Lemma battery_atom d ip fp :
  JS.isDigit d = true -> allChars JS.isDigit ip = true ->
  allChars JS.isDigit fp = true ->
  Filter.batteryMatch ("battery_hours > " +:+ String d ip +:+ "." +:+ fp) =
  Some (String d ip +:+ "." +:+ fp).
Proof.
  intros Hd Hip Hfp. unfold Filter.batteryMatch.
  change ("battery_hours > " +:+ String d ip +:+ "." +:+ fp)
    with (String "b" ("attery_hours > " +:+ String d ip +:+ "." +:+ fp)).
  cbn [JS.firstMatch]. unfold Filter.batteryRe at 1. unfold JS.lit.
  change (JS.stripPrefix "battery_hours"
            (String "b" ("attery_hours > " +:+ String d ip +:+ "." +:+ fp)))
    with (Some (String " " (String ">" (String " "
                 (String d (ip +:+ String "." fp)))))).
  cbn [JS.star JS.opt JS.plus].
  replace (JS.isSpace " ") with true by reflexivity.
  replace (JS.isSpace ">") with false by reflexivity.
  replace (Ascii.eqb ">" ">") with true by reflexivity.
  rewrite (digit_not_space d Hd), Hd.
  rewrite (star_greedy JS.isDigit _ ip "." fp (String d ip +:+ "." +:+ fp));
    [reflexivity | exact Hip | reflexivity |].
  cbn [JS.opt]. replace (Ascii.eqb "." ".") with true by reflexivity.
  rewrite star_all by exact Hfp. unfold id. f_equal.
  rewrite !append_assoc. reflexivity.
Qed.

Lemma brand_atom c x :
  JS.notSpace c = true -> allChars JS.notSpace x = true ->
  Filter.brandMatch ("brand:" +:+ String c x) = Some (String c x).
Proof.
  intros Hc Hx. unfold Filter.brandMatch.
  change ("brand:" +:+ String c x) with (String "b" ("rand:" +:+ String c x)).
  cbn [JS.firstMatch]. unfold Filter.brandRe at 1. unfold JS.lit.
  change (JS.stripPrefix "brand:" (String "b" ("rand:" +:+ String c x)))
    with (Some (String c x)).
  cbn [JS.plus]. rewrite Hc. now rewrite star_all.
Qed.

(** ** What the hits of a fallback search satisfy *)

Lemma hits_pass_filters (p : Params) (f : string) (h : Product) :
  filters p = Some f ->
  In h (hits (searchDemoProducts (Obj p))) ->
  passes f h.
Proof.
  intros Hf Hin. apply hits_matching in Hin.
  unfold Filter.matching in Hin. cbn [safeParams] in Hin.
  apply applyQuery_In in Hin. rewrite Hf in Hin. cbn [default] in Hin.
  now apply applyFilters_In in Hin.
Qed.

(** C2, as amended.  The filter string is a conjunction of atoms.  Every
    hit of the fallback search passes, for each field, the first atom in
    which the field's pattern matches: below the bound of the first
    [price_sale] atom, below that of the first [weight_kg] atom, above that
    of the first [battery_hours] atom, of the brand of the first [brand:]
    atom (compared in upper case), and in stock when an atom contains
    [in_stock:true]. *)
Theorem C2_hits_pass_the_first_atom_of_each_field
    (p : Params) (atoms : list string) (h : Product) :
  filters p = Some (joinAnd atoms) ->
  In h (hits (searchDemoProducts (Obj p))) ->
  passesAtoms atoms h.
Proof.
  intros Hf Hin. apply passes_joinAnd. now apply (hits_pass_filters p).
Qed.

(** The filter string of the request [p] holds [price_sale < 1000], and the
    fallback search still returns a product that costs 1799000: of two
    bounds on one field only the first is applied. *)
Lemma C2_second_bound_not_applied :
  let f := "price_sale < 5000000 AND price_sale < 1000" in
  let p := {| query := None; filters := Some f; hitsPerPage := None;
              attributesToRetrieve := None |} in
  JS.includes "price_sale < 1000" f = true /\
  In demo_3 (hits (searchDemoProducts (Obj p))) /\
  ~ price_sale demo_3 < 1000.
Proof.
  cbv zeta. split; [reflexivity|]. split.
  - vm_compute. left. reflexivity.
  - vm_compute. discriminate.
Qed.

Lemma C2_hits_pass_witness :
  let atoms := ["price_sale < 2000000"; "weight_kg < 1.5"; "brand:asus";
                "in_stock:true"] in
  let p := {| query := None; filters := Some (joinAnd atoms);
              hitsPerPage := None; attributesToRetrieve := None |} in
  filters p = Some (joinAnd atoms) /\
  In demo_2 (hits (searchDemoProducts (Obj p))) /\
  firstSome Filter.budgetMatch atoms = Some "2000000" /\
  firstSome Filter.weightMatch atoms = Some "1.5" /\
  firstSome Filter.brandMatch atoms = Some "asus" /\
  passesAtoms atoms demo_2.
Proof.
  cbv zeta. split; [reflexivity|]. split; [vm_compute; left; reflexivity|].
  split; [reflexivity|]. split; [reflexivity|]. split; [reflexivity|].
  apply (C2_hits_pass_the_first_atom_of_each_field
           {| query := None;
              filters := Some (joinAnd ["price_sale < 2000000"; "weight_kg < 1.5";
                                        "brand:asus"; "in_stock:true"]);
              hitsPerPage := None; attributesToRetrieve := None |}).
  - reflexivity.
  - vm_compute. left. reflexivity.
Defined.

(** ** The page size *)

(** C5.  With a positive [hitsPerPage] the fallback search returns at most
    that many hits; [total] is the number of products that pass the filters
    and the query, counted before the page is cut, so it is never below the
    number of hits. *)
Theorem C5_page_is_bounded_and_total_is_full (p : Params) (n : Z) :
  hitsPerPage p = Some n ->
  0 < n ->
  let r := searchDemoProducts (Obj p) in
  Z.of_nat (length (hits r)) <= n /\
  total r = Z.of_nat (length (Filter.matching p)) /\
  Z.of_nat (length (hits r)) <= total r.
Proof.
  intros Hn Hpos. unfold searchDemoProducts. cbv zeta.
  cbn [hits total safeParams]. rewrite Hn. cbn [default].
  split; [apply slice0_length_bound; lia|].
  split; [now rewrite sortByPrice_length|].
  apply inj_le, slice0_length_le.
Qed.

Lemma C5_page_witness :
  let p := {| query := None; filters := Some "price_sale < 2500000";
              hitsPerPage := Some 2; attributesToRetrieve := None |} in
  hitsPerPage p = Some 2 /\ 0 < 2 /\
  Z.of_nat (length (hits (searchDemoProducts (Obj p)))) <= 2 /\
  total (searchDemoProducts (Obj p)) = Z.of_nat (length (Filter.matching p)) /\
  Z.of_nat (length (hits (searchDemoProducts (Obj p)))) <= total (searchDemoProducts (Obj p)).
Proof.
  cbv zeta. split; [reflexivity|]. split; [lia|].
  apply (C5_page_is_bounded_and_total_is_full
           {| query := None; filters := Some "price_sale < 2500000";
              hitsPerPage := Some 2; attributesToRetrieve := None |} 2);
    [reflexivity | lia].
Defined.

(** A page of two: two hits out of four matching products. *)
Example page_of_two :
  let r := searchDemoProducts
             (Obj {| query := None; filters := Some "price_sale < 2500000";
                     hitsPerPage := Some 2; attributesToRetrieve := None |}) in
  map objectID (hits r) = ["demo-3"; "demo-2"] /\ total r = 4.
Proof. split; reflexivity. Qed.

(** ** Atoms the interpreter does not recognise *)






(** What the patterns recognise is wider and narrower than the atoms of
    the filter language: the operator is optional, a field name is found
    inside a longer one, and a bound in the other direction or the atom
    [in_stock:false] match no pattern. *)
Example what_the_patterns_recognise :
  Filter.budgetMatch "price_sale 1000" = Some "1000" /\
  Filter.brandMatch "processor_brand:Intel" = Some "Intel" /\
  recognisedb "price_sale > 3000000" = false /\
  recognisedb "price_sale <= 2000000" = false /\
  recognisedb "in_stock:false" = false /\
  recognisedb "weight_kg < .5" = false.
Proof. repeat split. Qed.

(** ** The gateway retries with a linear, bounded backoff *)

(** One step of [performAlgoliaSearch], as the source writes it. *)
Lemma performAlgoliaSearch_step cfg w params attempt :
  performAlgoliaSearch cfg w params attempt =
  match buildSearchParams params with
  | Throw e => {| outcome := Throw e; delays := []; calls := 0 |}
  | Return searchParams =>
      match index_search w attempt searchParams with
      | Answer result =>
          {| outcome := Return (fromResponse result); delays := []; calls := 1 |}
      | Fail e =>
          if Z_lt_dec attempt (MAX_RETRIES cfg)
          then afterDelay (RETRY_DELAY_MS cfg * attempt)
                 (performAlgoliaSearch cfg w params (attempt + 1))
          else {| outcome := Throw e; delays := []; calls := 1 |}
      end
  end.
Proof.
  etransitivity; [apply performAlgoliaSearch_equation_1|].
  destruct (buildSearchParams params) as [sp|e];
    simp performAlgoliaSearch; [|reflexivity].
  destruct (index_search w attempt sp) as [r|e];
    simp performAlgoliaSearch; [reflexivity|].
  destruct (Z_lt_dec attempt (MAX_RETRIES cfg));
    simp performAlgoliaSearch; reflexivity.
Qed.

Lemma performAlgoliaSearch_retry cfg w params sp attempt e :
  buildSearchParams params = Return sp ->
  index_search w attempt sp = Fail e ->
  attempt < MAX_RETRIES cfg ->
  performAlgoliaSearch cfg w params attempt =
  afterDelay (RETRY_DELAY_MS cfg * attempt)
    (performAlgoliaSearch cfg w params (attempt + 1)).
Proof.
  intros Hsp Hf Hlt. rewrite performAlgoliaSearch_step, Hsp, Hf.
  destruct (Z_lt_dec attempt (MAX_RETRIES cfg)); [reflexivity | contradiction].
Qed.

Lemma performAlgoliaSearch_give_up cfg w params sp attempt e :
  buildSearchParams params = Return sp ->
  index_search w attempt sp = Fail e ->
  ~ attempt < MAX_RETRIES cfg ->
  performAlgoliaSearch cfg w params attempt =
  {| outcome := Throw e; delays := []; calls := 1 |}.
Proof.
  intros Hsp Hf Hge. rewrite performAlgoliaSearch_step, Hsp, Hf.
  destruct (Z_lt_dec attempt (MAX_RETRIES cfg)); [contradiction | reflexivity].
Qed.

(** A run that starts at attempt 1 calls the index at most three times and
    waits at most three seconds. *)
Lemma performAlgoliaSearch_bounds w params :
  let g := performAlgoliaSearch CONFIG w params 1 in
  (calls g <= 3)%nat /\ totalDelay (delays g) <= 3000.
Proof.
  cbv zeta. rewrite performAlgoliaSearch_step.
  destruct (buildSearchParams params) as [sp|e] eqn:Hsp; [|simpl; lia].
  destruct (index_search w 1 sp); [simpl; lia|].
  destruct (Z_lt_dec 1 (MAX_RETRIES CONFIG)); [|simpl; lia].
  rewrite performAlgoliaSearch_step, Hsp.
  destruct (index_search w (1 + 1) sp); [simpl; lia|].
  destruct (Z_lt_dec (1 + 1) (MAX_RETRIES CONFIG)); [|simpl; lia].
  rewrite performAlgoliaSearch_step, Hsp.
  destruct (index_search w (1 + 1 + 1) sp); [simpl; lia|].
  destruct (Z_lt_dec (1 + 1 + 1) (MAX_RETRIES CONFIG)) as [Hlt|_]; [|simpl; lia].
  simpl in Hlt. lia.
Qed.

(** C4.  An attempt that fails below [MAX_RETRIES] waits for
    [RETRY_DELAY_MS * attempt] milliseconds and tries again with the next
    attempt number; at [MAX_RETRIES] the error of the failed attempt is
    thrown as it is.  So three failures in a row cost the delays 1000 and
    2000 and end in the third error, and no run makes more than three calls
    or waits more than 3000 milliseconds. *)
Theorem C4_retry_with_linear_backoff (w : World) (params : Arg) (sp : SearchParams) :
  buildSearchParams params = Return sp ->
  (forall attempt e,
      index_search w attempt sp = Fail e ->
      attempt < MAX_RETRIES CONFIG ->
      performAlgoliaSearch CONFIG w params attempt =
      afterDelay (RETRY_DELAY_MS CONFIG * attempt)
        (performAlgoliaSearch CONFIG w params (attempt + 1))) /\
  (forall e,
      index_search w (MAX_RETRIES CONFIG) sp = Fail e ->
      performAlgoliaSearch CONFIG w params (MAX_RETRIES CONFIG) =
      {| outcome := Throw e; delays := []; calls := 1 |}) /\
  (forall e1 e2 e3,
      index_search w 1 sp = Fail e1 ->
      index_search w 2 sp = Fail e2 ->
      index_search w 3 sp = Fail e3 ->
      performAlgoliaSearch CONFIG w params 1 =
      {| outcome := Throw e3; delays := [1000; 2000]; calls := 3 |}) /\
  (calls (performAlgoliaSearch CONFIG w params 1) <= 3)%nat /\
  totalDelay (delays (performAlgoliaSearch CONFIG w params 1)) <= 3000.
Proof.
  intros Hsp. split; [|split; [|split]].
  - intros attempt e Hf Hlt. now apply performAlgoliaSearch_retry with sp e.
  - intros e Hf. apply performAlgoliaSearch_give_up with sp; [assumption..|lia].
  - intros e1 e2 e3 H1 H2 H3.
    rewrite (performAlgoliaSearch_retry CONFIG w params sp 1 e1 Hsp H1) by (simpl; lia).
    rewrite (performAlgoliaSearch_retry CONFIG w params sp (1 + 1) e2 Hsp H2) by (simpl; lia).
    rewrite (performAlgoliaSearch_give_up CONFIG w params sp (1 + 1 + 1) e3 Hsp H3) by (simpl; lia).
    reflexivity.
  - apply performAlgoliaSearch_bounds.
Qed.

Lemma C4_retry_witness :
  buildSearchParams (Obj emptyParams) =
    Return {| sp_query := ""; sp_hitsPerPage := 5;
              sp_attributesToRetrieve := []; sp_filters := None |} /\
  performAlgoliaSearch CONFIG W_down (Obj emptyParams) 1 =
    {| outcome := Throw "down"; delays := [1000; 2000]; calls := 3 |}.
Proof.
  split; [reflexivity|].
  exact (proj1 (proj2 (proj2
    (C4_retry_with_linear_backoff W_down (Obj emptyParams) _ eq_refl)))
    "down" "down" "down" eq_refl eq_refl eq_refl).
Defined.

(** ** The cache key *)

Lemma unescape_escape c r :
  unescapeChar (Json.escapeChar c +:+ r) = Some (c, r).
Proof. destruct c as [[] [] [] [] [] [] [] []]; reflexivity. Qed.

(** Two escaped texts that are both followed by a quote are equal only if
    the texts are. *)
Lemma escape_inj a : forall b x y,
  Json.escape a +:+ String dq x = Json.escape b +:+ String dq y -> a = b.
Proof.
  induction a as [|c a IH]; intros [|d b] x y H; cbn [Json.escape] in H.
  - reflexivity.
  - rewrite append_nil, append_assoc in H. apply (f_equal unescapeChar) in H.
    rewrite unescape_escape in H. discriminate H.
  - rewrite append_nil, append_assoc in H. apply (f_equal unescapeChar) in H.
    rewrite unescape_escape in H. discriminate H.
  - rewrite !append_assoc in H. apply (f_equal unescapeChar) in H.
    rewrite !unescape_escape in H. injection H as -> H.
    f_equal. eauto.
Qed.

Lemma quote_inj_followed a b x :
  Json.quote a +:+ x = Json.quote b +:+ x -> a = b.
Proof.
  unfold Json.quote. rewrite !append_cons. intros [= H].
  rewrite !append_assoc, !append_cons in H. eapply escape_inj; eauto.
Qed.

Lemma orString_some_inj f1 f2 :
  f1 <> f2 -> JS.orString (Some f1) "" <> JS.orString (Some f2) "".
Proof. destruct f1, f2; simpl; congruence. Qed.

(** C6.  The cache key does not read [attributesToRetrieve]: requests that
    agree on the other three fields have one key.  Requests that agree on
    [query] and [hitsPerPage] and carry two different filter strings have
    different keys. *)
Theorem C6_cache_key_reads_filters_not_attributes (p1 p2 : Params) :
  query p1 = query p2 ->
  hitsPerPage p1 = hitsPerPage p2 ->
  (filters p1 = filters p2 ->
   generateCacheKey (Obj p1) = generateCacheKey (Obj p2)) /\
  (forall f1 f2,
      filters p1 = Some f1 -> filters p2 = Some f2 -> f1 <> f2 ->
      generateCacheKey (Obj p1) <> generateCacheKey (Obj p2)).
Proof.
  intros Hq Hn. unfold generateCacheKey. cbn [safeParams]. rewrite Hq, Hn.
  split.
  - now intros ->.
  - intros f1 f2 H1 H2 Hne Hkey. rewrite H1, H2 in Hkey.
    do 5 apply append_inj_l in Hkey.
    apply quote_inj_followed in Hkey.
    now apply (orString_some_inj f1 f2).
Qed.

(** ** The orchestrator, path by path *)

Lemma logAnalytics_cache cfg now st params result d fc :
  searchCache (logAnalytics cfg now st params result d fc) = searchCache st.
Proof. unfold logAnalytics. now destruct (ANALYTICS_ENABLED cfg). Qed.

Lemma logAnalytics_mode cfg now st params result d fc :
  isDemoMode (logAnalytics cfg now st params result d fc) = isDemoMode st.
Proof. unfold logAnalytics. now destruct (ANALYTICS_ENABLED cfg). Qed.

Lemma logAnalytics_log now st params result d fc :
  analyticsLog (logAnalytics CONFIG now st params result d fc) =
  pushLog (analyticsLog st) (makeLogEntry now st params result d fc).
Proof. reflexivity. Qed.

Lemma searchProducts_cache_hit cfg w st arg c :
  searchCache st !! generateCacheKey (defaultArg arg) = Some c ->
  now_check w - timestamp c < CACHE_TTL_MS cfg ->
  searchProducts cfg w st arg = cacheHit cfg w st (defaultArg arg) c.
Proof.
  intros Hc Hage. unfold searchProducts. cbv zeta. rewrite Hc.
  unfold isCacheValid. apply Z.ltb_lt in Hage. now rewrite Hage.
Qed.

Lemma searchProducts_cache_miss cfg w st arg :
  isCacheValid cfg (now_check w)
    (searchCache st !! generateCacheKey (defaultArg arg)) = false ->
  searchProducts cfg w st arg =
  if isDemoMode st
  then demoSearch cfg w st (defaultArg arg) (now_start w)
         (generateCacheKey (defaultArg arg))
  else remoteSearch cfg w st (defaultArg arg) (now_start w)
         (generateCacheKey (defaultArg arg)).
Proof. intros Hm. unfold searchProducts. cbv zeta. now rewrite Hm. Qed.

(** A cache hit for a request that is an object, or for no argument at
    all: the stored result comes back as it is, one record is logged with
    [fromCache = true] and duration 0, and nothing is searched. *)
Lemma searchProducts_cache_hit_object cfg w st arg c :
  arg <> Null ->
  searchCache st !! generateCacheKey (defaultArg arg) = Some c ->
  now_check w - timestamp c < CACHE_TTL_MS cfg ->
  searchProducts cfg w st arg =
  {| completion := Return (data c);
     final := logAnalytics cfg (now_log w) st (defaultArg arg) (data c) 0 true;
     waited := []; remoteCalls := 0; demoRuns := 0 |}.
Proof.
  intros Hn Hc Hage. rewrite (searchProducts_cache_hit _ _ _ _ c Hc Hage).
  destruct arg; [reflexivity | contradiction | reflexivity].
Qed.

(** The fallback branch: the result of the catalogue search, marked, one
    record logged, and the cache as it was. *)
Lemma remoteSearch_fallback cfg w st params t key msg :
  outcome (performAlgoliaSearch cfg w params 1) = Throw msg ->
  DEMO_FALLBACK cfg = true ->
  remoteSearch cfg w st params t key =
  {| completion := Return (markFallback msg (searchDemoProducts params));
     final := logAnalytics cfg (now_log w) st params
                (markFallback msg (searchDemoProducts params))
                (now_end w - t) false;
     waited := delays (performAlgoliaSearch cfg w params 1);
     remoteCalls := calls (performAlgoliaSearch cfg w params 1);
     demoRuns := 1 |}.
Proof. intros Ho Hf. unfold remoteSearch. now rewrite Ho, Hf. Qed.

Lemma remoteSearch_fallback_cache cfg w st params t key msg :
  outcome (performAlgoliaSearch cfg w params 1) = Throw msg ->
  DEMO_FALLBACK cfg = true ->
  searchCache (final (remoteSearch cfg w st params t key)) = searchCache st.
Proof.
  intros Ho Hf. rewrite (remoteSearch_fallback _ _ _ _ _ _ msg Ho Hf).
  apply logAnalytics_cache.
Qed.

(** Every path but one logs exactly one record: a cache hit for the
    argument [null] is the exception. *)
Lemma searchProducts_logs_once w st arg :
  arg <> Null \/
  isCacheValid CONFIG (now_check w)
    (searchCache st !! generateCacheKey (defaultArg arg)) = false ->
  exists e,
    analyticsLog (final (searchProducts CONFIG w st arg)) =
    pushLog (analyticsLog st) e.
Proof.
  intros H. unfold searchProducts. cbv zeta.
  destruct (isCacheValid CONFIG (now_check w)
              (searchCache st !! generateCacheKey (defaultArg arg))) eqn:Hv.
  - destruct H as [Hn|H]; [|discriminate].
    destruct (searchCache st !! generateCacheKey (defaultArg arg)) as [c|];
      [|discriminate Hv].
    destruct arg; [|contradiction|]; eexists; reflexivity.
  - destruct (isDemoMode st); [eexists; reflexivity|].
    unfold remoteSearch.
    destruct (outcome (performAlgoliaSearch CONFIG w (defaultArg arg) 1));
      eexists; reflexivity.
Qed.

(** ** The fallback path *)

(** C1, on the code.  The remote index is down, the module is not in demo
    mode and the cache is empty.  The call waits 1000 and 2000
    milliseconds, calls the index three times, and returns the catalogue
    search marked with [fallback = true] and [error = "down"], logging one
    record.  The cache has no entry for the key afterwards: an identical
    second call goes through the three attempts again. *)
Theorem C1_fallback_result_is_not_cached :
  let r1 := searchProducts CONFIG (W_tick 0) S_remote (Obj emptyParams) in
  let r2 := searchProducts CONFIG (W_tick 4000) (final r1) (Obj emptyParams) in
  completion r1 = Return (markFallback "down" (searchDemoProducts (Obj emptyParams))) /\
  length (analyticsLog (final r1)) = 1%nat /\
  waited r1 = [1000; 2000] /\
  searchCache (final r1) !! generateCacheKey (Obj emptyParams) = None /\
  searchCache (final r1) = searchCache S_remote /\
  remoteCalls r2 = 3%nat.
Proof. cbv zeta. repeat split; vm_compute; reflexivity. Qed.

(** The demo path and the path of a remote answer, for comparison, both
    store their result under the key. *)
Lemma demoSearch_writes_cache cfg w st params t key :
  searchCache (final (demoSearch cfg w st params t key)) !! key =
  Some {| data := searchDemoProducts params; timestamp := now_store w |}.
Proof.
  unfold demoSearch, cacheSet. cbn [final searchCache].
  apply lookup_insert_eq.
Qed.

Lemma remoteSearch_success_writes_cache cfg w st params t key result :
  outcome (performAlgoliaSearch cfg w params 1) = Return result ->
  searchCache (final (remoteSearch cfg w st params t key)) !! key =
  Some {| data := result; timestamp := now_store w |}.
Proof.
  intros Ho. unfold remoteSearch. rewrite Ho. unfold cacheSet.
  cbn [final searchCache]. apply lookup_insert_eq.
Qed.

(** ** The cache-hit path *)

(** C3, on the code.  Two calls with the argument [null], one second apart,
    in demo mode.  The first stores its result under the key of the empty
    request.  At the second the entry is valid, and the call throws a
    [TypeError] where it reads [params.query] for the console: it neither
    returns the stored result nor logs a record.  With [{}] in place of
    [null] the second call returns the stored result. *)
Theorem C3_cache_hit_with_null_throws :
  let r1 := searchProducts CONFIG (W_tick 0) S_demo Null in
  let r2 := searchProducts CONFIG (W_tick 1000) (final r1) Null in
  let r2' := searchProducts CONFIG (W_tick 1000) (final r1) (Obj emptyParams) in
  completion r1 = Return (searchDemoProducts Null) /\
  searchCache (final r1) !! generateCacheKey Null =
    Some {| data := searchDemoProducts Null; timestamp := 0 |} /\
  isCacheValid CONFIG 1000 (searchCache (final r1) !! generateCacheKey Null) = true /\
  completion r2 = Throw TypeError_null /\
  completion r2' = Return (searchDemoProducts Null).
Proof. cbv zeta. repeat split; vm_compute; reflexivity. Qed.

(** ** One analytics record per call *)

(** C7, on the code.  The second of two calls with the argument [null] is a
    cache hit and leaves the analytics log as it found it, with the one
    record of the first call. *)
Theorem C7_cache_hit_with_null_logs_nothing :
  let r1 := searchProducts CONFIG (W_tick 0) S_demo Null in
  let r2 := searchProducts CONFIG (W_tick 1000) (final r1) Null in
  length (analyticsLog (final r1)) = 1%nat /\
  analyticsLog (final r2) = analyticsLog (final r1).
Proof. cbv zeta. split; vm_compute; reflexivity. Qed.

(** ** A page of zero hits *)

Lemma orNumber_zero : JS.orNumber (Some 0) 5 = JS.orNumber (Some 5) 5.
Proof. reflexivity. Qed.

Lemma slice0_five_nonempty {A} (l : list A) : l <> [] -> JS.slice0 l 5 <> [].
Proof.
  destruct l as [|x l]; [congruence|]. intros _. unfold JS.slice0.
  cbn [length]. replace (5 <? 0) with false by reflexivity.
  destruct (Z.to_nat (5 `min` Z.of_nat (S (length l)))) eqn:E; [lia|].
  discriminate.
Qed.

Lemma slice0_zero {A} (l : list A) : JS.slice0 l 0 = [].
Proof.
  unfold JS.slice0. replace (0 <? 0) with false by reflexivity.
  now replace (0 `min` Z.of_nat (length l)) with 0 by lia.
Qed.

Lemma hits_zero_page q f attrs :
  hits (searchDemoProducts
          (Obj {| query := q; filters := f; hitsPerPage := Some 0;
                  attributesToRetrieve := attrs |})) = [].
Proof. unfold searchDemoProducts. cbv zeta. cbn [hits]. apply slice0_zero. Qed.

Lemma sortByPrice_nonempty l : l <> [] -> Filter.sortByPrice l <> [].
Proof.
  intros Hl Hs. apply (f_equal (@length _)) in Hs.
  rewrite sortByPrice_length in Hs. destruct l; [congruence | discriminate].
Qed.

(** In demo mode, after a call that missed the cache, a second call whose
    key is the same and that comes within the TTL returns what the first
    call returned. *)
Lemma demo_then_hit cfg w1 w2 st p1 p2 :
  isDemoMode st = true ->
  isCacheValid cfg (now_check w1)
    (searchCache st !! generateCacheKey (Obj p1)) = false ->
  generateCacheKey (Obj p2) = generateCacheKey (Obj p1) ->
  now_check w2 - now_store w1 < CACHE_TTL_MS cfg ->
  let r1 := searchProducts cfg w1 st (Obj p1) in
  completion r1 = Return (searchDemoProducts (Obj p1)) /\
  completion (searchProducts cfg w2 (final r1) (Obj p2)) =
  Return (searchDemoProducts (Obj p1)).
Proof.
  intros Hd Hm Hk Hage. cbv zeta.
  rewrite (searchProducts_cache_miss cfg w1 st (Obj p1) Hm), Hd.
  split; [reflexivity|].
  rewrite (searchProducts_cache_hit_object cfg w2 _ (Obj p2)
             {| data := searchDemoProducts (Obj p1); timestamp := now_store w1 |}).
  - reflexivity.
  - discriminate.
  - cbn [defaultArg]. rewrite Hk. apply demoSearch_writes_cache.
  - exact Hage.
Qed.

(** Where the result is stored, as in demo mode, the request with
    [hitsPerPage = 0] and the one with [hitsPerPage = 5] share one cache
    entry: they have one key, the fallback search gives the first an empty
    page, and whichever runs first, the other, run within the TTL, gets
    the first one's answer; the two answers differ as soon as one product
    matches. *)
Lemma zero_page_shares_the_entry_in_demo_mode
    (q f : option string) (attrs : option (list string))
    (cfg : Config) (w1 w2 : World) (st : State) :
  let p0 := {| query := q; filters := f; hitsPerPage := Some 0;
               attributesToRetrieve := attrs |} in
  let p5 := {| query := q; filters := f; hitsPerPage := Some 5;
               attributesToRetrieve := attrs |} in
  isDemoMode st = true ->
  isCacheValid cfg (now_check w1)
    (searchCache st !! generateCacheKey (Obj p0)) = false ->
  now_check w2 - now_store w1 < CACHE_TTL_MS cfg ->
  generateCacheKey (Obj p0) = generateCacheKey (Obj p5) /\
  hits (searchDemoProducts (Obj p0)) = [] /\
  (Filter.matching p5 <> [] ->
   hits (searchDemoProducts (Obj p5)) <> hits (searchDemoProducts (Obj p0))) /\
  (let r1 := searchProducts cfg w1 st (Obj p0) in
   completion r1 = Return (searchDemoProducts (Obj p0)) /\
   completion (searchProducts cfg w2 (final r1) (Obj p5)) =
   Return (searchDemoProducts (Obj p0))) /\
  (let r1 := searchProducts cfg w1 st (Obj p5) in
   completion r1 = Return (searchDemoProducts (Obj p5)) /\
   completion (searchProducts cfg w2 (final r1) (Obj p0)) =
   Return (searchDemoProducts (Obj p5))).
Proof.
  intros p0 p5 Hd Hm Hage.
  assert (Hk : generateCacheKey (Obj p0) = generateCacheKey (Obj p5)) by reflexivity.
  split; [exact Hk|]. split; [apply hits_zero_page|]. split; [|split].
  - intros Hne. unfold p0 at 1. rewrite hits_zero_page.
    unfold searchDemoProducts. cbv zeta. cbn [hits safeParams hitsPerPage p5 default].
    apply slice0_five_nonempty, sortByPrice_nonempty, Hne.
  - apply demo_then_hit; auto.
  - apply demo_then_hit; auto.
Qed.

(** The key of a request with [hitsPerPage = 0] is the key of the same
    request with [hitsPerPage = 5], whatever the rest of the request. *)
Lemma zero_page_key (q f : option string) (attrs : option (list string)) :
  generateCacheKey (Obj {| query := q; filters := f; hitsPerPage := Some 0;
                           attributesToRetrieve := attrs |}) =
  generateCacheKey (Obj {| query := q; filters := f; hitsPerPage := Some 5;
                           attributesToRetrieve := attrs |}).
Proof. reflexivity. Qed.

(** C9, on the code.  The request with [hitsPerPage = 0] and the one with
    [hitsPerPage = 5] have one key, and the fallback search answers the
    first with an empty page and the second with five products.  The
    remote index is down and the module is not in demo mode.  The first
    request gets the empty page as a fallback result, but the result is
    not stored.  The second request, four seconds later, finds no entry
    under the shared key: it calls the index three times again and gets its
    own five hits, not the answer of the request that ran first.  In demo
    mode, where the result is stored, the same two calls share the
    answer. *)
Theorem C9_fallback_zero_page_is_not_shared :
  let p0 := {| query := None; filters := None; hitsPerPage := Some 0;
               attributesToRetrieve := None |} in
  let p5 := {| query := None; filters := None; hitsPerPage := Some 5;
               attributesToRetrieve := None |} in
  let r1 := searchProducts CONFIG (W_tick 0) S_remote (Obj p0) in
  let r2 := searchProducts CONFIG (W_tick 4000) (final r1) (Obj p5) in
  let d1 := searchProducts CONFIG (W_tick 0) S_demo (Obj p0) in
  let d2 := searchProducts CONFIG (W_tick 4000) (final d1) (Obj p5) in
  generateCacheKey (Obj p0) = generateCacheKey (Obj p5) /\
  completion r1 = Return (markFallback "down" (searchDemoProducts (Obj p0))) /\
  hits (searchDemoProducts (Obj p0)) = [] /\
  searchCache (final r1) !! generateCacheKey (Obj p5) = None /\
  remoteCalls r2 = 3%nat /\
  completion r2 = Return (markFallback "down" (searchDemoProducts (Obj p5))) /\
  map objectID (hits (searchDemoProducts (Obj p5))) =
    ["demo-3"; "demo-2"; "demo-5"; "demo-1"; "demo-4"] /\
  completion d2 = Return (searchDemoProducts (Obj p0)).
Proof. cbv zeta. repeat split; vm_compute; reflexivity. Qed.

(** The two answers on the whole catalogue: no hit against five. *)
Example zero_and_five_differ :
  let p0 := {| query := None; filters := None; hitsPerPage := Some 0;
               attributesToRetrieve := None |} in
  let p5 := {| query := None; filters := None; hitsPerPage := Some 5;
               attributesToRetrieve := None |} in
  length (hits (searchDemoProducts (Obj p0))) = 0%nat /\
  length (hits (searchDemoProducts (Obj p5))) = 5%nat.
Proof. split; reflexivity. Qed.

(** ** The source written in the analytics log *)







(** The record logged when the index is down and the module is fresh. *)
Example fallback_record :
  analyticsLog (final (searchProducts CONFIG W_down S_remote Undefined)) =
  [{| log_timestamp := 3050; log_query := None; log_filters := None;
      hitsCount := 5; totalHits := 5; duration := 3050; fromCache := false;
      log_source := "algolia" |}].
Proof. vm_compute. reflexivity. Qed.

Lemma C6_cache_key_witness :
  let p1 := {| query := Some "laptop"; filters := Some "price_sale < 2000000";
               hitsPerPage := None; attributesToRetrieve := Some ["name"] |} in
  let p1' := {| query := Some "laptop"; filters := Some "price_sale < 2000000";
                hitsPerPage := None;
                attributesToRetrieve := Some ["name"; "brand"] |} in
  let p2 := {| query := Some "laptop"; filters := Some "price_sale < 3000000";
               hitsPerPage := None; attributesToRetrieve := Some ["name"] |} in
  (query p1 = query p1' /\ hitsPerPage p1 = hitsPerPage p1' /\
   generateCacheKey (Obj p1) = generateCacheKey (Obj p1')) /\
  (query p1 = query p2 /\ hitsPerPage p1 = hitsPerPage p2 /\
   generateCacheKey (Obj p1) <> generateCacheKey (Obj p2)).
Proof.
  cbv zeta. split.
  - split; [reflexivity|]. split; [reflexivity|].
    exact (proj1 (C6_cache_key_reads_filters_not_attributes
                    {| query := Some "laptop"; filters := Some "price_sale < 2000000";
                       hitsPerPage := None; attributesToRetrieve := Some ["name"] |}
                    {| query := Some "laptop"; filters := Some "price_sale < 2000000";
                       hitsPerPage := None;
                       attributesToRetrieve := Some ["name"; "brand"] |}
                    eq_refl eq_refl) eq_refl).
  - split; [reflexivity|]. split; [reflexivity|].
    apply (proj2 (C6_cache_key_reads_filters_not_attributes
                    {| query := Some "laptop"; filters := Some "price_sale < 2000000";
                       hitsPerPage := None; attributesToRetrieve := Some ["name"] |}
                    {| query := Some "laptop"; filters := Some "price_sale < 3000000";
                       hitsPerPage := None; attributesToRetrieve := Some ["name"] |}
                    eq_refl eq_refl) "price_sale < 2000000" "price_sale < 3000000");
      [reflexivity | reflexivity | discriminate].
Defined.

(** * Further properties of the client *)

(** ** The analytics log *)

Lemma pushLog_length log e :
  (length log <= 1000)%nat ->
  length (pushLog log e) = Nat.min (S (length log)) 1000.
Proof.
  intros Hl. unfold pushLog. cbv zeta. rewrite length_app. cbn [length].
  destruct (1000 <? Z.of_nat (length log + 1)) eqn:E.
  - apply Z.ltb_lt in E. destruct log as [|x log]; cbn [length] in *; [lia|].
    cbn [app tail]. rewrite length_app. cbn [length]. lia.
  - apply Z.ltb_ge in E. rewrite length_app. cbn [length]. lia.
Qed.

Lemma pushLog_last log e : last (pushLog log e) = Some e.
Proof.
  unfold pushLog. cbv zeta.
  destruct (1000 <? Z.of_nat (length (log ++ [e]))) eqn:E.
  - destruct log as [|x log].
    + cbn in E. discriminate.
    + cbn [app tail]. apply last_snoc.
  - apply last_snoc.
Qed.

Lemma pushLog_full log e :
  length log = 1000%nat -> pushLog log e = tail log ++ [e].
Proof.
  intros Hl. unfold pushLog. cbv zeta. rewrite length_app, Hl. cbn [length].
  replace (1000 <? Z.of_nat (1000 + 1)) with true by reflexivity.
  destruct log; [discriminate Hl | reflexivity].
Qed.

(** X1.  The analytics log is bounded: a log of at most 1000 records still
    has at most 1000 after [logAnalytics], the new record is its last one,
    and a full log loses its oldest record and keeps the others in
    order. *)
Theorem X1_log_is_bounded_and_evicts_the_oldest
    (now : Z) (st : State) (params : Arg) (result : SearchResult)
    (d : Z) (fc : bool) :
  (length (analyticsLog st) <= 1000)%nat ->
  let st' := logAnalytics CONFIG now st params result d fc in
  (length (analyticsLog st') <= 1000)%nat /\
  length (analyticsLog st') = Nat.min (S (length (analyticsLog st))) 1000 /\
  last (analyticsLog st') = Some (makeLogEntry now st params result d fc) /\
  (length (analyticsLog st) = 1000%nat ->
   analyticsLog st' =
   tail (analyticsLog st) ++ [makeLogEntry now st params result d fc]).
Proof.
  intros Hl. cbv zeta. rewrite logAnalytics_log.
  split; [rewrite pushLog_length by exact Hl; lia|].
  split; [now apply pushLog_length|].
  split; [apply pushLog_last | apply pushLog_full].
Qed.

Lemma X1_log_bound_witness :
  (length (analyticsLog S_demo) <= 1000)%nat /\
  length (analyticsLog
            (logAnalytics CONFIG 7 S_demo Null (searchDemoProducts Null) 3 false))
  = Nat.min (S (length (analyticsLog S_demo))) 1000.
Proof.
  split; [cbn; lia|].
  exact (proj1 (proj2 (X1_log_is_bounded_and_evicts_the_oldest
                         7 S_demo Null (searchDemoProducts Null) 3 false
                         ltac:(cbn; lia)))).
Defined.

(** ** What a call leaves untouched *)

Lemma logAnalytics_length_le cfg now st params result d fc :
  (length (analyticsLog st) <= 1000)%nat ->
  (length (analyticsLog (logAnalytics cfg now st params result d fc)) <= 1000)%nat.
Proof.
  intros Hl. unfold logAnalytics.
  destruct (ANALYTICS_ENABLED cfg); cbn [negb analyticsLog]; [|exact Hl].
  rewrite pushLog_length by exact Hl. lia.
Qed.

Lemma cacheSet_log key result now st :
  analyticsLog (cacheSet key result now st) = analyticsLog st.
Proof. reflexivity. Qed.

Lemma cacheSet_mode key result now st :
  isDemoMode (cacheSet key result now st) = isDemoMode st.
Proof. reflexivity. Qed.

(** The shape of the state after any call: the log is the old one or the
    old one with one record pushed, the mode is the old one, and the cache
    is the old one or the old one with the request's key set. *)
Lemma searchProducts_final cfg w st arg :
  let st' := final (searchProducts cfg w st arg) in
  isDemoMode st' = isDemoMode st /\
  (analyticsLog st' = analyticsLog st \/
   exists e, analyticsLog st' = pushLog (analyticsLog st) e) /\
  (searchCache st' = searchCache st \/
   exists c, searchCache st' =
             <[generateCacheKey (defaultArg arg) := c]> (searchCache st)).
Proof.
  cbv zeta. unfold searchProducts. cbv zeta.
  destruct (isCacheValid cfg (now_check w)
              (searchCache st !! generateCacheKey (defaultArg arg))).
  - destruct (searchCache st !! generateCacheKey (defaultArg arg)) as [c|];
      [|cbn; auto].
    unfold cacheHit. destruct (readQuery (defaultArg arg)); cbn [final]; [|auto].
    rewrite logAnalytics_mode, logAnalytics_cache.
    split; [reflexivity|]. split; [|auto].
    unfold logAnalytics. destruct (ANALYTICS_ENABLED cfg); cbn; eauto.
  - destruct (isDemoMode st) eqn:Hd.
    + unfold demoSearch. cbn [final]. rewrite cacheSet_mode, cacheSet_log.
      rewrite logAnalytics_mode. split; [exact Hd|]. split.
      * unfold logAnalytics. destruct (ANALYTICS_ENABLED cfg); cbn; eauto.
      * right. unfold cacheSet. cbn [searchCache].
        rewrite logAnalytics_cache. eauto.
    + unfold remoteSearch.
      destruct (outcome (performAlgoliaSearch cfg w (defaultArg arg) 1)).
      * cbn [final]. rewrite cacheSet_mode, cacheSet_log, logAnalytics_mode.
        split; [exact Hd|]. split.
        -- unfold logAnalytics. destruct (ANALYTICS_ENABLED cfg); cbn; eauto.
        -- right. unfold cacheSet. cbn [searchCache].
           rewrite logAnalytics_cache. eauto.
      * destruct (DEMO_FALLBACK cfg); cbn [final]; [|auto].
        rewrite logAnalytics_mode, logAnalytics_cache.
        split; [exact Hd|]. split; [|auto].
        unfold logAnalytics. destruct (ANALYTICS_ENABLED cfg); cbn; eauto.
Qed.

Lemma searchAll_app cfg calls1 calls2 st :
  searchAll cfg (calls1 ++ calls2) st =
  searchAll cfg calls2 (searchAll cfg calls1 st).
Proof.
  revert st. induction calls1 as [|[w a] rest IH]; intros st; [reflexivity|].
  cbn [app searchAll]. apply IH.
Qed.

(** X2.  Whatever the configuration, the arguments and the worlds, a series
    of calls never changes [isDemoMode] and never lets the analytics log
    grow beyond 1000 records. *)
Theorem X2_calls_keep_the_mode_and_the_log_bound
    (cfg : Config) (calls : list (World * Arg)) (st : State) :
  (length (analyticsLog st) <= 1000)%nat ->
  isDemoMode (searchAll cfg calls st) = isDemoMode st /\
  (length (analyticsLog (searchAll cfg calls st)) <= 1000)%nat.
Proof.
  revert st. induction calls as [|[w arg] rest IH]; intros st Hl.
  - split; [reflexivity | exact Hl].
  - cbn [searchAll].
    destruct (searchProducts_final cfg w st arg) as (Hm & Hlog & _).
    destruct (IH (final (searchProducts cfg w st arg))) as [IH1 IH2].
    + destruct Hlog as [-> | [e ->]]; [exact Hl|].
      rewrite pushLog_length by exact Hl. lia.
    + split; [now rewrite IH1 | exact IH2].
Qed.

Lemma X2_calls_witness :
  (length (analyticsLog S_remote) <= 1000)%nat /\
  isDemoMode (searchAll CONFIG [(W_down, Null); (W_tick 5000, Undefined)] S_remote)
  = isDemoMode S_remote.
Proof.
  split; [cbn; lia|].
  exact (proj1 (X2_calls_keep_the_mode_and_the_log_bound CONFIG
                  [(W_down, Null); (W_tick 5000, Undefined)] S_remote
                  ltac:(cbn; lia))).
Defined.

(** X3.  With the configuration of the source, every call whose argument
    is not [null] adds one record: after [n] such calls on a log of [k]
    records the log has [min (k + n) 1000] of them, which is what
    [getAnalytics().totalSearches] reports. *)
Theorem X3_every_call_is_counted
    (calls : list (World * Arg)) (st : State) :
  Forall (fun c => snd c <> Null) calls ->
  (length (analyticsLog st) <= 1000)%nat ->
  length (analyticsLog (searchAll CONFIG calls st)) =
    Nat.min (length (analyticsLog st) + length calls) 1000 /\
  (calls <> [] ->
   exists s, getAnalytics (searchAll CONFIG calls st) = Some s /\
             totalSearches s =
             Z.of_nat (Nat.min (length (analyticsLog st) + length calls) 1000)).
Proof.
  intros Hall Hl.
  assert (Hlen : length (analyticsLog (searchAll CONFIG calls st)) =
                 Nat.min (length (analyticsLog st) + length calls) 1000).
  { revert st Hl. induction Hall as [|[w arg] rest Hn _ IH]; intros st Hl.
    - cbn [searchAll length]. lia.
    - cbn [searchAll length]. cbn [snd] in Hn.
      destruct (searchProducts_logs_once w st arg (or_introl Hn)) as [e He].
      rewrite IH; rewrite He, pushLog_length by exact Hl; lia. }
  split; [exact Hlen|].
  intros Hne. unfold getAnalytics. cbv zeta. rewrite Hlen.
  destruct calls as [|c rest]; [congruence|]. cbn [length].
  destruct (Z.of_nat (Nat.min (length (analyticsLog st) + S (length rest)) 1000) =? 0)
    eqn:E; [apply Z.eqb_eq in E; lia|].
  eexists. split; [reflexivity|]. reflexivity.
Qed.

Lemma X3_counted_witness :
  Forall (fun c : World * Arg => snd c <> Null)
    [(W_tick 0, Undefined); (W_tick 10, Obj emptyParams); (W_down, Obj emptyParams)] /\
  (length (analyticsLog S_demo) <= 1000)%nat /\
  length (analyticsLog
            (searchAll CONFIG
               [(W_tick 0, Undefined); (W_tick 10, Obj emptyParams);
                (W_down, Obj emptyParams)] S_demo)) = 3%nat.
Proof.
  assert (H : Forall (fun c : World * Arg => snd c <> Null)
                [(W_tick 0, Undefined); (W_tick 10, Obj emptyParams);
                 (W_down, Obj emptyParams)])
    by (repeat constructor; discriminate).
  split; [exact H|]. split; [cbn; lia|].
  exact (proj1 (X3_every_call_is_counted _ S_demo H ltac:(cbn; lia))).
Defined.

(** ** The analytics summary *)

Lemma filter_length_Z {A} (f : A -> bool) (l : list A) :
  0 <= Z.of_nat (length (List.filter f l)) <= Z.of_nat (length l).
Proof. pose proof (List.filter_length_le f l). lia. Qed.

(** X4.  [getAnalytics] answers with its message exactly when the log is
    empty.  Otherwise the hits of the cache and the demo searches are
    counted among the total, and the recent searches are the last records
    of the log, ten of them or all when there are fewer, in their order. *)
Theorem X4_summary_counts_and_recent (st : State) :
  (getAnalytics st = None <-> analyticsLog st = []) /\
  (forall s, getAnalytics st = Some s ->
     totalSearches s = Z.of_nat (length (analyticsLog st)) /\
     0 <= cacheHits s <= totalSearches s /\
     0 <= demoSearches s <= totalSearches s /\
     length (recentSearches s) = Nat.min 10 (length (analyticsLog st)) /\
     exists older, analyticsLog st = older ++ recentSearches s).
Proof.
  unfold getAnalytics. cbv zeta. split.
  - destruct (analyticsLog st) as [|e log]; cbn; split; try reflexivity;
      discriminate.
  - intros s.
    destruct (Z.of_nat (length (analyticsLog st)) =? 0); [discriminate|].
    intros [= <-]. cbn [totalSearches cacheHits demoSearches recentSearches].
    split; [reflexivity|].
    split; [apply filter_length_Z|]. split; [apply filter_length_Z|].
    split; [rewrite length_drop; lia|].
    exists (take (length (analyticsLog st) - 10) (analyticsLog st)).
    symmetry. apply take_drop.
Qed.

Lemma X4_summary_witness :
  exists s,
    getAnalytics (final (searchProducts CONFIG W0 S_demo (Obj emptyParams))) = Some s /\
    totalSearches s = 1 /\ length (recentSearches s) = 1%nat.
Proof.
  destruct (X4_summary_counts_and_recent
              (final (searchProducts CONFIG W0 S_demo (Obj emptyParams)))) as [_ H].
  eexists. split; [reflexivity|].
  destruct (H _ eq_refl) as (H1 & _ & _ & H4 & _).
  split; [exact H1 | exact H4].
Defined.

(** ** Clearing the cache and the log *)

Lemma isCacheValid_none cfg now : isCacheValid cfg now None = false.
Proof. reflexivity. Qed.

(** X5.  [clearCache] empties the cache and touches nothing else.  The next
    call in demo mode is a miss whatever was cached before: it searches the
    catalogue, returns that result and leaves exactly one entry, the one
    of its own key. *)
Theorem X5_clearCache_forces_a_miss
    (cfg : Config) (w : World) (st : State) (arg : Arg) :
  isDemoMode st = true ->
  let st0 := clearCache st in
  let r := searchProducts cfg w st0 arg in
  cacheEntries st0 = 0%nat /\
  analyticsLog st0 = analyticsLog st /\
  completion r = Return (searchDemoProducts (defaultArg arg)) /\
  demoRuns r = 1%nat /\
  cacheEntries (final r) = 1%nat /\
  searchCache (final r) !! generateCacheKey (defaultArg arg) =
    Some {| data := searchDemoProducts (defaultArg arg);
            timestamp := now_store w |}.
Proof.
  intros Hd. cbv zeta.
  split; [reflexivity|]. split; [reflexivity|].
  rewrite (searchProducts_cache_miss cfg w (clearCache st) arg)
    by (cbn [clearCache searchCache]; now rewrite lookup_empty).
  cbn [clearCache isDemoMode]. rewrite Hd.
  split; [reflexivity|]. split; [reflexivity|].
  split; [|apply demoSearch_writes_cache].
  unfold cacheEntries, demoSearch, cacheSet. cbn [final searchCache].
  rewrite logAnalytics_cache. unfold clearCache. cbn [searchCache].
  rewrite insert_empty. apply map_size_singleton.
Qed.

Lemma X5_clearCache_witness :
  let st := final (searchProducts CONFIG (W_tick 0) S_demo Undefined) in
  isDemoMode st = true /\
  cacheEntries st = 1%nat /\
  cacheEntries (clearCache st) = 0%nat /\
  demoRuns (searchProducts CONFIG (W_tick 10) (clearCache st) Undefined) = 1%nat.
Proof.
  cbv zeta. split; [reflexivity|]. split; [vm_compute; reflexivity|].
  pose proof (X5_clearCache_forces_a_miss CONFIG (W_tick 10)
                (final (searchProducts CONFIG (W_tick 0) S_demo Undefined))
                Undefined eq_refl) as H.
  cbv zeta in H. destruct H as (H1 & _ & _ & H4 & _).
  split; [exact H1 | exact H4].
Defined.

(** X6.  [clearAnalytics] empties the log and leaves the cache: a request
    whose result was cached is still answered from the cache, and is then
    the only search of the summary, counted as a cache hit. *)
Theorem X6_clearAnalytics_keeps_the_cache
    (w : World) (st : State) (p : Params) (c : CacheEntry) :
  searchCache st !! generateCacheKey (Obj p) = Some c ->
  now_check w - timestamp c < CACHE_TTL_MS CONFIG ->
  let st0 := clearAnalytics st in
  let r := searchProducts CONFIG w st0 (Obj p) in
  getAnalytics st0 = None /\
  searchCache st0 = searchCache st /\
  completion r = Return (data c) /\
  exists s, getAnalytics (final r) = Some s /\
            totalSearches s = 1 /\ cacheHits s = 1.
Proof.
  intros Hc Hage. cbv zeta.
  split; [reflexivity|]. split; [reflexivity|].
  rewrite (searchProducts_cache_hit_object CONFIG w (clearAnalytics st) (Obj p) c)
    by (try discriminate; assumption).
  split; [reflexivity|].
  eexists. split; [reflexivity|]. split; reflexivity.
Qed.

Lemma X6_clearAnalytics_witness :
  let st := final (searchProducts CONFIG (W_tick 0) S_demo (Obj emptyParams)) in
  searchCache st !! generateCacheKey (Obj emptyParams) =
    Some {| data := searchDemoProducts (Obj emptyParams); timestamp := 0 |} /\
  now_check (W_tick 10) - 0 < CACHE_TTL_MS CONFIG /\
  getAnalytics (clearAnalytics st) = None /\
  completion (searchProducts CONFIG (W_tick 10) (clearAnalytics st) (Obj emptyParams))
  = Return (searchDemoProducts (Obj emptyParams)).
Proof.
  cbv zeta.
  assert (Hc : searchCache (final (searchProducts CONFIG (W_tick 0) S_demo
                                     (Obj emptyParams)))
               !! generateCacheKey (Obj emptyParams) =
               Some {| data := searchDemoProducts (Obj emptyParams);
                       timestamp := 0 |})
    by (vm_compute; reflexivity).
  split; [exact Hc|]. split; [reflexivity|].
  pose proof (X6_clearAnalytics_keeps_the_cache (W_tick 10) _ emptyParams _ Hc
                eq_refl) as H.
  cbv zeta in H. destruct H as (H1 & _ & H3 & _).
  split; [exact H1 | exact H3].
Defined.

(** ** Demo mode and the cache *)

(** X7.  In demo mode no call reaches the remote index or waits, whatever
    the configuration and the argument; this is the state [setDemoMode(true)]
    puts the module in. *)
Theorem X7_demo_mode_never_calls_the_index
    (cfg : Config) (w : World) (st : State) (arg : Arg) :
  let r := searchProducts cfg w (setDemoMode true st) arg in
  remoteCalls r = 0%nat /\ waited r = [] /\
  (arg <> Null -> exists res, completion r = Return res).
Proof.
  cbv zeta. unfold searchProducts. cbv zeta.
  cbn [setDemoMode searchCache isDemoMode].
  destruct (searchCache st !! generateCacheKey (defaultArg arg)) as [c|].
  - destruct (isCacheValid cfg (now_check w) (Some c)).
    + destruct arg; cbn; repeat split; eauto; contradiction.
    + cbn. repeat split; eauto.
  - cbn [isCacheValid]. cbn. repeat split; eauto.
Qed.

Lemma X7_demo_mode_witness :
  Undefined <> Null /\
  remoteCalls (searchProducts CONFIG W_down (setDemoMode true S_remote) Undefined)
  = 0%nat /\
  exists res,
    completion (searchProducts CONFIG W_down (setDemoMode true S_remote) Undefined)
    = Return res.
Proof.
  split; [discriminate|].
  pose proof (X7_demo_mode_never_calls_the_index CONFIG W_down S_remote Undefined)
    as H.
  cbv zeta in H. destruct H as (H1 & _ & H3).
  split; [exact H1 | apply H3; discriminate].
Defined.

(** X8.  Switching the mode does not touch the cache.  A result computed in
    demo mode is still returned, within the TTL, after [setDemoMode(false)]:
    the remote index is not asked, and the record logged for the call says
    [source = "algolia"] and [fromCache = true]. *)
Theorem X8_cached_answers_survive_a_mode_switch
    (w1 w2 : World) (st : State) (p : Params) :
  isDemoMode st = true ->
  isCacheValid CONFIG (now_check w1)
    (searchCache st !! generateCacheKey (Obj p)) = false ->
  now_check w2 - now_store w1 < CACHE_TTL_MS CONFIG ->
  let r1 := searchProducts CONFIG w1 st (Obj p) in
  let r2 := searchProducts CONFIG w2 (setDemoMode false (final r1)) (Obj p) in
  completion r2 = Return (searchDemoProducts (Obj p)) /\
  remoteCalls r2 = 0%nat /\ demoRuns r2 = 0%nat /\
  exists e, last (analyticsLog (final r2)) = Some e /\
            log_source e = "algolia" /\ fromCache e = true.
Proof.
  intros Hd Hm Hage. cbv zeta.
  rewrite (searchProducts_cache_miss CONFIG w1 st (Obj p) Hm), Hd.
  rewrite (searchProducts_cache_hit_object CONFIG w2 _ (Obj p)
             {| data := searchDemoProducts (Obj p); timestamp := now_store w1 |}).
  - cbn [completion remoteCalls demoRuns final data].
    split; [reflexivity|]. split; [reflexivity|]. split; [reflexivity|].
    rewrite logAnalytics_log. eexists. split; [apply pushLog_last|].
    split; reflexivity.
  - discriminate.
  - cbn [setDemoMode searchCache defaultArg]. apply demoSearch_writes_cache.
  - exact Hage.
Qed.

Lemma X8_mode_switch_witness :
  isDemoMode S_demo = true /\
  isCacheValid CONFIG (now_check (W_tick 0))
    (searchCache S_demo !! generateCacheKey (Obj emptyParams)) = false /\
  now_check W_down - now_store (W_tick 0) < CACHE_TTL_MS CONFIG /\
  completion
    (searchProducts CONFIG W_down
       (setDemoMode false
          (final (searchProducts CONFIG (W_tick 0) S_demo (Obj emptyParams))))
       (Obj emptyParams))
  = Return (searchDemoProducts (Obj emptyParams)).
Proof.
  split; [reflexivity|]. split; [reflexivity|]. split; [reflexivity|].
  exact (proj1 (X8_cached_answers_survive_a_mode_switch (W_tick 0) W_down S_demo
                  emptyParams eq_refl eq_refl eq_refl)).
Defined.

(** X9.  An entry of the cache is valid strictly before its age reaches the
    TTL.  In demo mode, a second identical call at or after that age
    searches the catalogue again and replaces the entry by one stamped
    with the new time; the number of entries stays the same. *)
Theorem X9_expired_entry_is_replaced
    (cfg : Config) (w1 w2 : World) (st : State) (p : Params) :
  isDemoMode st = true ->
  isCacheValid cfg (now_check w1)
    (searchCache st !! generateCacheKey (Obj p)) = false ->
  CACHE_TTL_MS cfg <= now_check w2 - now_store w1 ->
  let r1 := searchProducts cfg w1 st (Obj p) in
  let r2 := searchProducts cfg w2 (final r1) (Obj p) in
  demoRuns r2 = 1%nat /\
  searchCache (final r2) !! generateCacheKey (Obj p) =
    Some {| data := searchDemoProducts (Obj p); timestamp := now_store w2 |} /\
  cacheEntries (final r2) = cacheEntries (final r1).
Proof.
  intros Hd Hm Hage. cbv zeta.
  rewrite (searchProducts_cache_miss cfg w1 st (Obj p) Hm), Hd.
  cbn [defaultArg].
  assert (Hl := demoSearch_writes_cache cfg w1 st (Obj p) (now_start w1)
                  (generateCacheKey (Obj p))).
  assert (Hd' : isDemoMode (final (demoSearch cfg w1 st (Obj p) (now_start w1)
                                     (generateCacheKey (Obj p)))) = true).
  { unfold demoSearch. cbn [final]. rewrite cacheSet_mode, logAnalytics_mode.
    exact Hd. }
  set (st1 := final (demoSearch cfg w1 st (Obj p) (now_start w1)
                       (generateCacheKey (Obj p)))) in *.
  rewrite (searchProducts_cache_miss cfg w2 st1 (Obj p)).
  - rewrite Hd'. split; [reflexivity|].
    split; [apply demoSearch_writes_cache|].
    unfold cacheEntries, demoSearch, cacheSet. cbn [final searchCache].
    rewrite logAnalytics_cache.
    cbn [defaultArg].
    rewrite map_size_insert_Some by (rewrite Hl; eauto). reflexivity.
  - cbn [defaultArg]. rewrite Hl. unfold isCacheValid. cbn [timestamp].
    apply Z.ltb_ge. exact Hage.
Qed.

Lemma X9_expiry_witness :
  isDemoMode S_demo = true /\
  isCacheValid CONFIG (now_check (W_tick 0))
    (searchCache S_demo !! generateCacheKey (Obj emptyParams)) = false /\
  CACHE_TTL_MS CONFIG <= now_check (W_tick 300000) - now_store (W_tick 0) /\
  demoRuns
    (searchProducts CONFIG (W_tick 300000)
       (final (searchProducts CONFIG (W_tick 0) S_demo (Obj emptyParams)))
       (Obj emptyParams)) = 1%nat.
Proof.
  split; [reflexivity|]. split; [reflexivity|]. split; [cbn; lia|].
  exact (proj1 (X9_expired_entry_is_replaced CONFIG (W_tick 0) (W_tick 300000)
                  S_demo emptyParams eq_refl eq_refl ltac:(cbn; lia))).
Defined.

(** ** What a call does to the cache *)

(** X10.  A call writes the cache at its own key only, and never removes
    an entry, expired or not: entries under other keys are untouched, the
    cache grows by one entry at most, and across any series of calls every
    key once cached stays cached. *)
Theorem X10_cache_is_written_at_one_key_and_only_grows
    (cfg : Config) (w : World) (st : State) (arg : Arg)
    (calls : list (World * Arg)) :
  let st' := final (searchProducts cfg w st arg) in
  (forall k, k <> generateCacheKey (defaultArg arg) ->
             searchCache st' !! k = searchCache st !! k) /\
  (cacheEntries st <= cacheEntries st' <= S (cacheEntries st))%nat /\
  (forall k, is_Some (searchCache st !! k) ->
             is_Some (searchCache (searchAll cfg calls st) !! k)).
Proof.
  cbv zeta. split; [|split].
  - intros k Hk.
    destruct (searchProducts_final cfg w st arg) as (_ & _ & [-> | [c ->]]);
      [reflexivity|]. now apply lookup_insert_ne.
  - unfold cacheEntries.
    destruct (searchProducts_final cfg w st arg) as (_ & _ & [He | [c He]]);
      rewrite He; [lia|].
    rewrite map_size_insert.
    destruct (searchCache st !! generateCacheKey (defaultArg arg));
      unfold id; lia.
  - revert st. induction calls as [|[w' a'] rest IH]; intros st0 k Hk;
      [exact Hk|].
    cbn [searchAll]. apply IH.
    destruct (searchProducts_final cfg w' st0 a') as (_ & _ & [-> | [c ->]]);
      [exact Hk|].
    apply lookup_insert_is_Some'. now right.
Qed.

Lemma X10_cache_witness :
  "other" <> generateCacheKey (defaultArg Undefined) /\
  searchCache (final (searchProducts CONFIG W0 S_demo Undefined)) !! "other" =
  searchCache S_demo !! "other".
Proof.
  split; [discriminate|].
  pose proof (X10_cache_is_written_at_one_key_and_only_grows
                CONFIG W0 S_demo Undefined []) as H.
  cbv zeta in H. destruct H as (H1 & _ & _).
  apply H1. discriminate.
Defined.

(** ** The remote path *)

(** X11.  When the index answers at the first attempt, the call returns the
    answer with [source = "algolia"], after one call and no delay, and
    stores it: an identical call within the TTL returns the same result
    without asking the index, whatever the index would answer then. *)
Theorem X11_remote_answer_is_cached
    (w1 w2 : World) (st : State) (p : Params) (sp : SearchParams)
    (resp : Response) :
  isDemoMode st = false ->
  isCacheValid CONFIG (now_check w1)
    (searchCache st !! generateCacheKey (Obj p)) = false ->
  buildSearchParams (Obj p) = Return sp ->
  index_search w1 1 sp = Answer resp ->
  now_check w2 - now_store w1 < CACHE_TTL_MS CONFIG ->
  let r1 := searchProducts CONFIG w1 st (Obj p) in
  let r2 := searchProducts CONFIG w2 (final r1) (Obj p) in
  completion r1 = Return (fromResponse resp) /\
  source (fromResponse resp) = "algolia" /\
  hits (fromResponse resp) = r_hits resp /\
  remoteCalls r1 = 1%nat /\ waited r1 = [] /\
  completion r2 = Return (fromResponse resp) /\
  remoteCalls r2 = 0%nat /\ demoRuns r2 = 0%nat.
Proof.
  intros Hd Hm Hsp Hans Hage. cbv zeta.
  assert (Hg : performAlgoliaSearch CONFIG w1 (Obj p) 1 =
               {| outcome := Return (fromResponse resp); delays := [];
                  calls := 1 |}).
  { now rewrite performAlgoliaSearch_step, Hsp, Hans. }
  rewrite (searchProducts_cache_miss CONFIG w1 st (Obj p) Hm), Hd.
  cbn [defaultArg].
  assert (Hr : remoteSearch CONFIG w1 st (Obj p) (now_start w1)
                 (generateCacheKey (Obj p)) =
               {| completion := Return (fromResponse resp);
                  final := cacheSet (generateCacheKey (Obj p)) (fromResponse resp)
                             (now_store w1)
                             (logAnalytics CONFIG (now_log w1) st (Obj p)
                                (fromResponse resp) (now_end w1 - now_start w1)
                                false);
                  waited := []; remoteCalls := 1; demoRuns := 0 |}).
  { unfold remoteSearch. rewrite Hg. reflexivity. }
  rewrite Hr. cbn [completion remoteCalls waited final].
  split; [reflexivity|]. split; [reflexivity|]. split; [reflexivity|].
  split; [reflexivity|]. split; [reflexivity|].
  rewrite (searchProducts_cache_hit_object CONFIG w2 _ (Obj p)
             {| data := fromResponse resp; timestamp := now_store w1 |}).
  - repeat split.
  - discriminate.
  - cbn [defaultArg]. unfold cacheSet. cbn [searchCache].
    apply lookup_insert_eq.
  - exact Hage.
Qed.

Lemma X11_remote_answer_witness :
  isDemoMode S_remote = false /\
  now_check W_down - now_store W_up < CACHE_TTL_MS CONFIG /\
  completion
    (searchProducts CONFIG W_down
       (final (searchProducts CONFIG W_up S_remote (Obj emptyParams)))
       (Obj emptyParams))
  = Return (fromResponse {| r_hits := [demo_4]; nbHits := 1; r_page := 0;
                            processingTimeMS := 2 |}).
Proof.
  split; [reflexivity|]. split; [reflexivity|].
  pose proof (X11_remote_answer_is_cached W_up W_down S_remote emptyParams _ _
                eq_refl eq_refl eq_refl eq_refl eq_refl) as H.
  cbv zeta in H. destruct H as (_ & _ & _ & _ & _ & H & _). exact H.
Defined.

(** X12.  The gateway stops, for every configuration and every attempt
    number it starts from that JavaScript holds exactly, delays included:
    it calls the index at most once more than there are attempt numbers
    left below [MAX_RETRIES], it waits once between two calls, each time
    for [RETRY_DELAY_MS] times the number of an attempt below
    [MAX_RETRIES], and a result it returns is tagged [source = "algolia"]
    without [fallback] or [error]. *)
Theorem X12_gateway_always_stops
    (cfg : Config) (w : World) (params : Arg) (attempt : Z) :
  safeInteger attempt = true ->
  safeInteger (MAX_RETRIES cfg) = true ->
  (forall a, attempt <= a < MAX_RETRIES cfg ->
             safeInteger (RETRY_DELAY_MS cfg * a) = true) ->
  let g := performAlgoliaSearch cfg w params attempt in
  (calls g <= S (Z.to_nat (MAX_RETRIES cfg - attempt)))%nat /\
  length (delays g) = Nat.pred (calls g) /\
  Forall (fun d => exists a, attempt <= a < MAX_RETRIES cfg /\
                             d = RETRY_DELAY_MS cfg * a) (delays g) /\
  (forall r, outcome g = Return r ->
             source r = "algolia" /\ fallback r = None /\ error r = None).
Proof.
  intros _ _ _. cbv zeta.
  destruct (buildSearchParams params) as [sp|e] eqn:Hsp.
  2:{ rewrite performAlgoliaSearch_step, Hsp. cbn.
      repeat split; try lia; try constructor; discriminate. }
  enough (H : (1 <= calls (performAlgoliaSearch cfg w params attempt)
               <= S (Z.to_nat (MAX_RETRIES cfg - attempt)))%nat /\
              length (delays (performAlgoliaSearch cfg w params attempt)) =
                Nat.pred (calls (performAlgoliaSearch cfg w params attempt)) /\
              Forall (fun d => exists a, attempt <= a < MAX_RETRIES cfg /\
                                         d = RETRY_DELAY_MS cfg * a)
                (delays (performAlgoliaSearch cfg w params attempt)) /\
              (forall r, outcome (performAlgoliaSearch cfg w params attempt)
                         = Return r ->
                         source r = "algolia" /\ fallback r = None /\
                         error r = None)).
  { destruct H as ((_ & H1) & H2 & H3 & H4). auto. }
  remember (Z.to_nat (MAX_RETRIES cfg - attempt)) as n eqn:Hn.
  revert attempt Hn. induction n as [|n IH]; intros attempt Hn;
    rewrite performAlgoliaSearch_step, Hsp;
    destruct (index_search w attempt sp) as [resp|e].
  - cbn. split; [lia|]. split; [reflexivity|]. split; [constructor|].
    intros r [= <-]. repeat split.
  - destruct (Z_lt_dec attempt (MAX_RETRIES cfg)) as [Hlt|Hge];
      [exfalso; lia|].
    cbn. split; [lia|]. split; [reflexivity|]. split; [constructor|].
    discriminate.
  - cbn. split; [lia|]. split; [reflexivity|]. split; [constructor|].
    intros r [= <-]. repeat split.
  - destruct (Z_lt_dec attempt (MAX_RETRIES cfg)) as [Hlt|Hge].
    + destruct (IH (attempt + 1) ltac:(lia)) as ((H0 & H1) & H2 & H3 & H4).
      unfold afterDelay. cbn [calls delays outcome length].
      split; [lia|]. split; [lia|]. split; [|exact H4]. constructor.
      * exists attempt. split; [lia | reflexivity].
      * eapply Forall_impl; [exact H3|]. intros d (a & Ha & ->).
        exists a. split; [lia | reflexivity].
    + cbn. split; [lia|]. split; [reflexivity|]. split; [constructor|].
      discriminate.
Qed.

Lemma X12_gateway_witness :
  safeInteger 1 = true /\ safeInteger (MAX_RETRIES CONFIG) = true /\
  (forall a, 1 <= a < MAX_RETRIES CONFIG ->
             safeInteger (RETRY_DELAY_MS CONFIG * a) = true) /\
  (calls (performAlgoliaSearch CONFIG W_down (Obj emptyParams) 1) <= 3)%nat /\
  length (delays (performAlgoliaSearch CONFIG W_down (Obj emptyParams) 1)) =
    Nat.pred (calls (performAlgoliaSearch CONFIG W_down (Obj emptyParams) 1)).
Proof.
  assert (Hd : forall a, 1 <= a < MAX_RETRIES CONFIG ->
                         safeInteger (RETRY_DELAY_MS CONFIG * a) = true).
  { intros a Ha. unfold safeInteger. cbn [MAX_RETRIES RETRY_DELAY_MS CONFIG] in *.
    apply Z.leb_le. lia. }
  split; [reflexivity|]. split; [reflexivity|]. split; [exact Hd|].
  pose proof (X12_gateway_always_stops CONFIG W_down (Obj emptyParams) 1
                eq_refl eq_refl Hd) as H.
  cbv zeta in H. destruct H as (H1 & H2 & _).
  split; [exact H1 | exact H2].
Defined.

(** ** Errors that reach the caller *)

(** X13.  With [DEMO_FALLBACK] switched off, a remote search that fails for
    good throws the error of the last attempt to the caller and leaves the
    module as it was: nothing is logged and nothing is cached. *)
Theorem X13_without_fallback_the_error_is_thrown
    (cfg : Config) (w : World) (st : State) (arg : Arg) (msg : string) :
  DEMO_FALLBACK cfg = false ->
  isDemoMode st = false ->
  isCacheValid cfg (now_check w)
    (searchCache st !! generateCacheKey (defaultArg arg)) = false ->
  outcome (performAlgoliaSearch cfg w (defaultArg arg) 1) = Throw msg ->
  let r := searchProducts cfg w st arg in
  completion r = Throw msg /\ final r = st /\ demoRuns r = 0%nat.
Proof.
  intros Hf Hd Hm Ho. cbv zeta.
  rewrite (searchProducts_cache_miss cfg w st arg Hm), Hd.
  unfold remoteSearch. rewrite Ho, Hf. repeat split.
Qed.

Lemma X13_no_fallback_witness :
  DEMO_FALLBACK CONFIG_no_fallback = false /\
  outcome (performAlgoliaSearch CONFIG_no_fallback W_down (defaultArg Undefined) 1)
    = Throw "down" /\
  completion (searchProducts CONFIG_no_fallback W_down S_remote Undefined)
    = Throw "down" /\
  final (searchProducts CONFIG_no_fallback W_down S_remote Undefined) = S_remote.
Proof.
  split; [reflexivity|].
  assert (Ho : outcome (performAlgoliaSearch CONFIG_no_fallback W_down
                          (defaultArg Undefined) 1) = Throw "down")
    by (vm_compute; reflexivity).
  split; [exact Ho|].
  pose proof (X13_without_fallback_the_error_is_thrown CONFIG_no_fallback W_down
                S_remote Undefined "down" eq_refl eq_refl eq_refl Ho) as H.
  cbv zeta in H. destruct H as (H1 & H2 & _). split; assumption.
Defined.

(** X14.  With the fallback on, as in the source, a call whose argument is
    not [null] never throws, whatever the state, the clock and the remote
    index do; and a call with [null] never throws unless it hits the
    cache. *)
Theorem X14_calls_return
    (cfg : Config) (w : World) (st : State) (arg : Arg) :
  DEMO_FALLBACK cfg = true ->
  arg <> Null \/
  isCacheValid cfg (now_check w)
    (searchCache st !! generateCacheKey (defaultArg arg)) = false ->
  exists res, completion (searchProducts cfg w st arg) = Return res.
Proof.
  intros Hf H. unfold searchProducts. cbv zeta.
  destruct (searchCache st !! generateCacheKey (defaultArg arg)) as [c|].
  - destruct (isCacheValid cfg (now_check w) (Some c)).
    + destruct H as [Hn|H]; [|discriminate].
      destruct arg; [|contradiction|]; eexists; reflexivity.
    + destruct (isDemoMode st); [eexists; reflexivity|].
      unfold remoteSearch.
      destruct (outcome (performAlgoliaSearch cfg w (defaultArg arg) 1));
        [|rewrite Hf]; eexists; reflexivity.
  - cbn [isCacheValid].
    destruct (isDemoMode st); [eexists; reflexivity|].
    unfold remoteSearch.
    destruct (outcome (performAlgoliaSearch cfg w (defaultArg arg) 1));
      [|rewrite Hf]; eexists; reflexivity.
Qed.

Lemma X14_calls_return_witness :
  DEMO_FALLBACK CONFIG = true /\ Obj emptyParams <> Null /\
  exists res, completion (searchProducts CONFIG W_down S_remote (Obj emptyParams))
              = Return res.
Proof.
  split; [reflexivity|]. split; [discriminate|].
  apply (X14_calls_return CONFIG W_down S_remote (Obj emptyParams) eq_refl).
  left. discriminate.
Defined.

(** ** Which requests share a cache key *)

Lemma append_length (a b : string) :
  String.length (a +:+ b) = (String.length a + String.length b)%nat.
Proof.
  induction a as [|x a IH]; [reflexivity|].
  rewrite append_cons. cbn [String.length]. now rewrite IH.
Qed.

Lemma append_inj_r (a b c : string) : a +:+ c = b +:+ c -> a = b.
Proof.
  revert b. induction a as [|x a IH]; intros [|y b] H.
  - reflexivity.
  - apply (f_equal String.length) in H.
    rewrite append_nil, append_cons in H. cbn [String.length] in H.
    rewrite append_length in H. lia.
  - apply (f_equal String.length) in H.
    rewrite append_nil, append_cons in H. cbn [String.length] in H.
    rewrite append_length in H. lia.
  - rewrite !append_cons in H. injection H as -> H. f_equal. now apply IH.
Qed.

Lemma number_inj (a b : Z) : Json.number a = Json.number b -> a = b.
Proof.
  unfold Json.number. intros H.
  apply DecimalZ.to_int_inj.
  assert (Hn : forall z, Z.to_int z <> Decimal.Pos Decimal.Nil /\
                         Z.to_int z <> Decimal.Neg Decimal.Nil).
  { intros [|p|p]; cbn; split; try discriminate;
      intros [= Hp]; now apply DecimalPos.Unsigned.to_uint_nonnil in Hp. }
  apply (f_equal NilZero.int_of_string) in H.
  rewrite !NilZero.isi in H by apply Hn. now injection H.
Qed.

(** A quoted text followed by anything is read back in one way. *)
Lemma quote_inj a b x y :
  Json.quote a +:+ x = Json.quote b +:+ y -> a = b /\ x = y.
Proof.
  intros H. assert (Hab : a = b).
  { unfold Json.quote in H. rewrite !append_cons in H. injection H as H.
    rewrite !append_assoc, !append_cons in H. eapply escape_inj; eauto. }
  subst b. split; [reflexivity|]. now apply append_inj_l in H.
Qed.

(** X15.  Two arguments have the same cache key exactly when they agree on
    the three values the key is made of: [query || ''], [filters || ''] and
    [hitsPerPage || 5].  So [null], no argument and [{}] share a key, an
    absent text and an empty one do, a page of 0 and a page of 5 do, and no
    other two requests collide. *)
Theorem X15_cache_key_is_exact (a1 a2 : Arg) :
  generateCacheKey a1 = generateCacheKey a2 <->
  JS.orString (query (safeParams a1)) "" = JS.orString (query (safeParams a2)) "" /\
  JS.orString (filters (safeParams a1)) "" =
    JS.orString (filters (safeParams a2)) "" /\
  JS.orNumber (hitsPerPage (safeParams a1)) 5 =
    JS.orNumber (hitsPerPage (safeParams a2)) 5.
Proof.
  unfold generateCacheKey. cbv zeta. split.
  - intros H. do 2 apply append_inj_l in H.
    apply quote_inj in H as [Hq H]. do 2 apply append_inj_l in H.
    apply quote_inj in H as [Hf H]. do 2 apply append_inj_l in H.
    apply append_inj_r in H. apply number_inj in H. auto.
  - intros (-> & -> & ->). reflexivity.
Qed.

Example keys_of_no_request :
  generateCacheKey Null = generateCacheKey Undefined /\
  generateCacheKey Null = generateCacheKey (Obj emptyParams) /\
  generateCacheKey Null =
    generateCacheKey (Obj {| query := Some ""; filters := Some "";
                             hitsPerPage := Some 0;
                             attributesToRetrieve := Some ["name"] |}).
Proof. repeat split. Qed.

(** ** The order of the hits *)

Lemma insertByPrice_sorted x l :
  StronglySorted cheaperOrEqual l ->
  StronglySorted cheaperOrEqual (Filter.insertByPrice x l).
Proof.
  induction 1 as [|y l Hs IH Hy]; cbn [Filter.insertByPrice].
  - repeat constructor.
  - destruct (price_sale x <=? price_sale y) eqn:E.
    + apply Z.leb_le in E. constructor; [constructor; assumption|].
      constructor; [exact E|].
      eapply Forall_impl; [exact Hy|]. unfold cheaperOrEqual. intros; lia.
    + apply Z.leb_gt in E. constructor; [exact IH|].
      apply Forall_forall. intros z Hz. apply list_elem_of_In in Hz.
      apply insertByPrice_In in Hz as [-> | Hz].
      * unfold cheaperOrEqual. lia.
      * rewrite Forall_forall in Hy. apply Hy. now apply list_elem_of_In.
Qed.

Lemma sortByPrice_sorted l : StronglySorted cheaperOrEqual (Filter.sortByPrice l).
Proof.
  induction l as [|x l IH]; cbn [Filter.sortByPrice]; [constructor|].
  now apply insertByPrice_sorted.
Qed.

Lemma insertByPrice_ofPrice c x l :
  StronglySorted cheaperOrEqual l ->
  ofPrice c (Filter.insertByPrice x l) = ofPrice c (x :: l).
Proof.
  induction 1 as [|y l Hs IH Hy]; [reflexivity|].
  cbn [Filter.insertByPrice].
  destruct (price_sale x <=? price_sale y) eqn:E; [reflexivity|].
  apply Z.leb_gt in E. unfold ofPrice in *. cbn [List.filter] in *.
  rewrite IH.
  destruct (price_sale y =? c) eqn:Ey, (price_sale x =? c) eqn:Ex;
    try reflexivity.
  apply Z.eqb_eq in Ey, Ex. lia.
Qed.

Lemma sortByPrice_ofPrice c l :
  ofPrice c (Filter.sortByPrice l) = ofPrice c l.
Proof.
  induction l as [|x l IH]; [reflexivity|]. cbn [Filter.sortByPrice].
  rewrite insertByPrice_ofPrice by apply sortByPrice_sorted.
  unfold ofPrice in *. cbn [List.filter]. now rewrite IH.
Qed.

Lemma StronglySorted_take {A} (R : A -> A -> Prop) n l :
  StronglySorted R l -> StronglySorted R (take n l).
Proof.
  intros H. revert n. induction H as [|x l Hs IH Hx]; intros [|n];
    cbn [take]; try constructor; [apply IH|].
  apply Forall_forall. intros y Hy. rewrite Forall_forall in Hx. apply Hx.
  eapply subseteq_take; eauto.
Qed.

(** X16.  The hits of the fallback search come in ascending price; products
    of one price keep the order they have among the matching products; and
    the first hit costs no more than any product that matches. *)
Theorem X16_hits_are_sorted_by_price (a : Arg) :
  let r := searchDemoProducts a in
  let sorted := Filter.sortByPrice (Filter.matching (safeParams a)) in
  StronglySorted cheaperOrEqual (hits r) /\
  (forall c, ofPrice c sorted = ofPrice c (Filter.matching (safeParams a))) /\
  (forall h m, head (hits r) = Some h ->
               In m (Filter.matching (safeParams a)) ->
               price_sale h <= price_sale m).
Proof.
  cbv zeta. split; [|split].
  - unfold searchDemoProducts. cbv zeta. cbn [hits]. unfold JS.slice0.
    apply StronglySorted_take, sortByPrice_sorted.
  - intros c. apply sortByPrice_ofPrice.
  - intros h m Hh Hm. unfold searchDemoProducts in Hh. cbv zeta in Hh.
    cbn [hits] in Hh. unfold JS.slice0 in Hh.
    pose proof (sortByPrice_sorted (Filter.matching (safeParams a))) as Hs.
    apply (proj2 (sortByPrice_In m _)) in Hm.
    destruct (Filter.sortByPrice (Filter.matching (safeParams a)))
      as [|x l]; [destruct Hm|].
    destruct (Z.to_nat _) in Hh; [discriminate|]. cbn in Hh.
    injection Hh as <-. inversion Hs as [|? ? _ Hx]; subst.
    destruct Hm as [<- | Hm]; [lia|].
    rewrite Forall_forall in Hx. apply Hx. now apply list_elem_of_In.
Qed.

Lemma X16_sorted_witness :
  head (hits (searchDemoProducts Undefined)) = Some demo_3 /\
  In demo_5 (Filter.matching (safeParams Undefined)) /\
  price_sale demo_3 <= price_sale demo_5.
Proof.
  assert (E : head (hits (searchDemoProducts Undefined)) = Some demo_3)
    by reflexivity.
  assert (I5 : In demo_5 (Filter.matching (safeParams Undefined)))
    by (vm_compute; tauto).
  split; [exact E|]. split; [exact I5|].
  pose proof (X16_hits_are_sorted_by_price Undefined) as H.
  cbv zeta in H. destruct H as (_ & _ & H3).
  exact (H3 demo_3 demo_5 E I5).
Defined.

(** ** The hits are products of the catalogue *)

Lemma insertByPrice_Permutation x l : Permutation (Filter.insertByPrice x l) (x :: l).
Proof.
  induction l as [|y l IH]; cbn [Filter.insertByPrice]; [reflexivity|].
  destruct (price_sale x <=? price_sale y); [reflexivity|].
  rewrite IH. apply perm_swap.
Qed.

Lemma sortByPrice_Permutation l : Permutation (Filter.sortByPrice l) l.
Proof.
  induction l as [|x l IH]; cbn [Filter.sortByPrice]; [reflexivity|].
  rewrite insertByPrice_Permutation. now constructor.
Qed.

Lemma NoDup_map_filter {A B} (f : A -> B) (g : A -> bool) l :
  List.NoDup (map f l) -> List.NoDup (map f (List.filter g l)).
Proof.
  induction l as [|x l IH]; cbn [map List.filter]; [auto|].
  intros H. inversion H as [|? ? Hx Hl]; subst.
  destruct (g x); [|auto]. cbn [map]. constructor; [|auto].
  intros Hin. apply Hx. apply in_map_iff in Hin as (y & <- & Hy).
  apply in_map. apply filter_In in Hy. tauto.
Qed.

Lemma NoDup_map_take {A B} (f : A -> B) n l :
  List.NoDup (map f l) -> List.NoDup (map f (take n l)).
Proof.
  revert n. induction l as [|x l IH]; intros [|n] H; cbn [take map];
    try constructor.
  - inversion H as [|? ? Hx Hl]; subst. intros Hin. apply Hx.
    apply in_map_iff in Hin as (y & <- & Hy). apply in_map.
    apply list_elem_of_In. apply list_elem_of_In in Hy.
    eapply subseteq_take; eauto.
  - inversion H; subst. auto.
Qed.

Lemma applyFilters_ids f l :
  List.NoDup (map objectID l) ->
  List.NoDup (map objectID (Filter.applyFilters f l)).
Proof.
  intros H. rewrite applyFilters_pipeline.
  unfold Filter.byBrand, Filter.byStock, Filter.byBattery, Filter.byWeight,
    Filter.byBudget.
  repeat match goal with
         | |- context [match ?o with Some _ => _ | None => _ end] => destruct o
         | |- context [if ?b then _ else _] => destruct b
         | |- List.NoDup (map _ (List.filter _ _)) => apply NoDup_map_filter
         end; exact H.
Qed.

Lemma applyQuery_ids q l :
  List.NoDup (map objectID l) ->
  List.NoDup (map objectID (Filter.applyQuery q l)).
Proof.
  intros H. unfold Filter.applyQuery.
  destruct (JS.truthy q && negb (String.eqb q "laptop")); [|exact H].
  now apply NoDup_map_filter.
Qed.

Lemma applyFilters_length f l :
  (length (Filter.applyFilters f l) <= length l)%nat.
Proof.
  rewrite applyFilters_pipeline.
  unfold Filter.byBrand, Filter.byStock, Filter.byBattery, Filter.byWeight,
    Filter.byBudget.
  repeat match goal with
         | |- context [match ?o with Some _ => _ | None => _ end] => destruct o
         | |- context [if ?b then _ else _] => destruct b
         end;
    repeat (etransitivity; [apply List.filter_length_le|]); lia.
Qed.

(** X17.  The fallback search returns products of the catalogue only, no
    product twice (their [objectID]s are distinct), and a [total] between 0
    and the five products of the catalogue. *)
Theorem X17_hits_come_from_the_catalogue (a : Arg) :
  let r := searchDemoProducts a in
  (forall h, In h (hits r) -> In h DEMO_PRODUCTS) /\
  List.NoDup (map objectID (hits r)) /\
  0 <= total r <= 5.
Proof.
  cbv zeta. split; [|split].
  - intros h Hh. apply hits_matching in Hh. unfold Filter.matching in Hh.
    apply applyQuery_In in Hh. apply applyFilters_In in Hh. tauto.
  - unfold searchDemoProducts. cbv zeta. cbn [hits]. unfold JS.slice0.
    apply NoDup_map_take.
    eapply Permutation_NoDup;
      [symmetry; apply Permutation_map, sortByPrice_Permutation|].
    unfold Filter.matching. apply applyQuery_ids, applyFilters_ids.
    vm_compute. repeat constructor; cbn; intuition discriminate.
  - unfold searchDemoProducts. cbv zeta. cbn [total].
    rewrite sortByPrice_length. unfold Filter.matching.
    pose proof (applyQuery_length (default "" (query (safeParams a)))
                  (Filter.applyFilters (default "" (filters (safeParams a)))
                     DEMO_PRODUCTS)).
    pose proof (applyFilters_length (default "" (filters (safeParams a)))
                  DEMO_PRODUCTS).
    cbn [DEMO_PRODUCTS length] in *. lia.
Qed.

Lemma X17_catalogue_witness :
  In demo_4 (hits (searchDemoProducts (Obj {| query := Some "macbook";
                                              filters := None;
                                              hitsPerPage := None;
                                              attributesToRetrieve := None |}))) /\
  In demo_4 DEMO_PRODUCTS.
Proof.
  assert (I4 : In demo_4 (hits (searchDemoProducts
                (Obj {| query := Some "macbook"; filters := None;
                        hitsPerPage := None; attributesToRetrieve := None |}))))
    by (vm_compute; tauto).
  split; [exact I4|].
  pose proof (X17_hits_come_from_the_catalogue
                (Obj {| query := Some "macbook"; filters := None;
                        hitsPerPage := None; attributesToRetrieve := None |})) as H.
  cbv zeta in H. destruct H as (H1 & _ & _).
  exact (H1 demo_4 I4).
Defined.

(** ** The page, for every page size *)

(** X18.  The page is a prefix of the sorted matching products, for every
    page size.  Without [hitsPerPage] it has five products or all when
    fewer match; with a negative [hitsPerPage] the search does not fail:
    it leaves out that many of the most expensive matches, and returns
    nothing when not more than that many match. *)
Theorem X18_page_for_every_size (a : Arg) :
  let r := searchDemoProducts a in
  let n := default 5 (hitsPerPage (safeParams a)) in
  (exists rest,
      Filter.sortByPrice (Filter.matching (safeParams a)) = hits r ++ rest) /\
  Z.of_nat (length (hits r)) =
    (if n <? 0 then Z.max (total r + n) 0 else Z.min n (total r)) /\
  (hitsPerPage (safeParams a) = None ->
   Z.of_nat (length (hits r)) = Z.min 5 (total r)).
Proof.
  cbv zeta. unfold searchDemoProducts. cbv zeta. cbn [hits total].
  unfold JS.slice0.
  set (sorted := Filter.sortByPrice (Filter.matching (safeParams a))).
  split; [|split].
  - eexists. symmetry. apply take_drop.
  - rewrite length_take.
    destruct (default 5 (hitsPerPage (safeParams a)) <? 0) eqn:E;
      [apply Z.ltb_lt in E | apply Z.ltb_ge in E]; lia.
  - intros ->. cbn [default]. rewrite length_take.
    replace (5 <? 0) with false by reflexivity. lia.
Qed.

Lemma X18_page_witness :
  hitsPerPage (safeParams Null) = None /\
  Z.of_nat (length (hits (searchDemoProducts Null))) =
  Z.min 5 (total (searchDemoProducts Null)).
Proof.
  split; [reflexivity|].
  pose proof (X18_page_for_every_size Null) as H.
  cbv zeta in H. destruct H as (_ & _ & H3).
  apply H3. reflexivity.
Defined.

Example page_of_minus_two :
  map objectID
    (hits (searchDemoProducts
             (Obj {| query := None; filters := None; hitsPerPage := Some (-2);
                     attributesToRetrieve := None |})))
  = ["demo-3"; "demo-2"; "demo-5"].
Proof. reflexivity. Qed.

(** ** Which products match *)

Lemma byBudget_complete f l h :
  In h l ->
  (forall m, Filter.budgetMatch f = Some m -> price_sale h < JS.parseInt m) ->
  In h (Filter.byBudget f l).
Proof.
  intros Hin H. unfold Filter.byBudget.
  destruct (Filter.budgetMatch f) as [m|]; [|exact Hin].
  apply filter_In. split; [exact Hin|]. apply Z.ltb_lt. now apply H.
Qed.

Lemma byWeight_complete f l h :
  In h l ->
  (forall m, Filter.weightMatch f = Some m ->
             (weight_kg h < JS.parseFloat m)%Q) ->
  In h (Filter.byWeight f l).
Proof.
  intros Hin H. unfold Filter.byWeight.
  destruct (Filter.weightMatch f) as [m|]; [|exact Hin].
  apply filter_In. split; [exact Hin|]. apply Qltb_lt. now apply H.
Qed.

Lemma byBattery_complete f l h :
  In h l ->
  (forall m, Filter.batteryMatch f = Some m ->
             (JS.parseFloat m < battery_hours h)%Q) ->
  In h (Filter.byBattery f l).
Proof.
  intros Hin H. unfold Filter.byBattery.
  destruct (Filter.batteryMatch f) as [m|]; [|exact Hin].
  apply filter_In. split; [exact Hin|]. apply Qltb_lt. now apply H.
Qed.

Lemma byStock_complete f l h :
  In h l ->
  (JS.includes "in_stock:true" f = true -> in_stock h = true) ->
  In h (Filter.byStock f l).
Proof.
  intros Hin H. unfold Filter.byStock.
  destruct (JS.includes "in_stock:true" f); [|exact Hin].
  apply filter_In. split; [exact Hin|]. now apply H.
Qed.

Lemma byBrand_complete f l h :
  In h l ->
  (forall m, Filter.brandMatch f = Some m ->
             JS.toUpperCase (brand h) = JS.toUpperCase m) ->
  In h (Filter.byBrand f l).
Proof.
  intros Hin H. unfold Filter.byBrand.
  destruct (Filter.brandMatch f) as [m|]; [|exact Hin].
  apply filter_In. split; [exact Hin|]. apply String.eqb_eq. now apply H.
Qed.

Lemma applyFilters_iff f l h :
  In h (Filter.applyFilters f l) <-> In h l /\ passes f h.
Proof.
  split; [apply applyFilters_In|].
  intros (Hin & Hb & Hw & Hh & Hbr & Hs). rewrite applyFilters_pipeline.
  apply byBrand_complete; [|exact Hbr].
  apply byStock_complete; [|exact Hs].
  apply byBattery_complete; [|exact Hh].
  apply byWeight_complete; [|exact Hw].
  now apply byBudget_complete.
Qed.

Lemma applyQuery_iff q l h :
  In h (Filter.applyQuery q l) <-> In h l /\ queryKeeps q h = true.
Proof.
  unfold Filter.applyQuery, queryKeeps.
  destruct (JS.truthy q && negb (String.eqb q "laptop")).
  - apply filter_In.
  - tauto.
Qed.

(** X19.  The products that match a request are exactly the products of the
    catalogue that pass, for each field, the first atom of the filter in
    which the field's pattern matches, and whose name is kept by the
    query; the bounds on weight and battery are literals of at most 15
    characters, which JavaScript compares as the decimals they are.  Every
    matching product is among the hits when the page is large enough for
    all. *)
Theorem X19_matching_is_exact (p : Params) (atoms : list string) (h : Product) :
  filters p = Some (joinAnd atoms) ->
  shortLiteral (firstSome Filter.weightMatch atoms) = true ->
  shortLiteral (firstSome Filter.batteryMatch atoms) = true ->
  (In h (Filter.matching p) <->
   In h DEMO_PRODUCTS /\ passesAtoms atoms h /\
   queryKeeps (default "" (query p)) h = true) /\
  (In h (Filter.matching p) ->
   total (searchDemoProducts (Obj p)) <= default 5 (hitsPerPage p) ->
   In h (hits (searchDemoProducts (Obj p)))).
Proof.
  intros Hf _ _. split.
  - unfold Filter.matching. rewrite Hf. cbn [default]. unfold id.
    rewrite applyQuery_iff, applyFilters_iff, passes_joinAnd. tauto.
  - intros Hin Hn. unfold searchDemoProducts in *. cbv zeta in *.
    cbn [hits total safeParams] in *. unfold JS.slice0.
    set (sorted := Filter.sortByPrice (Filter.matching p)) in *.
    assert (Hk : Z.to_nat
                   (if default 5 (hitsPerPage p) <? 0
                    then Z.max (Z.of_nat (length sorted) + default 5 (hitsPerPage p)) 0
                    else Z.min (default 5 (hitsPerPage p)) (Z.of_nat (length sorted)))
                 = length sorted).
    { destruct (default 5 (hitsPerPage p) <? 0) eqn:E;
        [apply Z.ltb_lt in E | apply Z.ltb_ge in E]; lia. }
    rewrite Hk, firstn_all. now apply sortByPrice_In.
Qed.

Lemma X19_matching_witness :
  let atoms := ["price_sale < 2000000"; "weight_kg < 1.5"; "in_stock:true"] in
  let p := {| query := None; filters := Some (joinAnd atoms);
              hitsPerPage := None; attributesToRetrieve := None |} in
  filters p = Some (joinAnd atoms) /\
  shortLiteral (firstSome Filter.weightMatch atoms) = true /\
  shortLiteral (firstSome Filter.batteryMatch atoms) = true /\
  (In demo_2 (Filter.matching p) <->
   In demo_2 DEMO_PRODUCTS /\ passesAtoms atoms demo_2 /\
   queryKeeps (default "" (query p)) demo_2 = true).
Proof.
  cbv zeta. split; [reflexivity|]. split; [reflexivity|]. split; [reflexivity|].
  exact (proj1 (X19_matching_is_exact
                  {| query := None;
                     filters := Some (joinAnd ["price_sale < 2000000";
                                               "weight_kg < 1.5";
                                               "in_stock:true"]);
                     hitsPerPage := None; attributesToRetrieve := None |}
                  ["price_sale < 2000000"; "weight_kg < 1.5"; "in_stock:true"]
                  demo_2 eq_refl eq_refl eq_refl)).
Defined.

(** ** The text filter of the query *)

Lemma lower_upper c : JS.lowerChar (JS.upperChar c) = JS.lowerChar c.
Proof. destruct c as [[] [] [] [] [] [] [] []]; reflexivity. Qed.

Lemma toLowerCase_toUpperCase s :
  JS.toLowerCase (JS.toUpperCase s) = JS.toLowerCase s.
Proof.
  induction s as [|c s IH]; [reflexivity|].
  cbn [JS.toLowerCase JS.toUpperCase JS.mapChars] in *.
  now rewrite lower_upper, IH.
Qed.

Lemma upperChar_not_l c : JS.upperChar c <> "l"%char.
Proof. destruct c as [[] [] [] [] [] [] [] []]; vm_compute; discriminate. Qed.

Lemma toUpperCase_not_laptop s : String.eqb (JS.toUpperCase s) "laptop" = false.
Proof.
  apply String.eqb_neq. destruct s as [|c s]; [discriminate|].
  cbn [JS.toUpperCase JS.mapChars]. intros [= H _].
  now apply upperChar_not_l in H.
Qed.

Lemma toLowerCase_app a b :
  JS.toLowerCase (a +:+ b) = JS.toLowerCase a +:+ JS.toLowerCase b.
Proof.
  induction a as [|c a IH]; [reflexivity|].
  rewrite append_cons. cbn [JS.toLowerCase JS.mapChars] in *.
  now rewrite IH, append_cons.
Qed.

Lemma split_nonempty sep s : JS.split sep s <> [].
Proof.
  destruct s as [|c s]; cbn [JS.split]; [discriminate|].
  destruct (Ascii.eqb c sep); [discriminate|].
  destruct (JS.split sep s); discriminate.
Qed.

(** An empty term after a separator stays an empty term of the whole. *)
Lemma split_after sep a x :
  In EmptyString (JS.split sep x) ->
  In EmptyString (tail (JS.split sep (a +:+ String sep x))).
Proof.
  intros Hx. induction a as [|c a IH].
  - rewrite append_nil. cbn [JS.split]. rewrite Ascii.eqb_refl. exact Hx.
  - rewrite append_cons. cbn [JS.split]. destruct (Ascii.eqb c sep).
    + cbn [tail]. destruct (JS.split sep (a +:+ String sep x)); [destruct IH|].
      right. exact IH.
    + destruct (JS.split sep (a +:+ String sep x)); [destruct IH | exact IH].
Qed.

Lemma In_tail {A} (x : A) l : In x (tail l) -> In x l.
Proof. destruct l; [tauto | now right]. Qed.

Lemma includes_empty s : JS.includes EmptyString s = true.
Proof. destruct s; reflexivity. Qed.

Lemma applyQuery_empty_term q l :
  In EmptyString (JS.split " " (JS.toLowerCase q)) -> Filter.applyQuery q l = l.
Proof.
  intros Hin. unfold Filter.applyQuery.
  destruct (JS.truthy q && negb (String.eqb q "laptop")); [|reflexivity].
  cbv zeta. apply forallb_filter_id. apply forallb_forall. intros h _.
  apply existsb_exists. exists EmptyString. split; [exact Hin|].
  apply includes_empty.
Qed.

(** X20.  The query filters nothing when it is empty or the word [laptop],
    and also when a stray space leaves it an empty term: a space at its
    start or its end, or two in a row.  Matching ignores the case of a
    query in ASCII, but the word [laptop] is recognised in lower case
    only. *)
Theorem X20_query_filter_edges (q a b : string) (l : list Product) :
  Filter.applyQuery EmptyString l = l /\
  Filter.applyQuery "laptop" l = l /\
  Filter.applyQuery (String " " b) l = l /\
  Filter.applyQuery (a +:+ " ") l = l /\
  Filter.applyQuery (a +:+ "  " +:+ b) l = l /\
  (allChars isAscii q = true -> q <> "laptop" ->
   Filter.applyQuery (JS.toUpperCase q) l = Filter.applyQuery q l) /\
  Filter.applyQuery "LAPTOP" DEMO_PRODUCTS = [demo_1].
Proof.
  split; [reflexivity|]. split; [reflexivity|].
  split; [apply applyQuery_empty_term; now left|].
  split.
  { apply applyQuery_empty_term. rewrite toLowerCase_app.
    apply In_tail, (split_after " " _ EmptyString). now left. }
  split.
  { apply applyQuery_empty_term. rewrite toLowerCase_app.
    change (JS.toLowerCase ("  " +:+ b))
      with (String " " (String " " (JS.toLowerCase b))).
    apply In_tail, split_after. cbn [JS.split]. now left. }
  split; [|reflexivity].
  intros _ Hq. unfold Filter.applyQuery.
  rewrite toUpperCase_not_laptop, toLowerCase_toUpperCase.
  replace (String.eqb q "laptop") with false
    by (symmetry; now apply String.eqb_neq).
  now destruct q.
Qed.

Lemma X20_query_witness :
  allChars isAscii "gaming" = true /\ "gaming" <> "laptop" /\
  Filter.applyQuery (JS.toUpperCase "gaming") DEMO_PRODUCTS =
  Filter.applyQuery "gaming" DEMO_PRODUCTS.
Proof.
  split; [reflexivity|]. split; [discriminate|].
  apply (X20_query_filter_edges "gaming" EmptyString EmptyString DEMO_PRODUCTS);
    [reflexivity | discriminate].
Defined.

(** ** Loading the module *)

Lemma demo_mode_is_local cfg w st arg :
  isDemoMode st = true ->
  remoteCalls (searchProducts cfg w st arg) = 0%nat /\
  waited (searchProducts cfg w st arg) = [].
Proof.
  intros Hd. unfold searchProducts. cbv zeta. rewrite Hd.
  destruct (searchCache st !! generateCacheKey (defaultArg arg)) as [c|].
  - destruct (isCacheValid cfg (now_check w) (Some c)); [|split; reflexivity].
    unfold cacheHit. destruct (readQuery (defaultArg arg)); split; reflexivity.
  - cbn [isCacheValid]. split; reflexivity.
Qed.

(** X21.  With the fallback on, loading the module leaves it in demo mode
    exactly when [index] was not set: never a module that would search
    an index it does not have.  The index is set exactly when there is a
    key, not empty, and the connection is built without an error.  The
    cache and the log start empty, and a module without index answers
    without a remote call. *)
Theorem X21_loading_selects_the_mode
    (cfg : Config) (apiKey : option string) (connect : Completion unit) :
  DEMO_FALLBACK cfg = true ->
  let m := initializeClient cfg apiKey connect in
  isDemoMode (loaded m) = negb (indexReady m) /\
  (indexReady m = true <->
   (exists k, apiKey = Some k /\ k <> EmptyString) /\
   (exists u, connect = Return u)) /\
  searchCache (loaded m) = ∅ /\ analyticsLog (loaded m) = [] /\
  (forall w arg,
     indexReady m = false ->
     remoteCalls (searchProducts cfg (worldOf m w) (loaded m) arg) = 0%nat).
Proof.
  intros Hf. cbv zeta. unfold initializeClient. rewrite Hf.
  destruct apiKey as [[|c k]|]; cbn [default JS.truthy negb loaded indexReady].
  - split; [reflexivity|]. split; [|split; [reflexivity|split; [reflexivity|]]].
    + split; [discriminate|].
      intros [(k & Hk & Hne) _]. injection Hk as <-. contradiction.
    + intros w arg _. now apply demo_mode_is_local.
  - destruct connect as [u|e]; cbn [loaded indexReady setDemoMode isDemoMode
      searchCache analyticsLog negb].
    + split; [reflexivity|]. split; [|split; [reflexivity|split; [reflexivity|]]].
      * split; [intros _|reflexivity]. split; [|now exists u].
        eexists. split; [reflexivity | discriminate].
      * discriminate.
    + split; [reflexivity|]. split; [|split; [reflexivity|split; [reflexivity|]]].
      * split; [discriminate|]. intros [_ (u & Hu)]. discriminate.
      * intros w arg _. now apply demo_mode_is_local.
  - split; [reflexivity|]. split; [|split; [reflexivity|split; [reflexivity|]]].
    + split; [discriminate|]. intros [(k & Hk & _) _]. discriminate.
    + intros w arg _. now apply demo_mode_is_local.
Qed.

Lemma X21_loading_witness :
  DEMO_FALLBACK CONFIG = true /\
  isDemoMode (loaded (initializeClient CONFIG (Some "key") (Throw "no network")))
  = true.
Proof.
  split; [reflexivity|].
  pose proof (X21_loading_selects_the_mode CONFIG (Some "key")
                (Throw "no network") eq_refl) as H.
  cbv zeta in H. destruct H as (H1 & _). exact H1.
Defined.

Lemma gateway_without_index (w : World) (p : Params) :
  performAlgoliaSearch CONFIG (withoutIndex w) (Obj p) 1 =
  {| outcome := Throw TypeError_no_index; delays := [1000; 2000]; calls := 3 |}.
Proof.
  rewrite performAlgoliaSearch_step. cbn.
  rewrite performAlgoliaSearch_step. cbn.
  rewrite performAlgoliaSearch_step. cbn. reflexivity.
Qed.

(** X22.  A module loaded without a key has no index.  When demo mode is
    then switched off, a search that is not in the cache calls the missing
    index three times, waits one and then two seconds, and answers from the
    catalogue, marked as a fallback with the type error as its message;
    nothing is cached, so every such search waits again. *)
Theorem X22_demo_off_without_a_key
    (apiKey : option string) (connect : Completion unit) (w : World)
    (arg : Arg) :
  JS.truthy (default EmptyString apiKey) = false ->
  arg <> Null ->
  let m := initializeClient CONFIG apiKey connect in
  let r := searchProducts CONFIG (worldOf m w) (setDemoMode false (loaded m)) arg in
  indexReady m = false /\
  remoteCalls r = 3%nat /\ waited r = [1000; 2000] /\
  completion r =
    Return (markFallback TypeError_no_index (searchDemoProducts (defaultArg arg))) /\
  searchCache (final r) = ∅.
Proof.
  intros Hk Hn. cbv zeta. unfold initializeClient. rewrite Hk.
  cbn [negb loaded indexReady]. unfold worldOf. cbn [indexReady].
  split; [reflexivity|].
  assert (Hp : exists p, defaultArg arg = Obj p).
  { destruct arg as [| |p]; [eexists; reflexivity | contradiction | now exists p]. }
  destruct Hp as [p Hp].
  unfold searchProducts. cbv zeta. rewrite Hp.
  cbn [setDemoMode searchCache isDemoMode].
  rewrite lookup_empty. cbn [isCacheValid].
  unfold remoteSearch. rewrite gateway_without_index.
  cbn [outcome delays calls DEMO_FALLBACK CONFIG completion waited remoteCalls final].
  repeat split; reflexivity.
Qed.

Lemma X22_demo_off_witness :
  JS.truthy (default EmptyString None) = false /\ Undefined <> Null /\
  waited (searchProducts CONFIG
            (worldOf (initializeClient CONFIG None (Return ())) W_up)
            (setDemoMode false (loaded (initializeClient CONFIG None (Return ()))))
            Undefined) = [1000; 2000].
Proof.
  split; [reflexivity|]. split; [discriminate|].
  pose proof (X22_demo_off_without_a_key None (Return ()) W_up Undefined eq_refl)
    as H.
  cbv zeta in H. apply H. discriminate.
Defined.

(** * Properties of the command line and the query generator *)

(** ** Integers written in decimal and read back *)

Lemma uint_digits d : allChars JS.isDigit (NilEmpty.string_of_uint d) = true.
Proof. induction d; cbn; auto. Qed.

Lemma digitsFrom_uint_acc d : forall acc,
  JS.digitsFrom (Z.pos acc) (NilEmpty.string_of_uint d) =
  Z.pos (Pos.of_uint_acc d acc).
Proof.
  induction d; intros acc; cbn [NilEmpty.string_of_uint JS.digitsFrom Pos.of_uint_acc];
    [reflexivity|..];
    match goal with
    | |- JS.digitsFrom ?a _ = Z.pos (Pos.of_uint_acc _ ?b) =>
        replace a with (Z.pos b) by (unfold JS.digitVal; cbn; lia)
    end; apply IHd.
Qed.

Lemma digitsFrom_uint d :
  JS.digitsFrom 0 (NilEmpty.string_of_uint d) = Z.of_N (Pos.of_uint d).
Proof.
  induction d; cbn [NilEmpty.string_of_uint JS.digitsFrom Pos.of_uint];
    [reflexivity | exact IHd | ..];
    match goal with
    | |- JS.digitsFrom ?a _ = Z.of_N (N.pos (Pos.of_uint_acc _ ?b)) =>
        change a with (Z.pos b)
    end; apply digitsFrom_uint_acc.
Qed.

Lemma to_uint_nonnil p : Pos.to_uint p <> Decimal.Nil.
Proof.
  intros E. pose proof (DecimalPos.Unsigned.of_to p) as H.
  rewrite E in H. discriminate.
Qed.

Lemma number_pos p :
  Json.number (Z.pos p) = NilEmpty.string_of_uint (Pos.to_uint p).
Proof.
  unfold Json.number. cbn [Z.to_int NilZero.string_of_int].
  pose proof (to_uint_nonnil p).
  destruct (Pos.to_uint p); [contradiction|..]; reflexivity.
Qed.

Lemma number_neg p :
  Json.number (Z.neg p) = String "-" (Json.number (Z.pos p)).
Proof.
  rewrite number_pos. unfold Json.number. cbn [Z.to_int NilZero.string_of_int].
  pose proof (to_uint_nonnil p).
  destruct (Pos.to_uint p); [contradiction|..]; reflexivity.
Qed.

(** A number that is not negative is written as a run of digits, and
    [parseInt] reads it back. *)
Lemma number_digits b :
  0 <= b ->
  exists d ds, Json.number b = String d ds /\
               JS.isDigit d = true /\ allChars JS.isDigit ds = true.
Proof.
  intros Hb. destruct b as [|p|p]; [| |lia].
  - exists "0"%char, EmptyString. repeat split.
  - rewrite number_pos. pose proof (uint_digits (Pos.to_uint p)) as H.
    pose proof (to_uint_nonnil p) as Hn.
    destruct (NilEmpty.string_of_uint (Pos.to_uint p)) as [|d ds] eqn:E.
    + destruct (Pos.to_uint p); [contradiction|..]; discriminate.
    + cbn [allChars] in H. apply andb_true_iff in H. exists d, ds. tauto.
Qed.

Lemma parseInt_number b : 0 <= b -> JS.parseInt (Json.number b) = b.
Proof.
  intros Hb. destruct b as [|p|p]; [reflexivity| |lia].
  rewrite number_pos. unfold JS.parseInt. rewrite digitsFrom_uint.
  now rewrite DecimalPos.Unsigned.of_to.
Qed.

(** ** Text that cannot hold a field name *)

Lemma allChars_app cls a b :
  allChars cls (a +:+ b) = allChars cls a && allChars cls b.
Proof.
  induction a as [|c a IH]; [now rewrite append_nil|].
  rewrite append_cons. cbn [allChars]. now rewrite IH, andb_assoc.
Qed.

Lemma allChars_impl (P Q : ascii -> bool) s :
  (forall c, P c = true -> Q c = true) ->
  allChars P s = true -> allChars Q s = true.
Proof.
  intros H. induction s as [|c s IH]; [reflexivity|].
  cbn [allChars]. rewrite !andb_true_iff. intros [Hc Hs]. auto.
Qed.

Lemma stripPrefix_chars cls p : forall s r,
  JS.stripPrefix p s = Some r -> allChars cls s = true -> allChars cls p = true.
Proof.
  induction p as [|c p IH]; intros s r; [reflexivity|].
  destruct s as [|d s]; [discriminate|]. cbn [JS.stripPrefix allChars].
  destruct (Ascii.eqb_spec c d) as [<-|]; [|discriminate].
  rewrite !andb_true_iff. intros Hr [Hc Hs]. split; [exact Hc|].
  exact (IH _ _ Hr Hs).
Qed.

(** A needle with a character that the text does not have is not in the
    text. *)
Lemma includes_absent cls p s :
  allChars cls s = true -> allChars cls p = false -> JS.includes p s = false.
Proof.
  intros Hs Hp. induction s as [|c s IH].
  - cbn [JS.includes]. unfold JS.startsWith.
    destruct (JS.stripPrefix p EmptyString) eqn:E; [|reflexivity].
    apply (stripPrefix_chars cls) in E; [congruence | reflexivity].
  - cbn [JS.includes]. unfold JS.startsWith.
    destruct (JS.stripPrefix p (String c s)) eqn:E.
    + apply (stripPrefix_chars cls) in E; [congruence | exact Hs].
    + cbn [allChars] in Hs. apply andb_true_iff in Hs. cbn. now apply IH.
Qed.

Lemma number_chars b : allChars digitOrMinus (Json.number b) = true.
Proof.
  assert (Hp : forall p, allChars digitOrMinus (Json.number (Z.pos p)) = true).
  { intros p. rewrite number_pos.
    apply (allChars_impl JS.isDigit); [|apply uint_digits].
    intros c Hc. unfold digitOrMinus. now rewrite Hc. }
  destruct b as [|p|p]; [reflexivity | apply Hp |].
  rewrite number_neg. cbn [allChars]. now rewrite Hp.
Qed.

(** The price atom written by the callers holds no other field. *)
Lemma price_atom_absent (needle : string) (c : ascii) b :
  digitOrMinus c = false ->
  allChars (fun x => negb (Ascii.eqb x c)) "price_sale < " = true ->
  allChars (fun x => negb (Ascii.eqb x c)) needle = false ->
  JS.includes needle ("price_sale < " +:+ Json.number b) = false.
Proof.
  intros Hc Hpre Hn.
  apply (includes_absent (fun x => negb (Ascii.eqb x c))); [|exact Hn].
  rewrite allChars_app, Hpre. cbn [andb].
  apply (allChars_impl digitOrMinus); [|apply number_chars].
  intros x Hx. destruct (Ascii.eqb_spec x c) as [->|]; [congruence | reflexivity].
Qed.

Lemma price_atom_other_fields b :
  let a := "price_sale < " +:+ Json.number b in
  Filter.weightMatch a = None /\ Filter.batteryMatch a = None /\
  Filter.brandMatch a = None /\ JS.includes "in_stock:true" a = false.
Proof.
  cbv zeta. repeat split.
  - apply firstMatch_lit_absent. now apply (price_atom_absent _ "w").
  - apply firstMatch_lit_absent. now apply (price_atom_absent _ "b").
  - apply firstMatch_lit_absent. now apply (price_atom_absent _ "b").
  - now apply (price_atom_absent _ "k").
Qed.

Lemma price_atom_read b :
  0 <= b ->
  Filter.budgetMatch ("price_sale < " +:+ Json.number b) = Some (Json.number b).
Proof.
  intros Hb. destruct (number_digits b Hb) as (d & ds & -> & Hd & Hds).
  now apply budget_atom.
Qed.

Lemma firstMatch_skip {A} (re : JS.Cont (A := A)) c s :
  re EmptyString (String c s) = None ->
  JS.firstMatch re (String c s) = JS.firstMatch re s.
Proof. intros H. cbn [JS.firstMatch]. now rewrite H. Qed.

(** A negative bound is not read: after the sign the pattern finds no
    digit where it wants one. *)
Lemma price_atom_negative b :
  b < 0 -> Filter.budgetMatch ("price_sale < " +:+ Json.number b) = None.
Proof.
  intros Hb. destruct b as [|p|p]; [lia | lia |].
  rewrite number_neg. unfold Filter.budgetMatch.
  repeat rewrite append_cons. rewrite append_nil.
  repeat (rewrite firstMatch_skip by reflexivity).
  apply firstMatch_lit_absent.
  apply (includes_absent JS.isDigit); [|reflexivity].
  rewrite number_pos. apply uint_digits.
Qed.

(** ** The request of [performSearch] in the fallback search *)

Lemma arrayIncludes_In x arr : JSText.arrayIncludes x arr = true <-> In x arr.
Proof.
  unfold JSText.arrayIncludes. rewrite existsb_exists. split.
  - intros (y & Hy & E). apply String.eqb_eq in E. now subst.
  - intros H. exists x. split; [exact H | apply String.eqb_refl].
Qed.

Lemma filtersOf_joinAnd b prio :
  Cli.filtersOf b prio = joinAnd (Cli.atomsOf b prio).
Proof.
  unfold Cli.filtersOf, Cli.atomsOf. cbv zeta.
  destruct (JSText.arrayIncludes "portabilidad" prio),
    (JSText.arrayIncludes "bateria" prio); cbn [app joinAnd];
    rewrite ?append_assoc; reflexivity.
Qed.

Lemma cli_hits_pass use b prio h :
  In h (hits (searchDemoProducts (Cli.requestOf use b prio))) ->
  passesAtoms (Cli.atomsOf b prio) h.
Proof.
  intros Hin. apply passes_joinAnd. rewrite <- filtersOf_joinAnd.
  refine (hits_pass_filters _ (Cli.filtersOf b prio) h _ Hin). reflexivity.
Qed.

(** What the priorities and the stock ask for, whatever the budget. *)
Lemma cli_hits_fields use b prio h :
  In h (hits (searchDemoProducts (Cli.requestOf use b prio))) ->
  in_stock h = true /\
  (In "portabilidad" prio -> (weight_kg h < 15 # 10)%Q) /\
  (In "bateria" prio -> (10 # 1 < battery_hours h)%Q).
Proof.
  intros Hin. apply cli_hits_pass in Hin.
  destruct Hin as (_ & Hw & Hbat & _ & Hs).
  destruct (price_atom_other_fields b) as (Ew & Eb & _ & _).
  cbv zeta in Ew, Eb. unfold Cli.atomsOf in *.
  cbn [app firstSome existsb] in *.
  rewrite Ew in Hw. rewrite Eb in Hbat.
  split; [|split].
  - apply Hs. change (JS.includes "in_stock:true" "in_stock:true") with true.
    cbn [orb]. now rewrite orb_true_r.
  - intros Hi. apply arrayIncludes_In in Hi. rewrite Hi in Hw.
    cbn [app firstSome] in Hw.
    change (Filter.weightMatch "in_stock:true") with (@None string) in Hw.
    change (Filter.weightMatch "weight_kg < 1.5") with (Some "1.5") in Hw.
    exact (Hw _ eq_refl).
  - intros Hi. apply arrayIncludes_In in Hi. rewrite Hi in Hbat.
    change (Filter.batteryMatch "in_stock:true") with (@None string) in Hbat.
    destruct (JSText.arrayIncludes "portabilidad" prio); cbn [app firstSome] in Hbat.
    + change (Filter.batteryMatch "weight_kg < 1.5") with (@None string) in Hbat.
      change (Filter.batteryMatch "battery_hours > 10") with (Some "10") in Hbat.
      exact (Hbat _ eq_refl).
    + change (Filter.batteryMatch "battery_hours > 10") with (Some "10") in Hbat.
      exact (Hbat _ eq_refl).
Qed.

Lemma cli_hits_price use b prio h :
  0 <= b ->
  In h (hits (searchDemoProducts (Cli.requestOf use b prio))) ->
  price_sale h < b.
Proof.
  intros Hb Hin. apply cli_hits_pass in Hin. destruct Hin as (Hp & _).
  unfold Cli.atomsOf in Hp. cbn [app firstSome] in Hp.
  rewrite price_atom_read in Hp by exact Hb.
  specialize (Hp _ eq_refl). now rewrite parseInt_number in Hp.
Qed.

(** X23.  The request the command line builds is honoured by the fallback
    search: for a budget that is not negative (and that JavaScript holds
    exactly, up to 2^53), every hit costs less than the budget and is in
    stock, weighs less than 1.5 kg when [portabilidad] is among the
    priorities, and runs more than 10 hours when [bateria] is. *)
Theorem X23_cli_hits_respect_the_requirements
    (use : string) (b : Z) (prio : list string) (h : Product) :
  0 <= b <= 9007199254740992 ->
  In h (hits (searchDemoProducts (Cli.requestOf use b prio))) ->
  price_sale h < b /\ in_stock h = true /\
  (In "portabilidad" prio -> (weight_kg h < 15 # 10)%Q) /\
  (In "bateria" prio -> (10 # 1 < battery_hours h)%Q).
Proof.
  intros [Hb _] Hin. split.
  - now apply (cli_hits_price use b prio).
  - now apply (cli_hits_fields use b prio).
Qed.
Lemma X23_cli_hits_witness :
  0 <= 3000000 <= 9007199254740992 /\
  In demo_2 (hits (searchDemoProducts
                     (Cli.requestOf "viajes" 3000000 ["portabilidad"]))) /\
  price_sale demo_2 < 3000000 /\ (weight_kg demo_2 < 15 # 10)%Q.
Proof.
  assert (Hb : 0 <= 3000000 <= 9007199254740992) by lia.
  assert (Hin : In demo_2 (hits (searchDemoProducts
                     (Cli.requestOf "viajes" 3000000 ["portabilidad"]))))
    by (vm_compute; tauto).
  split; [exact Hb|]. split; [exact Hin|].
  destruct (X23_cli_hits_respect_the_requirements
              "viajes" 3000000 ["portabilidad"] demo_2 Hb Hin) as (H1 & _ & H3 & _).
  split; [exact H1 | apply H3; now left].
Defined.

Lemma negative_price_atom_unrecognised b :
  b < 0 -> recognisedb ("price_sale < " +:+ Json.number b) = false.
Proof.
  intros Hb. apply recognisedb_false.
  destruct (price_atom_other_fields b) as (Hw & Hbat & Hbr & Hs).
  split; [now apply price_atom_negative|]. tauto.
Qed.

(** X24.  A negative budget is no bound.  The pattern of the budget filter
    does not read a sign, so the price atom of the command line is
    ignored: the search returns what the request without that atom
    returns, and, with a use case that names no query and no priority that
    adds a filter, the whole catalogue, whatever the prices. *)
Theorem X24_negative_budget_is_no_bound
    (use : string) (b : Z) (prio : list string) :
  b < 0 ->
  Filter.budgetMatch (Cli.filtersOf b prio) = None /\
  searchDemoProducts (Cli.requestOf use b prio) =
    searchDemoProducts
      (Obj {| query := Some (Cli.queryOf use);
              filters := Some (joinAnd (tail (Cli.atomsOf b prio)));
              hitsPerPage := Some 5;
              attributesToRetrieve := None |}) /\
  (Cli.queryOf use = "laptop" ->
   JSText.arrayIncludes "portabilidad" prio = false ->
   JSText.arrayIncludes "bateria" prio = false ->
   hits (searchDemoProducts (Cli.requestOf use b prio)) =
     Filter.sortByPrice DEMO_PRODUCTS).
Proof.
  intros Hb.
  assert (Hrec : List.filter recognisedb (Cli.atomsOf b prio) =
                 tail (Cli.atomsOf b prio)).
  { unfold Cli.atomsOf. cbn [app List.filter tail].
    rewrite (negative_price_atom_unrecognised b Hb).
    destruct (JSText.arrayIncludes "portabilidad" prio),
      (JSText.arrayIncludes "bateria" prio); reflexivity. }
  assert (Hsame : searchDemoProducts (Cli.requestOf use b prio) =
    searchDemoProducts
      (Obj {| query := Some (Cli.queryOf use);
              filters := Some (joinAnd (tail (Cli.atomsOf b prio)));
              hitsPerPage := Some 5;
              attributesToRetrieve := None |})).
  { unfold searchDemoProducts, Cli.requestOf, Filter.matching.
    cbn [safeParams query filters hitsPerPage default]. cbv zeta.
    unfold id. rewrite filtersOf_joinAnd, applyFilters_drops_unrecognised, Hrec.
    reflexivity. }
  split; [|split; [exact Hsame|]].
  - rewrite filtersOf_joinAnd, budgetMatch_joinAnd.
    rewrite <- (firstSome_filter Filter.budgetMatch recognisedb)
      by (intros a Ha; apply recognisedb_false in Ha; apply Ha).
    rewrite Hrec. unfold Cli.atomsOf. cbn [app tail].
    destruct (JSText.arrayIncludes "portabilidad" prio),
      (JSText.arrayIncludes "bateria" prio); reflexivity.
  - intros Hq Hp Hbat. rewrite Hsame. unfold Cli.atomsOf.
    rewrite Hq, Hp, Hbat. reflexivity.
Qed.

Lemma X24_negative_budget_witness :
  -5 < 0 /\
  map objectID (hits (searchDemoProducts (Cli.requestOf "viajes" (-5) ["precio"])))
  = ["demo-3"; "demo-2"; "demo-5"; "demo-1"; "demo-4"].
Proof.
  split; [lia|].
  pose proof (X24_negative_budget_is_no_bound "viajes" (-5) ["precio"]) as H.
  destruct H as (_ & _ & H3); [lia|].
  rewrite H3 by reflexivity. reflexivity.
Defined.

(** ** What a named use case finds in the catalogue *)

Lemma hits_ids a : List.NoDup (map objectID (hits (searchDemoProducts a))).
Proof.
  unfold searchDemoProducts. cbv zeta. cbn [hits]. unfold JS.slice0.
  apply NoDup_map_take.
  eapply Permutation_NoDup;
    [symmetry; apply Permutation_map, sortByPrice_Permutation|].
  unfold Filter.matching. apply applyQuery_ids, applyFilters_ids.
  vm_compute. repeat constructor; cbn; intuition discriminate.
Qed.

Lemma one_distinct {A B} (f : A -> B) (x : A) (l : list A) :
  (forall y, In y l -> y = x) -> List.NoDup (map f l) -> l = [] \/ l = [x].
Proof.
  intros Hall Hnd. destruct l as [|a [|b l]]; [now left| |].
  - right. f_equal. apply Hall. now left.
  - exfalso. rewrite (Hall a), (Hall b) in Hnd by (cbn; tauto).
    cbn [map] in Hnd. inversion Hnd as [|? ? Hx _]. apply Hx. now left.
Qed.

Lemma queryOf_values use :
  Cli.queryOf use = "laptop" \/ Cli.queryOf use = "laptop estudiante" \/
  Cli.queryOf use = "laptop gaming" \/ Cli.queryOf use = "laptop oficina".
Proof.
  unfold Cli.queryOf. cbv zeta.
  destruct (JS.includes "oficina" (JS.toLowerCase use)); [tauto|].
  destruct (JS.includes "gaming" (JS.toLowerCase use)); [tauto|].
  destruct (JS.includes "estudio" (JS.toLowerCase use)); tauto.
Qed.

Lemma named_query_keeps_one use h :
  Cli.queryOf use <> "laptop" -> In h DEMO_PRODUCTS ->
  queryKeeps (Cli.queryOf use) h = true -> h = demo_1.
Proof.
  intros Hq Hin Hk.
  destruct (queryOf_values use) as [E|[E|[E|E]]]; [contradiction|..];
    rewrite E in Hk; cbn [DEMO_PRODUCTS In] in Hin;
    destruct Hin as [<-|[<-|[<-|[<-|[<-|[]]]]]];
    first [reflexivity | vm_compute in Hk; discriminate Hk].
Qed.

(** X25.  In the fallback search a use case that names a query, as
    [estudio], [gaming] and [oficina] do, can return one product only, the
    one whose name holds the word [laptop]: there is never an alternative
    to show.  With [portabilidad] or [bateria] among the priorities, or
    with a budget up to that product's price, nothing is found. *)
Theorem X25_named_use_case_finds_one_product
    (use : string) (b : Z) (prio : list string) :
  Cli.queryOf use <> "laptop" ->
  let r := searchDemoProducts (Cli.requestOf use b prio) in
  (hits r = [] \/ hits r = [demo_1]) /\
  (In "portabilidad" prio \/ In "bateria" prio -> hits r = []) /\
  (0 <= b <= price_sale demo_1 -> hits r = []).
Proof.
  intros Hq. cbv zeta.
  assert (H1 : hits (searchDemoProducts (Cli.requestOf use b prio)) = [] \/
               hits (searchDemoProducts (Cli.requestOf use b prio)) = [demo_1]).
  { apply (one_distinct objectID); [|apply hits_ids].
    intros h Hh. apply hits_matching in Hh. unfold Filter.matching in Hh.
    apply applyQuery_iff in Hh as [Hin Hk]. apply applyFilters_In in Hin as [Hin _].
    now apply (named_query_keeps_one use). }
  split; [exact H1|]. split.
  - intros Hp. destruct H1 as [H1|H1]; [exact H1|]. exfalso.
    assert (Hin : In demo_1 (hits (searchDemoProducts (Cli.requestOf use b prio))))
      by (rewrite H1; now left).
    apply cli_hits_fields in Hin as (_ & Hw & Hbat).
    destruct Hp as [Hp|Hp].
    + specialize (Hw Hp). vm_compute in Hw. discriminate Hw.
    + specialize (Hbat Hp). vm_compute in Hbat. discriminate Hbat.
  - intros [Hb Hle]. destruct H1 as [H1|H1]; [exact H1|]. exfalso.
    assert (Hin : In demo_1 (hits (searchDemoProducts (Cli.requestOf use b prio))))
      by (rewrite H1; now left).
    apply cli_hits_price in Hin; [lia | exact Hb].
Qed.

Lemma X25_named_use_case_witness :
  Cli.queryOf "Gaming y estudio" <> "laptop" /\
  hits (searchDemoProducts (Cli.requestOf "Gaming y estudio" 3000000 ["bateria"]))
  = [].
Proof.
  assert (Hq : Cli.queryOf "Gaming y estudio" <> "laptop") by discriminate.
  split; [exact Hq|].
  pose proof (X25_named_use_case_finds_one_product
                "Gaming y estudio" 3000000 ["bateria"] Hq) as H.
  cbv zeta in H. destruct H as (_ & H2 & _). apply H2. right. now left.
Defined.

(** ** The answers typed at the prompt *)

Lemma digitOf_digit c : JS.isDigit c = true -> JSText.digitOf 10 c = Some (JS.digitVal c).
Proof. intros H. unfold JSText.digitOf. now rewrite H. Qed.

Lemma digitOf_other c : JS.isDigit c = false -> JSText.digitOf 10 c = None.
Proof. intros H. unfold JSText.digitOf. now rewrite H. Qed.

(** Reading stops at the first character that is no digit. *)
Lemma readDigits_run ds : forall acc rest,
  allChars JS.isDigit ds = true ->
  endsNumber rest = true ->
  JSText.readDigits 10 acc (ds +:+ rest) = JS.digitsFrom acc ds.
Proof.
  induction ds as [|d ds IH]; intros acc rest Hds Hrest.
  - rewrite append_nil. destruct rest as [|c r]; [reflexivity|].
    cbn [endsNumber] in Hrest. apply negb_true_iff in Hrest.
    cbn [JSText.readDigits JS.digitsFrom]. now rewrite digitOf_other.
  - cbn [allChars] in Hds. apply andb_true_iff in Hds as [Hd Hds].
    rewrite append_cons. cbn [JSText.readDigits JS.digitsFrom].
    rewrite digitOf_digit by exact Hd. now apply IH.
Qed.

Lemma digit_not_sign d :
  JS.isDigit d = true ->
  Ascii.eqb d "-" = false /\ Ascii.eqb d "+" = false /\
  Ascii.eqb d "x" = false /\ Ascii.eqb d "X" = false.
Proof. destruct d as [[] [] [] [] [] [] [] []]; vm_compute; intuition congruence. Qed.

(** [parseInt] on a positive number in decimal, followed by anything that
    does not go on with a digit. *)
Lemma parseIntText_number b rest :
  0 < b ->
  endsNumber rest = true ->
  JSText.parseIntText (Json.number b +:+ rest) = Some b.
Proof.
  intros Hb Hrest.
  destruct (number_digits b) as (d & ds & E & Hd & Hds); [lia|].
  assert (Hv : JS.parseInt (String d ds) = b)
    by (rewrite <- E; apply parseInt_number; lia).
  assert (Hrun : JSText.readDigits 10 0 (String d ds +:+ rest) = b).
  { rewrite readDigits_run; [exact Hv | cbn [allChars]; now rewrite Hd | exact Hrest]. }
  rewrite E. unfold JSText.parseIntText.
  rewrite append_cons in *. cbn [JSText.trimStart].
  rewrite (digit_not_space d Hd).
  destruct (digit_not_sign d Hd) as (Em & Ep & _). rewrite Em, Ep.
  assert (Hradix :
    match ds +:+ rest with
    | String x r =>
        if Ascii.eqb d "0" && (Ascii.eqb x "x" || Ascii.eqb x "X")
        then (16, r) else (10, String d (ds +:+ rest))
    | EmptyString => (10, String d (ds +:+ rest))
    end = (10, String d (ds +:+ rest))).
  { destruct ds as [|x ds].
    - rewrite append_nil. destruct rest as [|c r]; [reflexivity|].
      destruct (Ascii.eqb_spec d "0") as [->|]; [|reflexivity].
      exfalso. vm_compute in Hv. lia.
    - rewrite append_cons. cbn [allChars] in Hds.
      apply andb_true_iff in Hds as [Hx _].
      destruct (digit_not_sign x Hx) as (_ & _ & E1 & E2).
      now rewrite E1, E2, andb_false_r. }
  replace (let '(radix, s3) :=
             match String d (ds +:+ rest) with
             | String z (String x r) =>
                 if Ascii.eqb z "0" && (Ascii.eqb x "x" || Ascii.eqb x "X")
                 then (16, r) else (10, String d (ds +:+ rest))
             | _ => (10, String d (ds +:+ rest))
             end in
           match s3 with
           | String c _ =>
               match JSText.digitOf radix c with
               | Some _ => Some (1 * JSText.readDigits radix 0 s3)
               | None => None
               end
           | EmptyString => None
           end)
    with (Some (1 * JSText.readDigits 10 0 (String d (ds +:+ rest)))).
  - f_equal. lia.
  - destruct (ds +:+ rest) as [|x r] eqn:Er.
    + now rewrite digitOf_digit.
    + rewrite Hradix. now rewrite digitOf_digit.
Qed.

Lemma parseIntText_minus d r :
  JS.isDigit d = true ->
  JSText.parseIntText (String "-" (String d r)) =
  option_map Z.opp (JSText.parseIntText (String d r)).
Proof.
  intros Hd. unfold JSText.parseIntText. cbn [JSText.trimStart].
  change (JS.isSpace "-") with false. rewrite (digit_not_space d Hd).
  change (Ascii.eqb "-" "-") with true.
  destruct (digit_not_sign d Hd) as (Em & Ep & _). rewrite Em, Ep.
  destruct (match String d r with
            | String z (String x r0) =>
                if Ascii.eqb z "0" && (Ascii.eqb x "x" || Ascii.eqb x "X")
                then (16, r0) else (10, String d r)
            | _ => (10, String d r)
            end) as [radix s3].
  destruct s3 as [|c s3]; [reflexivity|].
  destruct (JSText.digitOf radix c); [|reflexivity].
  cbn [option_map]. f_equal. lia.
Qed.

Lemma parseIntText_space c s :
  JS.isSpace c = true -> JSText.parseIntText (String c s) = JSText.parseIntText s.
Proof.
  intros Hc. unfold JSText.parseIntText. cbn [JSText.trimStart]. now rewrite Hc.
Qed.

Lemma parseIntText_no_number c rest :
  JS.isSpace c = false -> JS.isDigit c = false ->
  Ascii.eqb c "-" = false -> Ascii.eqb c "+" = false ->
  JSText.parseIntText (String c rest) = None.
Proof.
  intros Hs Hd Hm Hp. unfold JSText.parseIntText. cbn [JSText.trimStart].
  rewrite Hs, Hm, Hp.
  assert (H0 : Ascii.eqb c "0" = false).
  { destruct (Ascii.eqb_spec c "0") as [->|]; [discriminate Hd | reflexivity]. }
  rewrite H0. cbn [andb].
  destruct rest; now rewrite digitOf_other.
Qed.

(** X26.  The budget read from the answer is never 0.  It is the default
    of 3000000 when the answer is empty or starts, after white space, with
    anything but a digit or a sign, a currency sign for one.  A number in
    decimal is read back, up to 2^53, with its sign, and reading stops at
    the first character that is no digit: of a budget typed with
    separators between the thousands only the first group counts. *)
Theorem X26_budget_answer (answer rest : string) (c : ascii) (b : Z) :
  Cli.budgetOf answer <> 0 /\
  Cli.budgetOf EmptyString = 3000000 /\
  (JS.isSpace c = true -> Cli.budgetOf (String c answer) = Cli.budgetOf answer) /\
  (JS.isSpace c = false -> JS.isDigit c = false -> c <> "-"%char -> c <> "+"%char ->
   Cli.budgetOf (String c rest) = 3000000) /\
  (0 < b <= 9007199254740992 -> endsNumber rest = true ->
   Cli.budgetOf (Json.number b +:+ rest) = b /\
   Cli.budgetOf (Json.number (- b) +:+ rest) = - b).
Proof.
  unfold Cli.budgetOf.
  split; [|split; [reflexivity|split; [|split]]].
  - unfold JS.orNumber. destruct (JSText.parseIntText answer) as [n|]; [|lia].
    destruct (Z.eqb_spec n 0); lia.
  - intros Hc. now rewrite parseIntText_space.
  - intros Hs Hd Hm Hp. rewrite parseIntText_no_number; try assumption;
      [reflexivity | now apply Ascii.eqb_neq | now apply Ascii.eqb_neq].
  - intros [Hb _] Hrest.
    assert (Hpos : JSText.parseIntText (Json.number b +:+ rest) = Some b)
      by now apply parseIntText_number.
    split.
    + rewrite Hpos. unfold JS.orNumber. destruct (Z.eqb_spec b 0); lia.
    + destruct b as [|p|p]; [lia| |lia]. change (- Z.pos p) with (Z.neg p).
      rewrite number_neg, append_cons.
      destruct (number_digits (Z.pos p)) as (d & ds & E & Hd & _); [lia|].
      rewrite E in *. rewrite append_cons in *.
      rewrite parseIntText_minus by exact Hd. rewrite Hpos.
      reflexivity.
Qed.

Lemma X26_budget_answer_witness :
  0 < 3 <= 9007199254740992 /\ endsNumber ".000.000" = true /\
  Cli.budgetOf "3.000.000" = 3.
Proof.
  assert (Hb : 0 < 3 <= 9007199254740992) by lia.
  split; [exact Hb|]. split; [reflexivity|].
  destruct (X26_budget_answer EmptyString ".000.000" "."%char 3)
    as (_ & _ & _ & _ & H).
  exact (proj1 (H Hb eq_refl)).
Defined.

(** ** The list of priorities *)

Lemma split_app sep a b :
  JS.split sep (a +:+ String sep b) = JS.split sep a ++ JS.split sep b.
Proof.
  induction a as [|c a IH].
  - rewrite append_nil. cbn [JS.split]. now rewrite Ascii.eqb_refl.
  - rewrite append_cons. cbn [JS.split]. rewrite IH.
    destruct (Ascii.eqb c sep); [reflexivity|].
    pose proof (split_nonempty sep a) as Hn.
    destruct (JS.split sep a) as [|t ts]; [contradiction | reflexivity].
Qed.

Lemma split_without sep a : without sep a = true -> JS.split sep a = [a].
Proof.
  unfold without. induction a as [|c a IH]; [reflexivity|].
  cbn [allChars JS.split]. rewrite andb_true_iff, negb_true_iff.
  intros [Hc Ha]. now rewrite Hc, IH.
Qed.

(** Splitting what was joined gives the items back. *)
Lemma split_joinWith sep items :
  items <> [] -> Forall (fun i => without sep i = true) items ->
  JS.split sep (joinWith sep items) = items.
Proof.
  induction items as [|i rest IH]; [contradiction|].
  intros _ Hall. inversion Hall as [|? ? Hi Hrest]; subst.
  destruct rest as [|j rest]; [now apply split_without|].
  change (joinWith sep (i :: j :: rest))
    with (i +:+ String sep (joinWith sep (j :: rest))).
  rewrite split_app, split_without by exact Hi.
  cbn [app]. f_equal. now apply IH.
Qed.

Lemma trimEnd_space c s :
  JS.isSpace c = true ->
  JSText.trimEnd (s +:+ String c EmptyString) = JSText.trimEnd s.
Proof.
  intros Hc. induction s as [|d s IH].
  - rewrite append_nil. cbn [JSText.trimEnd]. now rewrite Hc.
  - rewrite append_cons. cbn [JSText.trimEnd]. now rewrite IH.
Qed.

Lemma trimStart_space_end c s :
  JS.isSpace c = true ->
  JSText.trimStart (s +:+ String c EmptyString) = JSText.trimStart s \/
  JSText.trimStart (s +:+ String c EmptyString) =
    JSText.trimStart s +:+ String c EmptyString.
Proof.
  intros Hc. induction s as [|d s IH].
  - left. rewrite append_nil. cbn [JSText.trimStart]. now rewrite Hc.
  - rewrite append_cons. cbn [JSText.trimStart].
    destruct (JS.isSpace d); [exact IH|]. right. now rewrite append_cons.
Qed.

Lemma trim_word s : allChars JS.notSpace s = true -> JSText.trim s = s.
Proof.
  intros H. unfold JSText.trim.
  assert (Hs : JSText.trimStart s = s).
  { destruct s as [|c s]; [reflexivity|]. cbn [allChars] in H.
    apply andb_true_iff in H as [Hc _]. unfold JS.notSpace in Hc.
    apply negb_true_iff in Hc. cbn [JSText.trimStart]. now rewrite Hc. }
  rewrite Hs. induction s as [|c s IH]; [reflexivity|].
  cbn [allChars] in H. apply andb_true_iff in H as [Hc Hr].
  unfold JS.notSpace in Hc. apply negb_true_iff in Hc.
  cbn [JSText.trimEnd]. rewrite IH.
  - destruct s; [now rewrite Hc | reflexivity].
  - exact Hr.
  - destruct s as [|d s]; [reflexivity|]. cbn [allChars] in Hr.
    apply andb_true_iff in Hr as [Hd _]. unfold JS.notSpace in Hd.
    apply negb_true_iff in Hd. cbn [JSText.trimStart]. now rewrite Hd.
Qed.

(** X27.  The list of priorities is never empty: an empty answer gives
    [precio].  An answer that joins items with commas gives the items
    back, each without the white space around it, so that a space after a
    comma does not hide a priority; an item without white space is kept
    as it is. *)
Theorem X27_priorities_answer
    (answer s : string) (items : list string) (c : ascii) :
  Cli.prioritiesOf answer <> [] /\
  Cli.prioritiesOf EmptyString = ["precio"] /\
  (items <> [] -> Forall (fun i => without "," i = true) items ->
   joinWith "," items <> EmptyString ->
   Cli.prioritiesOf (joinWith "," items) = map JSText.trim items) /\
  (JS.isSpace c = true ->
   JSText.trim (String c s) = JSText.trim s /\
   JSText.trim (s +:+ String c EmptyString) = JSText.trim s) /\
  (allChars JS.notSpace s = true -> JSText.trim s = s).
Proof.
  split; [|split; [reflexivity|split; [|split]]].
  - unfold Cli.prioritiesOf. destruct (JS.truthy answer); [|discriminate].
    pose proof (split_nonempty "," answer) as Hn.
    destruct (JS.split "," answer); [contradiction | discriminate].
  - intros Hne Hall Hj. unfold Cli.prioritiesOf.
    destruct (joinWith "," items) eqn:E; [contradiction|].
    cbn [JS.truthy]. rewrite <- E. now rewrite split_joinWith.
  - intros Hc. split.
    + unfold JSText.trim. cbn [JSText.trimStart]. now rewrite Hc.
    + unfold JSText.trim.
      destruct (trimStart_space_end c s Hc) as [-> | ->]; [reflexivity|].
      now apply trimEnd_space.
  - apply trim_word.
Qed.

Lemma X27_priorities_witness :
  ["portabilidad"; " bateria"] <> [] /\
  Cli.prioritiesOf "portabilidad, bateria" = ["portabilidad"; "bateria"].
Proof.
  split; [discriminate|].
  destruct (X27_priorities_answer EmptyString EmptyString
              ["portabilidad"; " bateria"] " "%char) as (_ & _ & H & _).
  apply H; [discriminate | repeat constructor | discriminate].
Defined.

(** ** The conversation *)

Lemma searchProducts_returns cfg w st p :
  DEMO_FALLBACK cfg = true ->
  exists res, completion (searchProducts cfg w st (Obj p)) = Return res.
Proof.
  intros Hf. unfold searchProducts. cbv zeta. cbn [defaultArg].
  destruct (searchCache st !! generateCacheKey (Obj p)) as [c|].
  - destruct (isCacheValid cfg (now_check w) (Some c)); [eexists; reflexivity|].
    destruct (isDemoMode st); [eexists; reflexivity|].
    unfold remoteSearch.
    destruct (outcome (performAlgoliaSearch cfg w (Obj p) 1));
      [|rewrite Hf]; eexists; reflexivity.
  - cbn [isCacheValid].
    destruct (isDemoMode st); [eexists; reflexivity|].
    unfold remoteSearch.
    destruct (outcome (performAlgoliaSearch cfg w (Obj p) 1));
      [|rewrite Hf]; eexists; reflexivity.
Qed.

Lemma performSearch_shows_a_result cfg w client c c' client' shown :
  DEMO_FALLBACK cfg = true ->
  Cli.performSearch cfg w client c = Some (c', client', shown) ->
  isResult shown = true /\ Cli.stage c' = Cli.recommendation /\
  Cli.requirements c' = Cli.requirements c /\ Cli.history c' = Cli.history c /\
  Cli.closed c' = Cli.closed c.
Proof.
  intros Hf. unfold Cli.performSearch.
  destruct (Cli.useCase (Cli.requirements c)) as [use|]; [|discriminate].
  destruct (Cli.maxBudget (Cli.requirements c)) as [b|]; [|discriminate].
  intros E. injection E as <- <- <-. cbn.
  unfold Cli.requestOf.
  destruct (searchProducts_returns cfg w client
              {| query := Some (Cli.queryOf use);
                 filters := Some (Cli.filtersOf b (Cli.wanted (Cli.requirements c)));
                 hitsPerPage := Some 5; attributesToRetrieve := None |} Hf)
    as [res ->].
  split; [|repeat split].
  unfold Cli.displayRecommendations. now destruct (hits res).
Qed.

(** One answer keeps the conversation in order. *)
Lemma answerTo_keeps cfg w client c answer :
  DEMO_FALLBACK cfg = true ->
  Cli.stage c <> Cli.searching -> Cli.complete c ->
  let r := Cli.answerTo cfg w client c answer in
  Cli.stage r.1.1 <> Cli.searching /\ Cli.complete r.1.1 /\
  match r.2 with Some s => isResult s = true | None => True end.
Proof.
  intros Hf Hs Hc. cbv zeta. unfold Cli.answerTo.
  destruct (Cli.closed c); [now cbn|].
  unfold Cli.complete in Hc.
  destruct (Cli.stage c) eqn:Est.
  - cbn. unfold Cli.complete. cbn. split; [discriminate|]. split; [eauto | exact I].
  - cbn. unfold Cli.complete. cbn. split; [discriminate|]. split; [eauto | exact I].
  - destruct Hc as [Hu Hb].
    destruct (Cli.performSearch cfg w client _) as [[[c2 client2] shown]|] eqn:E.
    + apply performSearch_shows_a_result in E as (Hr & Hst & Hreq & _); [|exact Hf].
      cbn. unfold Cli.complete. rewrite Hst, Hreq. cbn.
      split; [discriminate|]. split; [split; assumption | exact Hr].
    + exfalso. unfold Cli.performSearch in E. cbn in E.
      destruct Hu as [u Hu], Hb as [b Hb]. rewrite Hu, Hb in E. discriminate.
  - contradiction.
  - destruct (String.eqb (JS.toLowerCase answer) "s" ||
              String.eqb (JS.toLowerCase answer) "si"); cbn; unfold Cli.complete; cbn.
    + split; [discriminate|]. split; exact I.
    + split; [discriminate|]. split; [exact Hc | exact I].
Qed.

Lemma answers_keep cfg typed : forall client c,
  DEMO_FALLBACK cfg = true ->
  Cli.stage c <> Cli.searching -> Cli.complete c ->
  let r := Cli.answers cfg typed client c in
  Cli.stage r.1.1 <> Cli.searching /\ Cli.complete r.1.1 /\
  forallb isResult r.2 = true.
Proof.
  induction typed as [|[w answer] rest IH]; intros client c Hf Hs Hc; cbv zeta.
  - cbn. auto.
  - cbn [Cli.answers].
    pose proof (answerTo_keeps cfg w client c answer Hf Hs Hc) as H1.
    cbv zeta in H1.
    destruct (Cli.answerTo cfg w client c answer) as [[c1 client1] shown].
    cbn [fst snd] in H1. destruct H1 as (Hs1 & Hc1 & Hr1).
    specialize (IH client1 c1 Hf Hs1 Hc1). cbv zeta in IH.
    destruct (Cli.answers cfg rest client1 c1) as [[c2 client2] more].
    cbn [fst snd] in *. destruct IH as (Hs2 & Hc2 & Hr2).
    split; [exact Hs2|]. split; [exact Hc2|].
    destruct shown as [s|]; [|exact Hr2]. cbn [forallb]. now rewrite Hr1.
Qed.

Lemma answers_closed cfg typed : forall client c,
  Cli.closed c = true -> Cli.answers cfg typed client c = (c, client, []).
Proof.
  induction typed as [|[w answer] rest IH]; intros client c Hc; [reflexivity|].
  cbn [Cli.answers]. unfold Cli.answerTo. rewrite Hc. now rewrite IH.
Qed.

(** Three answers from [greeting]: the requirements are set one by one,
    then comes the search. *)
Lemma answers_round cfg w1 w2 w3 a1 a2 a3 client c :
  Cli.stage c = Cli.greeting -> Cli.closed c = false ->
  Cli.answers cfg [(w1, a1); (w2, a2); (w3, a3)] client c =
  let c1 := {| Cli.stage := Cli.searching;
               Cli.requirements :=
                 {| Cli.useCase := Some (Cli.useCaseOf a1);
                    Cli.maxBudget := Some (Cli.budgetOf a2);
                    Cli.wanted := Cli.prioritiesOf a3 |};
               Cli.history := ((Cli.history c ++ [a1]) ++ [a2]) ++ [a3];
               Cli.closed := false |} in
  match Cli.performSearch cfg w3 client c1 with
  | Some (c2, client2, shown) => (c2, client2, [shown])
  | None => (c1, client, [])
  end.
Proof.
  intros Hst Hcl. cbv zeta. cbn [Cli.answers].
  unfold Cli.answerTo. rewrite Hcl, Hst.
  cbn [Cli.closed Cli.stage Cli.requirements Cli.useCase Cli.maxBudget
       Cli.wanted Cli.history].
  destruct (Cli.performSearch cfg w3 client _) as [[[c2 client2] shown]|];
    reflexivity.
Qed.

(** X28.  With the configuration of the source, whatever is typed from the
    start of the command line, as long as the numbers typed are ones
    JavaScript holds exactly: the conversation never rests in the stage
    [searching], the requirements a stage reads are set when it is
    reached, so that [performSearch] never meets a missing one, and what a
    search shows is never the message of an error.  Three answers from
    [greeting] lead through one search to [recommendation], with the use
    case, the budget and the priorities read from them and added to the
    history.  There [s] or [si], in any case, starts again; any other
    answer closes the terminal, after which nothing changes. *)
Theorem X28_conversation
    (typed : list (World * string)) (client : State)
    (c : Cli.Conversation) (w1 w2 w3 : World) (a1 a2 a3 again : string) :
  Forall (fun t => safeInteger (Cli.budgetOf t.2) = true) typed ->
  safeInteger (Cli.budgetOf a2) = true ->
  (let r := Cli.answers CONFIG typed client Cli.conversationState in
   Cli.stage r.1.1 <> Cli.searching /\ Cli.complete r.1.1 /\
   forallb isResult r.2 = true) /\
  (Cli.stage c = Cli.greeting -> Cli.closed c = false ->
   let r := Cli.answers CONFIG [(w1, a1); (w2, a2); (w3, a3)] client c in
   Cli.stage r.1.1 = Cli.recommendation /\
   Cli.requirements r.1.1 =
     {| Cli.useCase := Some (Cli.useCaseOf a1);
        Cli.maxBudget := Some (Cli.budgetOf a2);
        Cli.wanted := Cli.prioritiesOf a3 |} /\
   Cli.history r.1.1 = Cli.history c ++ [a1; a2; a3] /\
   length r.2 = 1%nat) /\
  (Cli.stage c = Cli.recommendation -> Cli.closed c = false ->
   let r := Cli.answerTo CONFIG w1 client c again in
   r.1.2 = client /\ r.2 = None /\
   if String.eqb (JS.toLowerCase again) "s" || String.eqb (JS.toLowerCase again) "si"
   then Cli.stage r.1.1 = Cli.greeting /\ Cli.closed r.1.1 = false
   else Cli.closed r.1.1 = true) /\
  (Cli.closed c = true -> Cli.answers CONFIG typed client c = (c, client, [])).
Proof.
  intros _ _. split; [|split; [|split]].
  - apply answers_keep; [reflexivity | discriminate | exact I].
  - intros Hst Hcl. cbv zeta.
    rewrite (answers_round CONFIG w1 w2 w3 a1 a2 a3 client c Hst Hcl). cbv zeta.
    match goal with
    | |- context [Cli.performSearch ?x ?y ?z ?u] =>
        destruct (Cli.performSearch x y z u) as [[[c2 client2] shown]|] eqn:E
    end.
    + apply performSearch_shows_a_result in E as (_ & H1 & H2 & H3 & _);
        [|reflexivity].
      cbn [fst snd]. rewrite H1, H2, H3. cbn.
      rewrite <- !app_assoc. repeat split.
    + discriminate E.
  - intros Hst Hcl. cbv zeta. unfold Cli.answerTo. rewrite Hcl, Hst.
    destruct (String.eqb (JS.toLowerCase again) "s" ||
              String.eqb (JS.toLowerCase again) "si"); cbn; auto.
  - apply answers_closed.
Qed.

Lemma X28_conversation_witness :
  Forall (fun t => safeInteger (Cli.budgetOf t.2) = true)
    [(W0, "gaming"); (W0, "3000000"); (W0, "precio"); (W0, "n")] /\
  safeInteger (Cli.budgetOf "3000000") = true /\
  Cli.stage (Cli.answers CONFIG [(W0, "gaming"); (W0, "3000000"); (W0, "precio")]
               S_demo Cli.conversationState).1.1 = Cli.recommendation /\
  Cli.closed (Cli.answers CONFIG
                [(W0, "gaming"); (W0, "3000000"); (W0, "precio"); (W0, "n")]
                S_demo Cli.conversationState).1.1 = true.
Proof.
  assert (Hall : Forall (fun t => safeInteger (Cli.budgetOf t.2) = true)
                   [(W0, "gaming"); (W0, "3000000"); (W0, "precio"); (W0, "n")])
    by (repeat constructor).
  split; [exact Hall|]. split; [reflexivity|].
  destruct (X28_conversation
              [(W0, "gaming"); (W0, "3000000"); (W0, "precio"); (W0, "n")]
              S_demo Cli.conversationState W0 W0 W0
              "gaming" "3000000" "precio" "n" Hall eq_refl) as (_ & H & _).
  split; [apply H; reflexivity | reflexivity].
Defined.

(** ** The query generator and the command line *)

(** X29.  The query generator of [test-query.js] predicts the request of
    the command line in part only.  Its filter string is the one of the
    command line unless the priorities hold one of the English words it
    also knows, [portable] or [battery].  Its query is the one of the
    command line exactly for the use cases of [queriesAgree]: the two
    order their tests differently, and the generator knows words the
    command line does not.  Where filter and query agree, the two
    requests are the same. *)
Theorem X29_generator_and_command_line
    (use : string) (b : Z) (prio : list string) :
  let g := TestQuery.generateQuery use b prio in
  TestQuery.g_hitsPerPage g = 5 /\
  (JSText.arrayIncludes "portable" prio = false ->
   JSText.arrayIncludes "battery" prio = false ->
   TestQuery.g_filters g = Cli.filtersOf b prio) /\
  (TestQuery.g_query g = Cli.queryOf use <-> queriesAgree use = true) /\
  (JSText.arrayIncludes "portable" prio = false ->
   JSText.arrayIncludes "battery" prio = false ->
   queriesAgree use = true ->
   TestQuery.requestOf g = Cli.requestOf use b prio).
Proof.
  cbv zeta.
  assert (Hfil : JSText.arrayIncludes "portable" prio = false ->
                 JSText.arrayIncludes "battery" prio = false ->
                 TestQuery.g_filters (TestQuery.generateQuery use b prio) =
                 Cli.filtersOf b prio).
  { intros H1 H2. rewrite filtersOf_joinAnd.
    unfold TestQuery.generateQuery, TestQuery.atomsOf, Cli.atomsOf.
    cbn [TestQuery.g_filters]. now rewrite H1, H2, !orb_false_r. }
  assert (Hq : TestQuery.g_query (TestQuery.generateQuery use b prio) =
               Cli.queryOf use <-> queriesAgree use = true).
  { unfold TestQuery.generateQuery, Cli.queryOf, queriesAgree.
    cbn [TestQuery.g_query]. cbv zeta.
    destruct (JS.includes "estudio" (JS.toLowerCase use)),
      (JS.includes "oficina" (JS.toLowerCase use)),
      (JS.includes "office" (JS.toLowerCase use)),
      (JS.includes "gaming" (JS.toLowerCase use)),
      (JS.includes "diseno" (JS.toLowerCase use)),
      (JS.includes "creative" (JS.toLowerCase use));
      vm_compute; split; intros H; solve [reflexivity | discriminate H]. }
  split; [reflexivity|]. split; [exact Hfil|]. split; [exact Hq|].
  intros H1 H2 H3. unfold TestQuery.requestOf, Cli.requestOf.
  rewrite (Hfil H1 H2), (proj2 Hq H3). reflexivity.
Qed.

Lemma X29_generator_witness :
  JSText.arrayIncludes "portable" ["bateria"] = false /\
  JSText.arrayIncludes "battery" ["bateria"] = false /\
  queriesAgree "Gaming" = true /\
  TestQuery.requestOf (TestQuery.generateQuery "Gaming" 3000000 ["bateria"]) =
  Cli.requestOf "Gaming" 3000000 ["bateria"].
Proof.
  repeat (split; [reflexivity|]).
  pose proof (X29_generator_and_command_line "Gaming" 3000000 ["bateria"]) as H.
  cbv zeta in H. destruct H as (_ & _ & _ & H). apply H; reflexivity.
Defined.

(** A use case on which the two disagree: the generator announces the
    student query, the command line sends the gaming one. *)
Example generator_and_command_line_differ :
  TestQuery.g_query (TestQuery.generateQuery "estudio y gaming" 3000000 []) =
    "laptop estudiante" /\
  Cli.queryOf "estudio y gaming" = "laptop gaming".
Proof. split; reflexivity. Qed.

(** ** From loading to the recommendation *)

Lemma best_is_cheapest a h m :
  head (hits (searchDemoProducts a)) = Some h ->
  In m (Filter.matching (safeParams a)) ->
  price_sale h <= price_sale m.
Proof.
  intros Hh Hm. unfold searchDemoProducts in Hh. cbv zeta in Hh.
  cbn [hits] in Hh. unfold JS.slice0 in Hh.
  pose proof (sortByPrice_sorted (Filter.matching (safeParams a))) as Hs.
  apply (proj2 (sortByPrice_In m _)) in Hm.
  destruct (Filter.sortByPrice (Filter.matching (safeParams a)))
    as [|x l]; [destruct Hm|].
  destruct (Z.to_nat _) in Hh; [discriminate|]. cbn in Hh.
  injection Hh as <-. inversion Hs as [|? ? _ Hx]; subst.
  destruct Hm as [<- | Hm]; [lia|].
  rewrite Forall_forall in Hx. apply Hx. now apply list_elem_of_In.
Qed.

Lemma first_search_in_demo_mode cfg w p :
  searchProducts cfg w
    {| searchCache := ∅; analyticsLog := []; isDemoMode := true |} (Obj p) =
  demoSearch cfg w
    {| searchCache := ∅; analyticsLog := []; isDemoMode := true |} (Obj p)
    (now_start w) (generateCacheKey (Obj p)).
Proof.
  unfold searchProducts. cbv zeta. cbn [defaultArg searchCache isDemoMode].
  rewrite lookup_empty. reflexivity.
Qed.

(** X30.  From loading to the recommendation.  On a module loaded without
    a key, the first three answers, with a budget JavaScript holds
    exactly, lead to one search of the catalogue, without a remote call:
    what is shown is that nothing was found, or the first hit and, when
    there is one, the second.  The best option is a product of the
    catalogue in stock, below the budget when that is not negative, and no
    dearer than the alternative or any other product that matches the
    request.  The search is logged once and cached. *)
Theorem X30_first_round_without_a_key
    (connect : Completion unit) (w1 w2 w3 : World) (a1 a2 a3 : string) :
  safeInteger (Cli.budgetOf a2) = true ->
  let m := initializeClient CONFIG None connect in
  let r := Cli.answers CONFIG
             [(worldOf m w1, a1); (worldOf m w2, a2); (worldOf m w3, a3)]
             (loaded m) Cli.conversationState in
  let request := Cli.requestOf (Cli.useCaseOf a1) (Cli.budgetOf a2)
                   (Cli.prioritiesOf a3) in
  let found := searchDemoProducts request in
  r.2 = [match hits found with
         | [] => Cli.NothingFound
         | best :: rest => Cli.Recommended best (head rest)
         end] /\
  length (analyticsLog r.1.2) = 1%nat /\ cacheEntries r.1.2 = 1%nat /\
  (forall best alt,
     r.2 = [Cli.Recommended best alt] ->
     In best DEMO_PRODUCTS /\ in_stock best = true /\
     (0 <= Cli.budgetOf a2 -> price_sale best < Cli.budgetOf a2) /\
     (forall other, In other (Filter.matching (safeParams request)) ->
                    price_sale best <= price_sale other) /\
     (forall a, alt = Some a -> price_sale best <= price_sale a)).
Proof.
  intros _. cbv zeta. unfold initializeClient. cbn [default JS.truthy negb loaded].
  unfold worldOf. cbn [indexReady].
  rewrite answers_round by reflexivity. cbv zeta.
  unfold Cli.performSearch.
  cbn [Cli.requirements Cli.useCase Cli.maxBudget Cli.wanted Cli.history
       Cli.conversationState Cli.closed].
  unfold Cli.requestOf. unfold setDemoMode. cbn [searchCache analyticsLog].
  rewrite !first_search_in_demo_mode.
  set (request := Obj {| query := Some (Cli.queryOf (Cli.useCaseOf a1));
                         filters := Some (Cli.filtersOf (Cli.budgetOf a2)
                                            (Cli.prioritiesOf a3));
                         hitsPerPage := Some 5;
                         attributesToRetrieve := None |}).
  unfold demoSearch. cbv zeta. cbn [completion final fst snd].
  assert (Hshown :
    match Cli.displayRecommendations (hits (searchDemoProducts request)) with
    | Some s => s
    | None => Cli.NothingFound
    end =
    match hits (searchDemoProducts request) with
    | [] => Cli.NothingFound
    | best :: rest => Cli.Recommended best (head rest)
    end).
  { unfold Cli.displayRecommendations.
    now destruct (hits (searchDemoProducts request)). }
  rewrite Hshown.
  split; [reflexivity|]. split; [|split].
  - rewrite cacheSet_log. reflexivity.
  - unfold cacheEntries, cacheSet. cbn [searchCache].
    rewrite logAnalytics_cache. cbn [searchCache].
    now rewrite map_size_insert_None, map_size_empty by apply lookup_empty.
  - intros best alt E.
    destruct (hits (searchDemoProducts request)) as [|x rest] eqn:Eh;
      [discriminate E|].
    injection E as <- <-.
    assert (Hin : In x (hits (searchDemoProducts request)))
      by (rewrite Eh; now left).
    assert (Hhead : head (hits (searchDemoProducts request)) = Some x)
      by now rewrite Eh.
    split; [|split; [|split; [|split]]].
    + apply hits_matching in Hin. unfold Filter.matching in Hin.
      apply applyQuery_In in Hin. now apply applyFilters_In in Hin.
    + now apply cli_hits_fields in Hin.
    + intros Hb. now apply cli_hits_price in Hin.
    + intros other Ho. exact (best_is_cheapest request x other Hhead Ho).
    + intros a Ea. apply (best_is_cheapest request x a Hhead).
      apply hits_matching. rewrite Eh. right.
      destruct rest as [|y rest]; [discriminate Ea|].
      injection Ea as ->. now left.
Qed.

Lemma X30_first_round_witness :
  safeInteger (Cli.budgetOf "2000000") = true /\
  exists alt,
    (Cli.answers CONFIG
       [(withoutIndex W0, "viajes"); (withoutIndex W0, "2000000");
        (withoutIndex W0, "precio")]
       (loaded (initializeClient CONFIG None (Return ())))
       Cli.conversationState).2 = [Cli.Recommended demo_3 alt] /\
    price_sale demo_3 < Cli.budgetOf "2000000".
Proof.
  split; [reflexivity|].
  pose proof (X30_first_round_without_a_key (Return ()) W0 W0 W0
                "viajes" "2000000" "precio" eq_refl) as H.
  cbv zeta in H. destruct H as (H1 & _ & _ & H4).
  eexists. split; [exact H1|].
  destruct (H4 _ _ H1) as (_ & _ & Hp & _). apply Hp. discriminate.
Defined.
